(** * Package-registry backend: version ranges, range queries and ingestion

    A shallow embedding of [src/backend/apiPackage.ts] and
    [src/backend/prismaCalls.ts].

    Conventions.
    - A JavaScript string is a [string]: a sequence of code units below 256.
    - A JavaScript number is a [JSNumber]: [NaN], an infinity, or a finite
      double kept by its integer value; what the code computes on numbers
      is rounded to the nearest double.
    - A call that may return, throw or end the process yields an [Outcome].
    - An awaited promise of the database client is a [Promise]: it fulfils or
      rejects at an instant (in milliseconds) or stays pending.
    - The npm package [semver], the Prisma client, JSZip, [JSON.parse] and
      the S3 client are libraries, and the rating calculator [NET_SCORE] and
      the logger are modules outside the two files embedded here; they are
      received as interfaces ([SemverLib], [Env]) or, for the logger, as
      entries appended to a log.  [SemverRef] gives the behaviour of [semver]
      on the fragment of primitive comparators, which is where the worked
      examples live. *)

From Stdlib Require Import ZArith NArith Ascii String List Bool Lia DecimalString.
From stdpp Require Import base option list strings gmap.

Local Open Scope Z_scope.
Set Warnings "-register-all".
#[local] Arguments String.append !s1 s2 : simpl nomatch.
#[local] Arguments Ascii.eqb : simpl never.

(** ** Characters and the string primitives the code calls *)

Module Js.

Definition code (c : ascii) : N := N_of_ascii c.

(** [\d] *)
Definition is_digit (c : ascii) : bool :=
  ((48 <=? code c) && (code c <=? 57))%N.

(** [\s], on code units below 256 *)
Definition is_space (c : ascii) : bool :=
  ((9 <=? code c) && (code c <=? 13) || (code c =? 32) || (code c =? 160))%N.

(** line terminators, which [.] does not match *)
Definition is_newline (c : ascii) : bool :=
  ((code c =? 10) || (code c =? 13))%N.

Definition ch (c : ascii) : string := String c EmptyString.

(** [s.startsWith(p)] *)
Fixpoint startsWith (p s : string) : bool :=
  match p with
  | EmptyString => true
  | String a p' =>
      match s with
      | EmptyString => false
      | String b s' => Ascii.eqb a b && startsWith p' s'
      end
  end.

(** the rest of [s] after the prefix [p], when [s] starts with [p] *)
Fixpoint strip_prefix (p s : string) : option string :=
  match p with
  | EmptyString => Some s
  | String a p' =>
      match s with
      | EmptyString => None
      | String b s' => if Ascii.eqb a b then strip_prefix p' s' else None
      end
  end.

(** [s.includes(p)] *)
Fixpoint includes (p s : string) : bool :=
  startsWith p s ||
  match s with
  | EmptyString => false
  | String _ s' => includes p s'
  end.

(** [s.endsWith(p)] *)
Fixpoint endsWith (p s : string) : bool :=
  String.eqb p s ||
  match s with
  | EmptyString => false
  | String _ s' => endsWith p s'
  end.

(** the longest prefix whose characters satisfy [f], and what follows it *)
Fixpoint span (f : ascii -> bool) (s : string) : string * string :=
  match s with
  | EmptyString => (EmptyString, EmptyString)
  | String c s' =>
      if f c then let (a, r) := span f s' in (String c a, r)
      else (EmptyString, s)
  end.

Fixpoint forallb (f : ascii -> bool) (s : string) : bool :=
  match s with
  | EmptyString => true
  | String c s' => f c && forallb f s'
  end.

(** [s.split(/\s+/)] *)
Fixpoint split_spaces_from (in_space : bool) (s : string) : list string :=
  match s with
  | EmptyString => [EmptyString]
  | String c s' =>
      if is_space c then
        if in_space then split_spaces_from true s'
        else EmptyString :: split_spaces_from true s'
      else
        match split_spaces_from false s' with
        | t :: ts => String c t :: ts
        | [] => [ch c]
        end
  end.

Definition split_spaces : string -> list string := split_spaces_from false.

(** [s.split(c)] for a one-character separator *)
Fixpoint split_char (sep : ascii) (s : string) : list string :=
  match s with
  | EmptyString => [EmptyString]
  | String c s' =>
      if Ascii.eqb c sep then EmptyString :: split_char sep s'
      else
        match split_char sep s' with
        | t :: ts => String c t :: ts
        | [] => [ch c]
        end
  end.

(** [l.join(sep)] *)
Definition join (sep : string) (l : list string) : string := String.concat sep l.

(** [s.replace(p, '')] for a string pattern: the first occurrence goes *)
Fixpoint remove_first (p s : string) : string :=
  match strip_prefix p s with
  | Some r => r
  | None =>
      match s with
      | EmptyString => EmptyString
      | String c s' => String c (remove_first p s')
      end
  end.

End Js.

(** ** Results of calls *)

Inductive JSError : Type :=
  | TypeError (msg : string)
  | Error (msg : string)
  | OutsideFragment.

(** [error.message] *)
Definition message (e : JSError) : string :=
  match e with
  | TypeError msg | Error msg => msg
  | OutsideFragment => ""
  end.

Inductive Outcome (A : Type) : Type :=
  | Returns (a : A)
  | Throws (e : JSError)
  | Exits (status : Z).

Arguments Returns {A} a.
Arguments Throws {A} e.
Arguments Exits {A} status.

Definition obind {A B} (m : Outcome A) (k : A -> Outcome B) : Outcome B :=
  match m with
  | Returns a => k a
  | Throws e => Throws e
  | Exits n => Exits n
  end.

Notation "'let!' x ':=' m 'in' k" := (obind m (fun x => k))
  (at level 10, x name, m at level 100, k at level 200).

(** ** [getMaxVersion] *)

(** [versionRange.replace(/-0/g, '')] *)
Fixpoint strip_dash_zero (s : string) : string :=
  match s with
  | EmptyString => EmptyString
  | String c s' =>
      match s' with
      | String d s'' =>
          if Ascii.eqb c "-" && Ascii.eqb d "0" then strip_dash_zero s''
          else String c (strip_dash_zero s')
      | EmptyString => String c EmptyString
      end
  end.

(** One attempt of [/\d+\.\d+\.\d+/] at the head of [s]: the matched text.
    Each [\d+] is greedy, and giving digits back never helps, because the
    next thing wanted is a dot. *)
Definition match_version_at (s : string) : option string :=
  let (a, r1) := Js.span Js.is_digit s in
  match a, r1 with
  | String _ _, String "." r1' =>
      let (b, r2) := Js.span Js.is_digit r1' in
      match b, r2 with
      | String _ _, String "." r2' =>
          let (c, _) := Js.span Js.is_digit r2' in
          match c with
          | String _ _ => Some (a +:+ "." +:+ b +:+ "." +:+ c)
          | EmptyString => None
          end
      | _, _ => None
      end
  | _, _ => None
  end.

(** [s.match(/\d+\.\d+\.\d+/g)]: the matches from left to right, each search
    resuming where the previous match ended ([skip] counts the characters of
    the last match still to pass). *)
Fixpoint match_versions_from (skip : nat) (s : string) : list string :=
  match s with
  | EmptyString => []
  | String _ s' =>
      match skip with
      | S k => match_versions_from k s'
      | O =>
          match match_version_at s with
          | Some m => m :: match_versions_from (Nat.pred (String.length m)) s'
          | None => match_versions_from 0 s'
          end
      end
  end.

Definition match_versions : string -> list string := match_versions_from 0.

Definition getMaxVersion (versionRange : string) : Outcome string :=
  let versionRange := strip_dash_zero versionRange in
  let versions := match_versions versionRange in
  match last versions with
  | Some v => Returns v
  | None => Exits 1
  end.

(** ** [parseGitHubUrl] *)

Record GithubInfo : Type := { owner : string; repo : string }.

Definition not_slash (c : ascii) : bool := negb (Ascii.eqb c "/").
Definition not_slash_dot (c : ascii) : bool :=
  negb (Ascii.eqb c "/") && negb (Ascii.eqb c ".").

(** One attempt of [/github\.com[/:]([^/]+)\/([^/.]+)(\.git)?/] at the head
    of [s]: the two groups.  The first group runs up to the next slash, the
    second as far as it can; the optional [.git] captures nothing we read. *)
Definition match_github_at (s : string) : option (string * string) :=
  match Js.strip_prefix "github.com" s with
  | Some (String sep r) =>
      if Ascii.eqb sep "/" || Ascii.eqb sep ":" then
        let (o, r1) := Js.span not_slash r in
        match o, r1 with
        | String _ _, String "/" r1' =>
            let (p, _) := Js.span not_slash_dot r1' in
            match p with
            | String _ _ => Some (o, p)
            | EmptyString => None
            end
        | _, _ => None
        end
      else None
  | _ => None
  end.

(** [url.match(regex)]: the leftmost position where an attempt succeeds *)
Fixpoint match_github (s : string) : option (string * string) :=
  match match_github_at s with
  | Some g => Some g
  | None =>
      match s with
      | EmptyString => None
      | String _ s' => match_github s'
      end
  end.

Definition parseGitHubUrl (url : string) : option GithubInfo :=
  match match_github url with
  | Some (String a o, String b p) =>
      Some {| owner := String a o;
              repo := Js.remove_first ".git" (String b p) |}
  | _ => None
  end.

(** ** The [semver] package, as [parseVersion] uses it *)

Inductive PreId : Type :=
  | PNum (n : N)
  | PStr (s : string).

(** A [SemVer] object; its [version] property is the formatted text. *)
Record SemVer : Type :=
  { major : N; minor : N; patch : N; prerelease : list PreId }.

Definition N_to_string (n : N) : string :=
  DecimalString.NilEmpty.string_of_uint (N.to_uint n).

Definition Z_to_string (z : Z) : string :=
  DecimalString.NilZero.string_of_int (Z.to_int z).

Definition PreId_to_string (i : PreId) : string :=
  match i with
  | PNum n => N_to_string n
  | PStr s => s
  end.

Definition version (v : SemVer) : string :=
  N_to_string (major v) +:+ "." +:+ N_to_string (minor v) +:+ "." +:+
  N_to_string (patch v) +:+
  match prerelease v with
  | [] => ""
  | ids => "-" +:+ Js.join "." (map PreId_to_string ids)
  end.

(** The two entry points of the package that the code calls. *)
Record SemverLib : Type :=
  { toComparators : string -> Outcome (list (list string));
    minVersion : string -> Outcome (option SemVer) }.

(** ** [parseVersion] *)

Record VersionRange : Type :=
  { min : string; max : string; minInclusive : bool; maxInclusive : bool }.

(** What [semver.minVersion(validRange)?.version] can evaluate to. *)
Inductive OptionalVersion : Type :=
  | VNull
  | VUndefined
  | VString (s : string).

Definition optional_version (o : option SemVer) : OptionalVersion :=
  match o with
  | None => VUndefined
  | Some v => VString (version v)
  end.

(** [tokens[i].startsWith(p)]; reading a property of [undefined] throws *)
Definition token_startsWith (tokens : list string) (i : nat) (p : string)
  : Outcome bool :=
  match tokens !! i with
  | Some t => Returns (Js.startsWith p t)
  | None => Throws (TypeError "Cannot read properties of undefined")
  end.

Section ParseVersion.

Variable semver : SemverLib.

Definition validRange_of (comparators : list (list string)) : string :=
  Js.join " || " (map (Js.join " ") comparators).

Definition parseVersion (version : string) : Outcome VersionRange :=
  let! comparators := toComparators semver version in
  let validRange := validRange_of comparators in
  let! found := minVersion semver validRange in
  match optional_version found with
  | VNull => Exits 1
  | VUndefined => Exits 1
  | VString minVersion =>
      let! maxVersion := getMaxVersion validRange in
      if negb (Js.includes " " validRange) then
        Returns {| min := minVersion; max := maxVersion;
                   minInclusive := true; maxInclusive := true |}
      else
        let tokens := Js.split_spaces validRange in
        let! lo := token_startsWith tokens 0 ">=" in
        let! hi := token_startsWith tokens 1 "<=" in
        Returns {| min := minVersion; max := maxVersion;
                   minInclusive := lo; maxInclusive := hi |}
  end.

End ParseVersion.

(** ** Reference behaviour of [semver] on primitive comparators

    The fragment: the empty range, or comparators separated by single
    spaces, each an operator among [>=], [<=], [>], [<], [=] or none, glued
    to a strict version [major.minor.patch] with an optional pre-release
    tag; numeric parts have at most 15 digits; the comparators are pairwise
    distinct, and neither [>=0.0.0] nor [<0.0.0-0] occurs.  On this fragment
    the package parses a range into exactly the comparators written, and
    [SemverRef] follows its [Range], [Comparator] and [minVersion] code.
    Everywhere else [SemverRef] answers [OutsideFragment]. *)

Module SemverRef.

Inductive Operator : Type := OpEq | OpGt | OpGe | OpLt | OpLe.

(** [operand = None] is the comparator [ANY], written as the empty string *)
Record Comparator : Type :=
  { operator : Operator; operand : option SemVer }.

Definition Operator_to_string (o : Operator) : string :=
  match o with
  | OpEq => ""
  | OpGt => ">"
  | OpGe => ">="
  | OpLt => "<"
  | OpLe => "<="
  end.

(** [comparator.value] *)
Definition value (c : Comparator) : string :=
  match operand c with
  | None => ""
  | Some v => Operator_to_string (operator c) +:+ version v
  end.

Definition digit_value (c : ascii) : N := (Js.code c - 48)%N.

Fixpoint digits_value (acc : N) (s : string) : N :=
  match s with
  | EmptyString => acc
  | String c s' => digits_value (10 * acc + digit_value c)%N s'
  end.

(** [0|[1-9]\d*], read as a number *)
Definition parse_numeric (s : string) : option N :=
  match s with
  | EmptyString => None
  | String c s' =>
      if Js.forallb Js.is_digit s
         && (String.eqb s "0" || negb (Ascii.eqb c "0"))
         && (String.length s <=? 15)%nat
      then Some (digits_value 0 s)
      else None
  end.

Definition is_ident_char (c : ascii) : bool :=
  let n := Js.code c in
  (Js.is_digit c || (65 <=? n) && (n <=? 90) || (97 <=? n) && (n <=? 122)
   || (n =? 45))%N.

(** one dot-separated part of a pre-release tag *)
Definition parse_preid (s : string) : option PreId :=
  match s with
  | EmptyString => None
  | String _ _ =>
      if Js.forallb Js.is_digit s then PNum <$> parse_numeric s
      else if Js.forallb is_ident_char s then Some (PStr s)
      else None
  end.

Definition not_dash (c : ascii) : bool := negb (Ascii.eqb c "-").

(** [new SemVer(s)] in strict mode, without build metadata *)
Definition parse_semver (s : string) : option SemVer :=
  let (main, rest) := Js.span not_dash s in
  match Js.split_char "." main with
  | [a; b; c] =>
      M ← parse_numeric a;
      m ← parse_numeric b;
      p ← parse_numeric c;
      match rest with
      | EmptyString =>
          Some {| major := M; minor := m; patch := p; prerelease := [] |}
      | String _ tag =>
          ids ← mapM parse_preid (Js.split_char "." tag);
          Some {| major := M; minor := m; patch := p; prerelease := ids |}
      end
  | _ => None
  end.

Definition parse_operator (s : string) : Operator * string :=
  match s with
  | String ">" (String "=" r) => (OpGe, r)
  | String "<" (String "=" r) => (OpLe, r)
  | String ">" r => (OpGt, r)
  | String "<" r => (OpLt, r)
  | String "=" r => (OpEq, r)
  | _ => (OpEq, s)
  end.

(** [new Comparator(s)] for a non-empty [s] *)
Definition parse_comparator (s : string) : option Comparator :=
  let (o, r) := parse_operator s in
  v ← parse_semver r;
  Some {| operator := o; operand := Some v |}.

Definition ANY : Comparator := {| operator := OpEq; operand := None |}.

Definition in_fragment (cs : list Comparator) : bool :=
  bool_decide (NoDup (map value cs))
  && negb (bool_decide (">=0.0.0" ∈ map value cs))
  && negb (bool_decide ("<0.0.0-0" ∈ map value cs)).

(** [new Range(s).set], which has a single comparator set here *)
Definition parse_range (s : string) : option (list Comparator) :=
  match s with
  | EmptyString => Some [ANY]
  | String _ _ =>
      cs ← mapM parse_comparator (Js.split_char " " s);
      if in_fragment cs then Some cs else None
  end.

(** [compareIdentifiers] *)
Definition compare_ids (a b : PreId) : comparison :=
  match a, b with
  | PNum x, PNum y => (x ?= y)%N
  | PNum _, PStr _ => Lt
  | PStr _, PNum _ => Gt
  | PStr x, PStr y => String.compare x y
  end.

(** the loop of [comparePre] *)
Fixpoint compare_tags (a b : list PreId) : comparison :=
  match a, b with
  | [], [] => Eq
  | _ :: _, [] => Gt
  | [], _ :: _ => Lt
  | x :: a', y :: b' =>
      match compare_ids x y with
      | Eq => compare_tags a' b'
      | c => c
      end
  end.

Definition comparePre (a b : SemVer) : comparison :=
  match prerelease a, prerelease b with
  | _ :: _, [] => Lt
  | [], _ :: _ => Gt
  | [], [] => Eq
  | x, y => compare_tags x y
  end.

Definition compareMain (a b : SemVer) : comparison :=
  match (major a ?= major b)%N with
  | Eq =>
      match (minor a ?= minor b)%N with
      | Eq => (patch a ?= patch b)%N
      | c => c
      end
  | c => c
  end.

Definition compare (a b : SemVer) : comparison :=
  match compareMain a b with
  | Eq => comparePre a b
  | c => c
  end.

Definition gt (a b : SemVer) : bool :=
  match compare a b with Gt => true | _ => false end.

(** [comparator.test(v)] *)
Definition test (c : Comparator) (v : SemVer) : bool :=
  match operand c with
  | None => true
  | Some w =>
      match operator c, compare v w with
      | OpEq, Eq => true
      | OpGt, Gt => true
      | OpGe, (Gt | Eq) => true
      | OpLt, Lt => true
      | OpLe, (Lt | Eq) => true
      | _, _ => false
      end
  end.

Definition has_tag (v : SemVer) : bool :=
  match prerelease v with [] => false | _ => true end.

Definition same_tuple (a b : SemVer) : bool :=
  ((major a =? major b) && (minor a =? minor b) && (patch a =? patch b))%N.

(** [testSet] without [includePrerelease] *)
Definition testSet (set : list Comparator) (v : SemVer) : bool :=
  List.forallb (fun c => test c v) set &&
  (if has_tag v then
     existsb (fun c => match operand c with
                       | Some a => has_tag a && same_tuple a v
                       | None => false
                       end) set
   else true).

(** the body of the [forEach] in [minVersion] *)
Definition step_setMin (setMin : option SemVer) (c : Comparator)
  : Outcome (option SemVer) :=
  match operand c with
  | None => Throws (TypeError "Invalid Version: undefined")
  | Some w =>
      let raise compver :=
        match setMin with
        | None => Some compver
        | Some m => if gt compver m then Some compver else setMin
        end in
      match operator c with
      | OpGt =>
          Returns (raise
            (match prerelease w with
             | [] => {| major := major w; minor := minor w;
                        patch := patch w + 1; prerelease := [] |}
             | tag => {| major := major w; minor := minor w;
                         patch := patch w; prerelease := tag ++ [PNum 0] |}
             end))
      | OpEq | OpGe => Returns (raise w)
      | OpLt | OpLe => Returns setMin
      end
  end.

Fixpoint fold_setMin (setMin : option SemVer) (set : list Comparator)
  : Outcome (option SemVer) :=
  match set with
  | [] => Returns setMin
  | c :: set' =>
      let! setMin' := step_setMin setMin c in
      fold_setMin setMin' set'
  end.

Definition zero : SemVer :=
  {| major := 0; minor := 0; patch := 0; prerelease := [] |}.
Definition zero_pre : SemVer :=
  {| major := 0; minor := 0; patch := 0; prerelease := [PNum 0] |}.

(** [minVersion] on a range of one comparator set *)
Definition min_of_set (set : list Comparator) : Outcome (option SemVer) :=
  if testSet set zero then Returns (Some zero)
  else if testSet set zero_pre then Returns (Some zero_pre)
  else
    let! setMin := fold_setMin None set in
    match setMin with
    | Some m => if testSet set m then Returns (Some m) else Returns None
    | None => Returns None
    end.

Definition ref_toComparators (range : string) : Outcome (list (list string)) :=
  match parse_range range with
  | Some set => Returns [map value set]
  | None => Throws OutsideFragment
  end.

Definition ref_minVersion (range : string) : Outcome (option SemVer) :=
  match parse_range range with
  | Some set => min_of_set set
  | None => Throws OutsideFragment
  end.

Definition lib : SemverLib :=
  {| toComparators := ref_toComparators; minVersion := ref_minVersion |}.

End SemverRef.

(** ** JavaScript values that cross the HTTP and JSON boundaries *)

(** The numbers met here are page offsets and counts: a finite number is
    kept by its integer value [z], which is to be a double; the sign of a
    zero is not kept (the code passes these numbers to [Math.max(1, _)] and
    to [String], which do not tell the two zeros apart). *)
Inductive JSNumber : Type :=
  | NaN
  | Num (z : Z)
  | Infinity (negative : bool).

(** The Number value of the integer [z]: the nearest double, a tie going to
    the even significand of 53 bits, and an infinity from [2^1024] on. *)
Definition double_of_Z (z : Z) : JSNumber :=
  let a := Z.abs z in
  if a <? 2 ^ 53 then Num z
  else
    let shift := Z.log2 a - 52 in
    let q := Z.shiftr a shift in
    let r := a - Z.shiftl q shift in
    let half := 2 ^ (shift - 1) in
    let q' := if (half <? r) || (r =? half) && Z.odd q then q + 1 else q in
    let m := Z.shiftl q' shift in
    if 2 ^ 1024 <=? m then Infinity (z <? 0) else Num (Z.sgn z * m).

Inductive JSValue : Type :=
  | JUndefined
  | JNull
  | JBool (b : bool)
  | JNumber (n : JSNumber)
  | JString (s : string)
  | JObject (fields : gmap string JSValue).

Definition truthy (v : JSValue) : bool :=
  match v with
  | JUndefined | JNull => false
  | JBool b => b
  | JNumber NaN => false
  | JNumber (Num z) => negb (z =? 0)
  | JNumber (Infinity _) => true
  | JString s => negb (String.eqb s "")
  | JObject _ => true
  end.

Definition is_undefined (v : JSValue) : bool :=
  match v with JUndefined => true | _ => false end.

(** [v.k]: reading a property of [undefined] or [null] throws; the keys read
    here are no properties of the primitives *)
Definition get (v : JSValue) (k : string) : Outcome JSValue :=
  match v with
  | JUndefined | JNull =>
      Throws (TypeError "Cannot read properties of undefined")
  | JObject fields => Returns (default JUndefined (fields !! k))
  | _ => Returns JUndefined
  end.

(** [v?.k] *)
Definition get_optional (v : JSValue) (k : string) : JSValue :=
  match v with
  | JObject fields => default JUndefined (fields !! k)
  | _ => JUndefined
  end.

(** [Math.max(1, n)] *)
Definition max_one (n : JSNumber) : JSNumber :=
  match n with
  | NaN => NaN
  | Num z => Num (Z.max 1 z)
  | Infinity negative => if negative then Num 1 else Infinity false
  end.

(** ** Promises of the database client *)

Inductive Promise (A : Type) : Type :=
  | Fulfilled (at_ms : N) (v : A)
  | Rejected (at_ms : N) (e : JSError)
  | Pending.

Arguments Fulfilled {A} at_ms v.
Arguments Rejected {A} at_ms e.
Arguments Pending {A}.

(** ** [prismaCalls.ts]: the two metadata queries *)

Record MetadataRow : Type :=
  { row_name : JSValue; row_version : JSValue; row_id : string }.

(** The object literal [whereCondition]: the [version] filter with its two
    computed keys, and the [name] property, which exists only once assigned. *)
Record WhereCondition : Type :=
  { where_version : gmap string string; where_name : option JSValue }.

Record FindManyArgs : Type :=
  { where_ : WhereCondition; skip : JSNumber; take : JSNumber }.

(** the arguments of one call of [getMetaDataByQuery] *)
Record QueryCall : Type :=
  { queryName : JSValue; minVersion_arg : string; maxVersion_arg : string;
    minInclusive_arg : bool; maxInclusive_arg : bool; offset : JSNumber }.

(** [queryName !== '*'] *)
Definition is_not_wildcard (v : JSValue) : bool :=
  match v with
  | JString s => negb (String.eqb s "*")
  | _ => true
  end.

Definition whereCondition (c : QueryCall) : WhereCondition :=
  {| where_version :=
       <[ (if maxInclusive_arg c then "lte" else "lt") := minVersion_arg c ]>
         (<[ (if minInclusive_arg c then "gte" else "gt") := maxVersion_arg c ]>
            ∅);
     where_name :=
       if is_not_wildcard (queryName c) then Some (queryName c) else None |}.

Definition pageSize : Z := 10.

(** [(page - 1) * pageSize], each operation giving the double nearest to
    its exact result *)
Definition recordsToSkip (offset : JSNumber) : JSNumber :=
  match max_one offset with
  | NaN => NaN
  | Infinity negative => Infinity negative
  | Num page =>
      match double_of_Z (page - 1) with
      | Num below => double_of_Z (below * pageSize)
      | other => other
      end
  end.

Definition findManyArgs (c : QueryCall) : FindManyArgs :=
  {| where_ := whereCondition c;
     skip := recordsToSkip (offset c);
     take := Num pageSize |}.

Section Queries.

(** [prisma.packageMetadata.findMany] for a range query, and for a
    [name: { contains }] query *)
Variable findMany : FindManyArgs -> Promise (list MetadataRow).
Variable findManyContains : string -> Promise (list MetadataRow).

Definition getMetaDataByQuery (c : QueryCall)
  : Promise (option (list MetadataRow)) :=
  match findMany (findManyArgs c) with
  | Fulfilled t packages => Fulfilled t (Some packages)
  | Rejected t _ => Fulfilled t None
  | Pending => Pending
  end.

Definition timeout_ms : N := 5000.

(** [Promise.race([p, timeoutPromise])], the timer rejecting at
    [timeout_ms]; a promise settling at that very instant loses to the
    timer, whose callback is run first. *)
Definition race_timeout {A} (p : Promise A) : Promise A :=
  match p with
  | Fulfilled t v =>
      if (t <? timeout_ms)%N then Fulfilled t v
      else Rejected timeout_ms (Error "Query timeout after 5 seconds")
  | Rejected t e =>
      if (t <? timeout_ms)%N then Rejected t e
      else Rejected timeout_ms (Error "Query timeout after 5 seconds")
  | Pending => Rejected timeout_ms (Error "Query timeout after 5 seconds")
  end.

Definition getMetaDataByRegEx (regEx : string)
  : Promise (option (list MetadataRow)) :=
  match race_timeout (findManyContains regEx) with
  | Fulfilled t result => Fulfilled t (Some result)
  | Rejected t _ => Fulfilled t None
  | Pending => Pending
  end.

End Queries.

(** ** [apiPackage.ts]: the query handler [getPackages] *)

(** [parseInt(s)] with no radix: leading white space, a sign, then decimal
    digits, or hexadecimal ones after [0x]; [NaN] when no digit is there *)
Module ParseInt.

Definition hex_value (c : ascii) : option Z :=
  let n := Z.of_N (Js.code c) in
  if (48 <=? n) && (n <=? 57) then Some (n - 48)
  else if (97 <=? n) && (n <=? 102) then Some (n - 87)
  else if (65 <=? n) && (n <=? 70) then Some (n - 55)
  else None.

Definition dec_value (c : ascii) : option Z :=
  if Js.is_digit c then Some (Z.of_N (Js.code c) - 48) else None.

(** the digits at the head of [s], read in the given radix *)
Fixpoint digits (value : ascii -> option Z) (radix : Z) (acc : option Z)
  (s : string) : option Z :=
  match s with
  | EmptyString => acc
  | String c s' =>
      match value c with
      | Some d => digits value radix (Some (radix * default 0 acc + d)) s'
      | None => acc
      end
  end.

Definition unsigned (s : string) : option Z :=
  match s with
  | String "0" (String ("x" | "X") r) => digits hex_value 16 None r
  | _ => digits dec_value 10 None s
  end.

Definition parseInt (s : string) : JSNumber :=
  let (_, s1) := Js.span Js.is_space s in
  let (sign, s2) :=
    match s1 with
    | String "-" r => (-1, r)
    | String "+" r => (1, r)
    | _ => (1, s1)
    end in
  match unsigned s2 with
  | Some z => double_of_Z (sign * z)
  | None => NaN
  end.

End ParseInt.

Record UploadedFile : Type := { originalname : string; buffer : string }.

Record Request : Type :=
  { query : gmap string string; body : JSValue; file : option UploadedFile }.

Record ApiPackageMetadata : Type :=
  { Name : JSValue; Version : JSValue; ID : string }.

Record PackageData : Type := { Content : string; JSProgram : string }.

Record Package : Type :=
  { metadata : ApiPackageMetadata; data : PackageData }.

Inductive Payload : Type :=
  | Send (text : string)
  | SendError (text : string) (cause : JSError)
  | JsonMetadata (l : list ApiPackageMetadata)
  | JsonPackage (p : Package).

Record Response : Type :=
  { status : Z; headers : list (string * JSNumber); payload : Payload }.

Definition respond (code : Z) (p : Payload) : Response :=
  {| status := code; headers := []; payload := p |}.

Inductive HandlerResult : Type :=
  | Responds (r : Response)
  | ProcessExits (code : Z)
  | NeverResponds.

Definition toApi (row : MetadataRow) : ApiPackageMetadata :=
  {| Name := row_name row; Version := row_version row; ID := row_id row |}.

Section GetPackages.

Variable semver : SemverLib.
Variable findMany : FindManyArgs -> Promise (list MetadataRow).

(** [parseVersion(req.body.Version as string)]: the cast changes nothing at
    run time, and [semver] throws on anything but a string *)
Definition parseVersion_of (v : JSValue) : Outcome VersionRange :=
  match v with
  | JString s => parseVersion semver s
  | _ => Throws (TypeError "Invalid range")
  end.

(** The handler, together with the calls of [getMetaDataByQuery] it makes. *)
Definition getPackages (req : Request) : HandlerResult * list QueryCall :=
  let offset :=
    match query req !! "offset" with
    | None => Num 1
    | Some s => ParseInt.parseInt s
    end in
  if is_undefined (get_optional (body req) "Name") then
    (Responds (respond 400 (Send "Error in getPackageMetaData: Name is undefined")), [])
  else if is_undefined (get_optional (body req) "Version") then
    (Responds (respond 400 (Send "Error in getPackageMetaData: Version is undefined")), [])
  else
    let failed e :=
      Responds (respond 500 (SendError "Error in getPackageMetaData: " e)) in
    match
      (let! queryName := get (body req) "name" in
       let! version := get (body req) "Version" in
       let! range := parseVersion_of version in
       Returns {| queryName := queryName;
                  minVersion_arg := min range; maxVersion_arg := max range;
                  minInclusive_arg := minInclusive range;
                  maxInclusive_arg := maxInclusive range;
                  offset := offset |})
    with
    | Throws e => (failed e, [])
    | Exits n => (ProcessExits n, [])
    | Returns call =>
        (match getMetaDataByQuery findMany call with
         | Fulfilled _ None =>
             Responds (respond 500
               (Send "Error in getPackageMetaData: packageMetaData is null"))
         | Fulfilled _ (Some rows) =>
             Responds {| status := 200; headers := [("offset", offset)];
                         payload := JsonMetadata (map toApi rows) |}
         | Rejected _ e => failed e
         | Pending => NeverResponds
         end, [call])
    end.

End GetPackages.

(** ** [apiPackage.ts] and [prismaCalls.ts]: ingestion of an upload *)

Inductive Action : Type := CREATE | UPDATE | DOWNLOAD | RATE.

Record HistoryRow : Type :=
  { history_metadataId : string; history_userId : Z;
    history_action : Action; history_date : N }.

(** what [NET_SCORE.calculate] resolves to; the scores are passed on as
    they are *)
Record NetScoreResult : Type :=
  { NET_SCORE : JSValue; RAMP_UP_SCORE : JSValue; CORRECTNESS_SCORE : JSValue;
    BUS_FACTOR_SCORE : JSValue; RESPONSIVE_MAINTAINER_SCORE : JSValue;
    LICENSE_SCORE : JSValue; GOOD_PINNING_PRACTICE_SCORE : JSValue;
    PULL_REQUEST_SCORE : JSValue }.

Record PackageRating : Type :=
  { BusFactor : JSValue; Correctness : JSValue; RampUp : JSValue;
    ResponsiveMaintainer : JSValue; LicenseScore : JSValue;
    GoodPinningPractice : JSValue; PullRequest : JSValue; NetScore : JSValue }.

Record RatingRow : Type :=
  { rating_metadataId : string; rating : PackageRating }.

Record LogEntry : Type :=
  { channel : string; line : string; cause : option JSError }.

(** The tables behind the Prisma client, the S3 bucket and the log. *)
Record World : Type :=
  { metadataTable : list MetadataRow;
    historyTable : list HistoryRow;
    ratingTable : list RatingRow;
    userTable : list Z;
    bucket : list (string * string);
    logs : list LogEntry }.

Record ZipEntry : Type :=
  { entry_name : string; entry_dir : bool; entry_text : string }.

Inductive DbCall : Type :=
  | CountHistory | CreateMetadata | FindMetadata | FindUser | CreateHistory
  | CreateRating.

(** What one request meets outside the sources: the archive as JSZip opens
    it (entries with distinct names, in order), [JSON.parse], the identifier
    and the date drawn, base64 encoding, whether the database client raises
    at a call, the rating calculator, and the S3 configuration and client. *)
Record Env : Type :=
  { loadAsync : string -> Outcome (list ZipEntry);
    JSON_parse : string -> Outcome JSValue;
    uuidv4 : string;
    now : N;
    toBase64 : string -> string;
    db_fault : DbCall -> option JSError;
    calculate : string -> string -> Outcome NetScoreResult;
    AWS_S3_BUCKET_NAME : option string;
    s3_upload : string -> string -> string -> option JSError }.

(** Computations that read and change the world and may throw; what was
    written before a throw stays written. *)
Definition M (A : Type) : Type := World -> Outcome A * World.

Definition ret {A} (a : A) : M A := fun w => (Returns a, w).
Definition throw {A} (e : JSError) : M A := fun w => (Throws e, w).
Definition lift {A} (o : Outcome A) : M A := fun w => (o, w).

Definition bind {A B} (m : M A) (k : A -> M B) : M B :=
  fun w =>
    match m w with
    | (Returns a, w') => k a w'
    | (Throws e, w') => (Throws e, w')
    | (Exits n, w') => (Exits n, w')
    end.

Notation "'do' x '<-' m ';' k" := (bind m (fun x => k))
  (at level 10, x name, m at level 100, k at level 200).
Notation "'run' m ';' k" := (bind m (fun _ => k))
  (at level 10, m at level 100, k at level 200).

(** [try { m } catch (error) { handler error }] *)
Definition try_catch {A} (m : M A) (handler : JSError -> M A) : M A :=
  fun w =>
    match m w with
    | (Throws e, w') => handler e w'
    | r => r
    end.

Definition log (ch text : string) (c : option JSError) : M unit :=
  fun w =>
    (Returns tt,
     {| metadataTable := metadataTable w; historyTable := historyTable w;
        ratingTable := ratingTable w; userTable := userTable w;
        bucket := bucket w;
        logs := logs w ++ [{| channel := ch; line := text; cause := c |}] |}).

Definition insert_metadata (r : MetadataRow) : M unit :=
  fun w =>
    (Returns tt,
     {| metadataTable := metadataTable w ++ [r];
        historyTable := historyTable w; ratingTable := ratingTable w;
        userTable := userTable w; bucket := bucket w; logs := logs w |}).

Definition insert_history (r : HistoryRow) : M unit :=
  fun w =>
    (Returns tt,
     {| metadataTable := metadataTable w;
        historyTable := historyTable w ++ [r]; ratingTable := ratingTable w;
        userTable := userTable w; bucket := bucket w; logs := logs w |}).

Definition insert_rating (r : RatingRow) : M unit :=
  fun w =>
    (Returns tt,
     {| metadataTable := metadataTable w; historyTable := historyTable w;
        ratingTable := ratingTable w ++ [r];
        userTable := userTable w; bucket := bucket w; logs := logs w |}).

Definition put_object (key content : string) : M unit :=
  fun w =>
    (Returns tt,
     {| metadataTable := metadataTable w; historyTable := historyTable w;
        ratingTable := ratingTable w; userTable := userTable w;
        bucket := bucket w ++ [(key, content)]; logs := logs w |}).

Definition read {A} (f : World -> A) : M A := fun w => (Returns (f w), w).

(** A pattern made of literal characters and dots, matched at the head of
    [s] up to its end: a dot stands for any character but a line end. *)
Fixpoint match_literal (pattern s : string) : bool :=
  match pattern, s with
  | EmptyString, EmptyString => true
  | String p pattern', String c s' =>
      (if Ascii.eqb p "." then negb (Js.is_newline c) else Ascii.eqb p c)
      && match_literal pattern' s'
  | _, _ => false
  end.

(** [new RegExp(`^.*${filename}$`).test(s)] for a [filename] of letters and
    dots *)
Fixpoint matches_suffix_pattern (filename s : string) : bool :=
  match_literal filename s ||
  match s with
  | EmptyString => false
  | String c s' => negb (Js.is_newline c) && matches_suffix_pattern filename s'
  end.

Section Ingestion.

Variable env : Env.

(** a call of the database client: it raises when the environment says so *)
Definition db (c : DbCall) : M unit :=
  match db_fault env c with
  | Some e => throw e
  | None => ret tt
  end.

Definition extractFileFromZip (zipBuffer filename : string) : M string :=
  do zip <- lift (loadAsync env zipBuffer);
  let file :=
    match List.find (fun e => String.eqb (entry_name e) filename) zip with
    | Some e => if entry_dir e then None else Some e
    | None => None
    end in
  let file :=
    match file with
    | Some e => Some e
    | None =>
        head (List.filter
                (fun e => negb (entry_dir e)
                          && matches_suffix_pattern filename (entry_name e))
                zip)
    end in
  match file with
  | None =>
      run log "API Package Calls" (filename +:+ " not found inside the zip.") None;
      throw (Error (filename +:+ " not found inside the zip."))
  | Some e => ret (entry_text e)
  end.

(** [url.replace(/\.git$/, '')] *)
Fixpoint strip_git_suffix (url : string) : string :=
  match url with
  | EmptyString => EmptyString
  | String c url' =>
      if String.eqb url ".git" then EmptyString
      else String c (strip_git_suffix url')
  end.

Definition getGithubUrlFromZip (zipBuffer : string) : M string :=
  try_catch
    (if String.eqb zipBuffer "" then
       throw (Error "Empty or invalid zip buffer provided")
     else
       do packageJsonString <- extractFileFromZip zipBuffer "package.json";
       if String.eqb packageJsonString "" then
         throw (Error "package.json not found or empty in the zip file")
       else
         run log "API Package Calls"
               ("Extracted package.json content: " +:+ packageJsonString) None;
         do packageJson <-
           try_catch (lift (JSON_parse env packageJsonString))
             (fun error =>
                throw (Error ("Failed to parse package.json: "
                              +:+ message error)));
         do repository <- lift (get packageJson "repository");
         let url :=
           if truthy (get_optional repository "url")
           then get_optional repository "url" else repository in
         match url with
         | JString (String a u) =>
             let url := String a u in
             let url :=
               if Js.startsWith "github:" url
               then "https://github.com/" +:+ String.substring 7 (String.length url - 7) url
               else url in
             let url := strip_git_suffix url in
             run log "API Package Calls" ("GitHub URL extracted: " +:+ url) None;
             ret url
         | _ => throw (Error "GitHub repository URL not found in package.json")
         end)
    (fun error =>
       run log "API Package Calls"
             "An error occurred while extracting the GitHub URL: " (Some error);
       throw error).

Definition extractMetadataFromZip (filebuffer : string) : M ApiPackageMetadata :=
  try_catch
    (do packageContent <- extractFileFromZip filebuffer "package.json";
     do packageJson <- lift (JSON_parse env packageContent);
     do name <- lift (get packageJson "name");
     do version <- lift (get packageJson "version");
     ret {| Name := name; Version := version; ID := uuidv4 env |})
    (fun error =>
       run log "API Package Calls"
             "An error occurred while extracting metadata from zip:" (Some error);
       throw error).

Definition checkPackageHistoryExists (metadataId : string) : M bool :=
  run db CountHistory;
  do rows <- read historyTable;
  ret (0 <? Z.of_nat (length (List.filter
         (fun h => String.eqb (history_metadataId h) metadataId) rows))).

Definition uploadMetadataToDatabase (metadata : ApiPackageMetadata) : M unit :=
  try_catch
    (run db CreateMetadata;
     insert_metadata {| row_name := Name metadata;
                        row_version := Version metadata;
                        row_id := ID metadata |})
    (fun error =>
       run log "Prisma Calls" "Error in uploadMetadataToDatabase: " (Some error);
       throw (Error "Failed to upload metadata to the database.")).

Definition createPackageHistoryEntry (metadataId : string) (userId : Z)
  (action : Action) : M unit :=
  try_catch
    (run db FindMetadata;
     do rows <- read metadataTable;
     if negb (existsb (fun r => String.eqb (row_id r) metadataId) rows) then
       throw (Error ("No metadata found for ID: " +:+ metadataId))
     else
       run db FindUser;
       do users <- read userTable;
       if negb (existsb (Z.eqb userId) users) then
         throw (Error ("No user found for ID: " +:+ Z_to_string userId))
       else
         run db CreateHistory;
         insert_history {| history_metadataId := metadataId;
                           history_userId := userId;
                           history_action := action;
                           history_date := now env |})
    (fun error =>
       run log "Prisma Calls" "Error in createPackageHistoryEntry: " (Some error);
       throw (Error "Failed to create package history entry in the database.")).

Definition storeMetricsInDatabase (metadataId : string)
  (packageRating : PackageRating) : M unit :=
  try_catch
    (run db CreateRating;
     run insert_rating {| rating_metadataId := metadataId;
                          rating := packageRating |};
     log "Prisma Calls"
       "Package rating metrics stored in the database successfully." None)
    (fun error =>
       run log "Prisma Calls" "Error in storeMetricsInDatabase: " (Some error);
       throw (Error "Failed to store package rating metrics in the database.")).

Definition calculateAndStoreGithubMetrics (metadataId owner repo : string)
  : M unit :=
  try_catch
    (do s <- lift (calculate env owner repo);
     run storeMetricsInDatabase metadataId
           {| BusFactor := BUS_FACTOR_SCORE s;
              Correctness := CORRECTNESS_SCORE s;
              RampUp := RAMP_UP_SCORE s;
              ResponsiveMaintainer := RESPONSIVE_MAINTAINER_SCORE s;
              LicenseScore := LICENSE_SCORE s;
              GoodPinningPractice := GOOD_PINNING_PRACTICE_SCORE s;
              PullRequest := PULL_REQUEST_SCORE s;
              NetScore := NET_SCORE s |};
     log "console.log" "Metrics for the GitHub repository stored successfully."
       None)
    (fun error =>
       log "console.error" "Failed to calculate or store metrics: " (Some error)).

Definition uploadToS3 (fileName fileBuffer : string) : M unit :=
  match AWS_S3_BUCKET_NAME env with
  | None | Some EmptyString => throw (Error "S3 bucket name not configured.")
  | Some bucketName =>
      match s3_upload env bucketName fileName fileBuffer with
      | Some err => throw err
      | None => put_object fileName fileBuffer
      end
  end.

Definition jsProgram : string :=
  "if (process.argv.length === 7) {
console.log('Success')
process.exit(0)
} else {
console.log('Failed')
process.exit(1)
}
".

Definition uploadPackage (req : Request) : M Response :=
  try_catch
    (match file req with
     | None =>
         run log "API Package Calls" "No file provided in the upload." None;
         ret (respond 400 (Send "No file uploaded"))
     | Some f =>
         do metadata <- extractMetadataFromZip (buffer f);
         do url <- getGithubUrlFromZip (buffer f);
         match parseGitHubUrl url with
         | None =>
             run log "console.info" ("Invalid GitHub URL provided: " +:+ url) None;
             run log "API Package Calls" "Invalid GitHub repository URL." None;
             ret (respond 400 (Send "Invalid GitHub repository URL."))
         | Some githubInfo =>
             let PackageData :=
               {| Content := toBase64 env (buffer f);
                  JSProgram := jsProgram |} in
             do packageExists <- checkPackageHistoryExists (ID metadata);
             if packageExists then
               ret (respond 409 (Send "Package Exists Already"))
             else
               run uploadMetadataToDatabase metadata;
               let Package := {| metadata := metadata; data := PackageData |} in
               run createPackageHistoryEntry (ID metadata) 1 CREATE;
               run calculateAndStoreGithubMetrics (ID metadata)
                     (owner githubInfo) (repo githubInfo);
               run uploadToS3 (originalname f) (buffer f);
               ret (respond 200 (JsonPackage Package))
         end
     end)
    (fun error =>
       run log "API Package Calls" "Error in POST /package: " (Some error);
       ret (respond 500 (Send "Internal Server Error"))).

End Ingestion.

(** ** Notions used in the statements *)

(** a non-empty run of decimal digits *)
Definition numeric (s : string) : Prop :=
  s <> "" /\ Js.forallb Js.is_digit s = true.

(** a bare version [major.minor.patch], with no tag and no operator *)
Definition plain_version (v : string) : Prop :=
  exists a b c, numeric a /\ numeric b /\ numeric c /\
    v = a +:+ "." +:+ b +:+ "." +:+ c.

Definition numericb (s : string) : bool :=
  negb (String.eqb s "") && Js.forallb Js.is_digit s.

(** the numbers [major], [minor], [patch] a version text starts with *)
Definition triple_of (s : string) : option (N * N * N) :=
  let (main, _) := Js.span SemverRef.not_dash s in
  match Js.split_char "." main with
  | [a; b; c] =>
      if numericb a && numericb b && numericb c then
        Some (SemverRef.digits_value 0 a, SemverRef.digits_value 0 b,
              SemverRef.digits_value 0 c)
      else None
  | _ => None
  end.

(** semantic-version ordering: major, then minor, then patch *)
Definition triple_leb (x y : N * N * N) : bool :=
  let '(a, b, c) := x in
  let '(d, e, f) := y in
  ((a <? d) || (a =? d) && ((b <? e) || (b =? e) && (c <=? f)))%N.



(** The shape [parseGitHubUrl] looks for, anywhere in the text:
    [github.com], a slash or a colon, an owner up to a slash, and a
    repository name that starts after it. *)
Definition github_shape (url : string) : Prop :=
  exists pre sep o p rest,
    url = pre +:+ "github.com" +:+ String sep (o +:+ "/" +:+ p +:+ rest)
    /\ (sep = "/" \/ sep = ":")%char
    /\ o <> "" /\ Js.forallb not_slash o = true
    /\ p <> "" /\ Js.forallb not_slash_dot p = true.

(** The [version] filter a range predicate is meant to be: the lower
    comparator on the minimum, the upper comparator on the maximum. *)
Definition intended_version_filter (c : QueryCall) : gmap string string :=
  <[ (if maxInclusive_arg c then "lte" else "lt") := maxVersion_arg c ]>
    (<[ (if minInclusive_arg c then "gte" else "gt") := minVersion_arg c ]> ∅).

(** How a [version] filter reads on a stored text: every comparator that is
    present must hold, texts being compared code unit by code unit. *)
Definition filter_holds (f : gmap string string) (stored : string) : bool :=
  let holds (k : string) (test : string -> string -> bool) :=
    match f !! k with
    | Some bound => test bound stored
    | None => true
    end in
  holds "gte" String.leb && holds "gt" String.ltb
  && holds "lte" (fun bound s => String.leb s bound)
  && holds "lt" (fun bound s => String.ltb s bound).

(** whether a promise has settled strictly before an instant *)
Definition settled_before {A} (p : Promise A) (t : N) : bool :=
  match p with
  | Fulfilled u _ | Rejected u _ => (u <? t)%N
  | Pending => false
  end.

(** two worlds with the same tables and bucket: at most the log differs *)
Definition same_storage (w w' : World) : Prop :=
  metadataTable w' = metadataTable w /\ historyTable w' = historyTable w
  /\ ratingTable w' = ratingTable w /\ userTable w' = userTable w
  /\ bucket w' = bucket w.

(** an archive in which [extractFileFromZip] finds nothing for
    [package.json]: no file entry fits the pattern of its second search,
    in which the dot stands for any character *)
Definition no_entry_fits_pattern (zip : list ZipEntry) : Prop :=
  Forall (fun e => entry_dir e = true
                   \/ matches_suffix_pattern "package.json" (entry_name e)
                      = false) zip.

(** a class of characters that [r] does not start with *)
Definition stops (f : ascii -> bool) (r : string) : Prop :=
  match r with
  | EmptyString => True
  | String c _ => f c = false
  end.

(** characters of a plain version, and what they are not *)
Definition version_char (c : ascii) : bool :=
  Js.is_digit c || Ascii.eqb c ".".

Definition not_space_dash (c : ascii) : bool :=
  negb (Js.is_space c) && negb (Ascii.eqb c "-").

Definition not_blank (c : ascii) : bool := negb (Js.is_space c).

(** what keeps the tables and the bucket as they are *)
Definition keeps_storage {A} (m : M A) : Prop :=
  forall w, same_storage w (snd (m w)).

Definition metadata_row (md : ApiPackageMetadata) : MetadataRow :=
  {| row_name := Name md; row_version := Version md; row_id := ID md |}.

Definition creation_entry (env : Env) (md : ApiPackageMetadata) : HistoryRow :=
  {| history_metadataId := ID md; history_userId := 1;
     history_action := CREATE; history_date := now env |}.

(** ** Data of the worked examples *)

Definition range_1_0_0_to_2_0_0 : QueryCall :=
  {| queryName := JString "*";
     minVersion_arg := "1.0.0"; maxVersion_arg := "2.0.0";
     minInclusive_arg := true; maxInclusive_arg := true;
     offset := Num 1 |}.

Definition one_row : list MetadataRow :=
  [ {| row_name := JString "widget"; row_version := JString "1.2.3";
       row_id := "id-1" |} ].

Definition body_with_Name_only : Request :=
  {| query := ∅;
     body := JObject (<[ "Version" := JString "1.2.3" ]>
                        (<[ "Name" := JString "widget" ]> ∅));
     file := None |}.

Definition quoted (s : string) : string :=
  String "034" s +:+ String "034" "".

(** the manifest of package [widget], version 1.2.3, kept at
    [github:acme/widget] *)
Definition widget_manifest : string :=
  "{" +:+ quoted "name" +:+ ":" +:+ quoted "widget" +:+ ","
  +:+ quoted "version" +:+ ":" +:+ quoted "1.2.3" +:+ ","
  +:+ quoted "repository" +:+ ":" +:+ quoted "github:acme/widget" +:+ "}".

Definition widget_json : JSValue :=
  JObject (<[ "name" := JString "widget" ]>
          (<[ "version" := JString "1.2.3" ]>
          (<[ "repository" := JString "github:acme/widget" ]> ∅))).

(** An environment where the archive [PK-widget] holds that manifest, the
    database is up, the rating calculator fails, and the bucket is as
    given. *)
Definition widget_env (entries : list ZipEntry) (bucketName : option string)
  : Env :=
  {| loadAsync := fun b =>
       if String.eqb b "PK-widget" then Returns entries
       else Throws (Error "Corrupted zip");
     JSON_parse := fun s =>
       if String.eqb s widget_manifest then Returns widget_json
       else Throws (Error "Unexpected token");
     uuidv4 := "0b6f6a52-6b0c-4c8e-9a57-8d1c0f4e2a11";
     now := 1700000000000;
     toBase64 := fun _ => "UEstd2lkZ2V0";
     db_fault := fun _ => None;
     calculate := fun _ _ => Throws (Error "Request failed with status code 404");
     AWS_S3_BUCKET_NAME := bucketName;
     s3_upload := fun _ _ _ => None |}.

Definition with_manifest : list ZipEntry :=
  [ {| entry_name := "package.json"; entry_dir := false;
       entry_text := widget_manifest |} ].

Definition without_manifest : list ZipEntry :=
  [ {| entry_name := "README.md"; entry_dir := false;
       entry_text := "widget" |} ].

Definition widget_upload : Request :=
  {| query := ∅; body := JUndefined;
     file := Some {| originalname := "widget.zip"; buffer := "PK-widget" |} |}.

Definition empty_world : World :=
  {| metadataTable := []; historyTable := []; ratingTable := [];
     userTable := [1]; bucket := []; logs := [] |}.

Definition widget_metadata : ApiPackageMetadata :=
  {| Name := JString "widget"; Version := JString "1.2.3";
     ID := "0b6f6a52-6b0c-4c8e-9a57-8d1c0f4e2a11" |}.

(** ** [apiPackage.ts] and [prismaCalls.ts]: the other handlers *)

(** What a handler sends: a text, a text made from an error, or a JSON
    document of type [J]. *)
Inductive ReplyBody (J : Type) : Type :=
  | Plain (text : string)
  | Failure (text : string) (cause : JSError)
  | Document (j : J).

Arguments Plain {J} text.
Arguments Failure {J} text cause.
Arguments Document {J} j.

Record Reply (J : Type) : Type := { code : Z; sent : ReplyBody J }.

Arguments code {J} r.
Arguments sent {J} r.

Inductive Answer (J : Type) : Type :=
  | Answers (r : Reply J)
  | ProcessEnds (status : Z).

Arguments Answers {J} r.
Arguments ProcessEnds {J} status.

Section GetPackagesByRegEx.

(** [prisma.packageMetadata.findMany] with [name: { contains }], for a text
    and for a value of another type, which the annotation [regEx: string]
    does not keep out at run time *)
Variable findManyContains : string -> Promise (list MetadataRow).
Variable findManyUntyped : JSValue -> Promise (list MetadataRow).

(** The handler; the instant of its answer is counted from the call. *)
Definition getPackagesByRegEx (req : Request)
  : Promise (Reply (list ApiPackageMetadata)) :=
  match get_optional (body req) "RegEx" with
  | JUndefined =>
      Fulfilled 0 {| code := 400;
                     sent := Plain "Error in getPackagesByRegEx: RegEx is undefined" |}
  | regEx =>
      let dbPackageMetaData :=
        match regEx with
        | JString s => getMetaDataByRegEx findManyContains s
        | _ =>
            match race_timeout (findManyUntyped regEx) with
            | Fulfilled t result => Fulfilled t (Some result)
            | Rejected t _ => Fulfilled t None
            | Pending => Pending
            end
        end in
      match dbPackageMetaData with
      | Fulfilled t None =>
          Fulfilled t {| code := 500;
                         sent := Plain "Error in getPackagesByRegEx: dbPackageMetaData is null" |}
      | Fulfilled t (Some rows) =>
          Fulfilled t {| code := 200; sent := Document (map toApi rows) |}
      | Rejected t e =>
          Fulfilled t {| code := 500;
                         sent := Failure "Error in getPackagesByRegEx: " e |}
      | Pending => Pending
      end
  end.

End GetPackagesByRegEx.

(** a row of [packageData], and the [data] of an update *)
Record StoredData : Type :=
  { stored_content : string; stored_URL : string; stored_JSProgram : string }.

Record UpdateArgs : Type :=
  { update_id : string; new_content : JSValue; new_URL : JSValue;
    new_JSProgram : JSValue }.

Record ApiData : Type :=
  { data_Content : string; data_URL : string; data_JSProgram : string }.

(** [v ?? ''] *)
Definition or_empty (v : JSValue) : JSValue :=
  match v with
  | JUndefined | JNull => JString ""
  | _ => v
  end.

Section UpdatePackage.

(** [prisma.packageData.update] *)
Variable update : UpdateArgs -> Outcome StoredData.

Definition updatePackageDetails (packageId : string) (packageData : JSValue)
  : Outcome (option ApiData) :=
  match
    (let! c := get packageData "Content" in
     let! u := get packageData "URL" in
     let! j := get packageData "JSProgram" in
     let! updatedData :=
       update {| update_id := packageId; new_content := or_empty c;
                 new_URL := or_empty u; new_JSProgram := or_empty j |} in
     Returns {| data_Content := stored_content updatedData;
                data_URL := stored_URL updatedData;
                data_JSProgram := stored_JSProgram updatedData |})
  with
  | Returns d => Returns (Some d)
  | Throws _ => Returns None
  | Exits n => Exits n
  end.

(** [updatePackage], with the route parameters [req.params] *)
Definition updatePackage (params : gmap string string) (req : Request)
  : Answer (option ApiData) :=
  let bad text := Answers {| code := 400; sent := Plain text |} in
  match
    (let! metadata := get (body req) "metadata" in
     let! data := get (body req) "data" in
     if negb (truthy metadata) || negb (truthy data)
        || negb (truthy (get_optional metadata "Name"))
        || negb (truthy (get_optional metadata "Version"))
        || negb (truthy (get_optional metadata "ID"))
     then Returns (bad "All fields are required and must be valid.")
     else
       match params !! "id" with
       | None | Some EmptyString => Returns (bad "Package ID is required.")
       | Some packageId =>
           if negb (match get_optional metadata "ID" with
                    | JString i => String.eqb packageId i
                    | _ => false
                    end)
           then Returns (bad "Package ID in the URL does not match the ID in the request body.")
           else
             match updatePackageDetails packageId data with
             | Returns updatedData =>
                 Returns (Answers {| code := 200; sent := Document updatedData |})
             | Throws error =>
                 if Js.includes "do not match" (message error)
                 then Returns (bad "Package ID, name, or version do not match.")
                 else Returns (Answers {| code := 404;
                                          sent := Plain "Package does not exist." |})
             | Exits n => Exits n
             end
       end)
  with
  | Returns a => a
  | Throws error =>
      Answers {| code := 500; sent := Failure "Server error: " error |}
  | Exits n => ProcessEnds n
  end.

End UpdatePackage.

(** a package as [findFirst] gives it with [include: { data, metadata }] *)
Record StoredPackage : Type :=
  { stored_metadata : MetadataRow; stored_data : StoredData }.

Record ApiPackage : Type :=
  { api_metadata : ApiPackageMetadata; api_data : ApiData }.

Section GetPackageDownload.

(** [prisma.package.findFirst] by the identifier of the metadata *)
Variable findFirst : string -> Outcome (option StoredPackage).

Definition getPackage (queryID : string) : Outcome (option StoredPackage) :=
  match findFirst queryID with
  | Returns packageEntry => Returns packageEntry
  | Throws _ => Returns None
  | Exits n => Exits n
  end.

Definition getPackageDownload (req : Request) : Answer ApiPackage :=
  match query req !! "name" with
  | None =>
      Answers {| code := 400;
                 sent := Plain "Package name or version is undefined" |}
  | Some packageID =>
      match getPackage packageID with
      | Returns None =>
          Answers {| code := 404; sent := Plain "Package not found" |}
      | Returns (Some dbPackage) =>
          Answers
            {| code := 200;
               sent := Document
                 {| api_metadata := toApi (stored_metadata dbPackage);
                    api_data :=
                      {| data_Content := stored_content (stored_data dbPackage);
                         data_URL := stored_URL (stored_data dbPackage);
                         data_JSProgram := stored_JSProgram (stored_data dbPackage) |} |} |}
      | Throws error =>
          Answers {| code := 500;
                     sent := Failure "Error in getPackageDownload: " error |}
      | Exits n => ProcessEnds n
      end
  end.

End GetPackageDownload.

(** ** [apiPackage.ts]: the popularity of a package *)

(** The first occurrence of [sep] in [s]: what precedes it and what
    follows it. *)
Fixpoint cut_at (sep s : string) : option (string * string) :=
  match Js.strip_prefix sep s with
  | Some r => Some (EmptyString, r)
  | None =>
      match s with
      | EmptyString => None
      | String c s' =>
          match cut_at sep s' with
          | Some (a, r) => Some (String c a, r)
          | None => None
          end
      end
  end.

Fixpoint split_on_fuel (n : nat) (sep s : string) : list string :=
  match cut_at sep s with
  | None => [s]
  | Some (a, r) =>
      match n with
      | O => [a]
      | S n' => a :: split_on_fuel n' sep r
      end
  end.

(** [s.split(sep)] for a non-empty text [sep]; each cut shortens what is
    left, so the length of [s] is fuel enough *)
Definition split_on (sep s : string) : list string :=
  split_on_fuel (String.length s) sep s.

(** a value that may be [undefined], put into a text *)
Definition text_of (o : option string) : string := default "undefined" o.

Record Popularity : Type := { stars : JSValue; forks : JSValue }.

Section PackagePopularity.

(** [fetch(url)] followed by [response.text()], and [getRequest] of
    [../src/utils/api.utils], which the sources read here do not hold *)
Variable fetch_text : string -> Outcome string.
Variable getRequest : string -> Outcome JSValue.

Definition getGithubUrl (npmUrl : string) : Outcome string :=
  let packageName := split_on "package/" npmUrl !! 1%nat in
  let! text := fetch_text npmUrl in
  match split_on "github.com" text !! 1%nat with
  | None =>
      Throws (TypeError "Cannot read properties of undefined (reading 'split')")
  | Some after =>
      let githubUrl := default "" (head (Js.split_char "034" after)) in
      let parts := Js.split_char "/" githubUrl in
      let githubUrlWithPackageName :=
        text_of (parts !! 0%nat) +:+ "/" +:+ text_of (parts !! 1%nat)
        +:+ "/" +:+ text_of packageName in
      Returns ("https://github.com" +:+ githubUrlWithPackageName)
  end.

Definition getPackagePopularity (url : string) : Outcome Popularity :=
  let! url :=
    if Js.includes "npmjs.com" url then getGithubUrl url else Returns url in
  let urlParts := Js.split_char "/" url in
  let owner := urlParts !! 3%nat in
  let repo := urlParts !! 4%nat in
  let! response :=
    getRequest ("/repos/" +:+ text_of owner +:+ "/" +:+ text_of repo) in
  let! starsCount := get response "stargazers_count" in
  let! forksCount := get response "forks_count" in
  Returns {| stars := starsCount; forks := forksCount |}.

End PackagePopularity.

(** ** Further notions used in the statements *)

(** the host of an address [scheme://host/path] *)
Definition host (url : string) : option string :=
  match cut_at "://" url with
  | Some (_, r) => Some (default r (fst <$> cut_at "/" r))
  | None => None
  end.

(** a manifest entry of an archive: a file named [package.json], at the
    root or in a folder *)
Definition is_manifest_entry (e : ZipEntry) : bool :=
  negb (entry_dir e)
  && (String.eqb (entry_name e) "package.json"
      || Js.endsWith "/package.json" (entry_name e)).

(** every history row points to a metadata row and to a user *)
Definition has_parents (w : World) (h : HistoryRow) : bool :=
  existsb (fun r => String.eqb (row_id r) (history_metadataId h))
    (metadataTable w)
  && existsb (Z.eqb (history_userId h)) (userTable w).

Definition history_has_parents (w : World) : Prop :=
  List.forallb (has_parents w) (historyTable w) = true.

Definition rating_of (s : NetScoreResult) : PackageRating :=
  {| BusFactor := BUS_FACTOR_SCORE s; Correctness := CORRECTNESS_SCORE s;
     RampUp := RAMP_UP_SCORE s;
     ResponsiveMaintainer := RESPONSIVE_MAINTAINER_SCORE s;
     LicenseScore := LICENSE_SCORE s;
     GoodPinningPractice := GOOD_PINNING_PRACTICE_SCORE s;
     PullRequest := PULL_REQUEST_SCORE s; NetScore := NET_SCORE s |}.

(** ** Further data of the worked examples *)

Definition widget_scores : NetScoreResult :=
  {| NET_SCORE := JNumber (Num 1); RAMP_UP_SCORE := JNumber (Num 0);
     CORRECTNESS_SCORE := JNumber (Num 1); BUS_FACTOR_SCORE := JNumber (Num 0);
     RESPONSIVE_MAINTAINER_SCORE := JNumber (Num 1);
     LICENSE_SCORE := JNumber (Num 1);
     GOOD_PINNING_PRACTICE_SCORE := JNumber (Num 0);
     PULL_REQUEST_SCORE := JNumber (Num 1) |}.

(** [widget_env] with a rating calculator that answers *)
Definition scored_env : Env :=
  {| loadAsync := loadAsync (widget_env with_manifest (Some "registry"));
     JSON_parse := JSON_parse (widget_env with_manifest (Some "registry"));
     uuidv4 := uuidv4 (widget_env with_manifest (Some "registry"));
     now := now (widget_env with_manifest (Some "registry"));
     toBase64 := toBase64 (widget_env with_manifest (Some "registry"));
     db_fault := fun _ => None;
     calculate := fun _ _ => Returns widget_scores;
     AWS_S3_BUCKET_NAME := Some "registry";
     s3_upload := fun _ _ _ => None |}.

(** [scored_env] with the archive [PK-widget] holding the manifest [text],
    which [JSON.parse] reads as [json] *)
Definition manifest_env (text : string) (json : JSValue) : Env :=
  {| loadAsync := fun b =>
       if String.eqb b "PK-widget"
       then Returns [ {| entry_name := "package.json"; entry_dir := false;
                         entry_text := text |} ]
       else Throws (Error "Corrupted zip");
     JSON_parse := fun s =>
       if String.eqb s text then Returns json
       else Throws (Error "Unexpected token");
     uuidv4 := uuidv4 scored_env;
     now := now scored_env;
     toBase64 := toBase64 scored_env;
     db_fault := fun _ => None;
     calculate := fun _ _ => Returns widget_scores;
     AWS_S3_BUCKET_NAME := Some "registry";
     s3_upload := fun _ _ _ => None |}.

(** the manifest of [socket.io], kept at [socketio/socket.io], with its
    repository as a shorthand *)
Definition socket_manifest : string :=
  "{" +:+ quoted "name" +:+ ":" +:+ quoted "socket.io" +:+ ","
  +:+ quoted "version" +:+ ":" +:+ quoted "4.7.2" +:+ ","
  +:+ quoted "repository" +:+ ":" +:+ quoted "github:socketio/socket.io"
  +:+ "}".

Definition socket_json : JSValue :=
  JObject (<[ "name" := JString "socket.io" ]>
          (<[ "version" := JString "4.7.2" ]>
          (<[ "repository" := JString "github:socketio/socket.io" ]> ∅))).

(** the same manifest with its repository written as an object, the way
    [npm init] writes it *)
Definition socket_manifest_with_url : string :=
  "{" +:+ quoted "name" +:+ ":" +:+ quoted "socket.io" +:+ ","
  +:+ quoted "version" +:+ ":" +:+ quoted "4.7.2" +:+ ","
  +:+ quoted "repository" +:+ ":{" +:+ quoted "type" +:+ ":" +:+ quoted "git"
  +:+ "," +:+ quoted "url" +:+ ":"
  +:+ quoted "git+https://github.com/socketio/socket.io.git" +:+ "}}".

Definition socket_repository : gmap string JSValue :=
  <[ "type" := JString "git" ]>
    (<[ "url" := JString "git+https://github.com/socketio/socket.io.git" ]> ∅).

Definition socket_json_with_url : JSValue :=
  JObject (<[ "name" := JString "socket.io" ]>
          (<[ "version" := JString "4.7.2" ]>
          (<[ "repository" := JObject socket_repository ]> ∅))).

(** a query for every package of version 1.2.3, at an offset that is not a
    double, and a query whose version is the empty text *)
Definition query_1_2_3 : Request :=
  {| query := <[ "offset" := "9007199254740993" ]> ∅;
     body := JObject (<[ "Version" := JString "1.2.3" ]>
                        (<[ "Name" := JString "*" ]>
                           (<[ "name" := JString "*" ]> ∅)));
     file := None |}.

Definition query_any_version : Request :=
  {| query := ∅;
     body := JObject (<[ "Version" := JString "" ]>
                        (<[ "Name" := JString "*" ]> ∅));
     file := None |}.

(** an update of the package [id-1], and a database that does not know it *)
Definition update_of_id_1 : Request :=
  {| query := ∅;
     body := JObject
       (<[ "metadata" :=
             JObject (<[ "Name" := JString "widget" ]>
                     (<[ "Version" := JString "1.2.3" ]>
                     (<[ "ID" := JString "id-1" ]> ∅))) ]>
       (<[ "data" := JObject (<[ "Content" := JString "UEs=" ]> ∅) ]> ∅));
     file := None |}.

Definition route_id_1 : gmap string string := <[ "id" := "id-1" ]> ∅.

Definition update_unknown (args : UpdateArgs) : Outcome StoredData :=
  Throws (Error "Record to update not found.").

Definition download_of_id_1 : Request :=
  {| query := <[ "name" := "id-1" ]> ∅; body := JUndefined; file := None |}.

(** the page of an npm package whose repository has another name *)
Definition lodash_merge_url : string :=
  "https://www.npmjs.com/package/lodash.merge".

Definition lodash_merge_page : string :=
  "<a href=" +:+ quoted "https://github.com/lodash/lodash" +:+ ">repo</a>"
  +:+ "<a href=" +:+ quoted "https://github.com/npm" +:+ ">npm</a>".

Definition not_quote (c : ascii) : bool := negb (Ascii.eqb c "034").

(** what GitHub answers about [expressjs/express], and about nothing else *)
Definition express_counts : gmap string JSValue :=
  <[ "stargazers_count" := JNumber (Num 64000) ]>
    (<[ "forks_count" := JNumber (Num 15000) ]> ∅).

Definition github_api (path : string) : Outcome JSValue :=
  if String.eqb path "/repos/expressjs/express"
  then Returns (JObject express_counts)
  else Throws (Error "Not Found").

(** an archive without a manifest entry, in which a file of another name
    holds what a manifest would *)
Definition lookalike_archive : list ZipEntry :=
  [ {| entry_name := "README.md"; entry_dir := false; entry_text := "widget" |};
    {| entry_name := "lib/package-json"; entry_dir := false;
       entry_text := widget_manifest |} ].

(** [scored_env] with that archive as [PK-widget] *)
Definition lookalike_env : Env :=
  {| loadAsync := fun b =>
       if String.eqb b "PK-widget" then Returns lookalike_archive
       else Throws (Error "Corrupted zip");
     JSON_parse := JSON_parse scored_env;
     uuidv4 := uuidv4 scored_env;
     now := now scored_env;
     toBase64 := toBase64 scored_env;
     db_fault := fun _ => None;
     calculate := fun _ _ => Returns widget_scores;
     AWS_S3_BUCKET_NAME := Some "registry";
     s3_upload := fun _ _ _ => None |}.

(** a query that names a package and no version *)
Definition query_name_alone : Request :=
  {| query := ∅;
     body := JObject (<[ "Name" := JString "widget" ]> ∅);
     file := None |}.

(** a database that holds [widget] 1.2.3: it gives that row to a query for
    every name or for the name [widget], and nothing to a query for
    another name *)
Definition widget_database (args : FindManyArgs)
  : Promise (list MetadataRow) :=
  match where_name (where_ args) with
  | None | Some (JString "widget") => Fulfilled 3 one_row
  | Some _ => Fulfilled 3 []
  end.

(** a registry that already holds [widget] 1.2.3 under another identifier *)
Definition stocked_world : World :=
  {| metadataTable :=
       [ {| row_name := JString "widget"; row_version := JString "1.2.3";
            row_id := "id-1" |} ];
     historyTable :=
       [ {| history_metadataId := "id-1"; history_userId := 1;
            history_action := CREATE; history_date := 1600000000000 |} ];
     ratingTable := []; userTable := [1]; bucket := []; logs := [] |}.

(** a registry whose history holds the identifier that [widget_env] draws *)
Definition taken_world : World :=
  {| metadataTable :=
       [ {| row_name := JString "gadget"; row_version := JString "0.1.0";
            row_id := "0b6f6a52-6b0c-4c8e-9a57-8d1c0f4e2a11" |} ];
     historyTable :=
       [ {| history_metadataId := "0b6f6a52-6b0c-4c8e-9a57-8d1c0f4e2a11";
            history_userId := 1; history_action := CREATE;
            history_date := 1600000000000 |} ];
     ratingTable := []; userTable := [1]; bucket := []; logs := [] |}.

(** a registry without the user 1 *)
Definition world_without_users : World :=
  {| metadataTable := []; historyTable := []; ratingTable := [];
     userTable := []; bucket := []; logs := [] |}.

(** * Proofs *)

(** ** Strings: spans, appends and character classes *)

Lemma append_empty_r (s : string) : s +:+ "" = s.
Proof. induction s as [|c s IH]; simpl; [reflexivity | now rewrite IH]. Qed.

Lemma append_assoc (a b c : string) : (a +:+ b) +:+ c = a +:+ (b +:+ c).
Proof. induction a as [|x a IH]; simpl; [reflexivity | now rewrite IH]. Qed.

Lemma forallb_append f (a b : string) :
  Js.forallb f (a +:+ b) = Js.forallb f a && Js.forallb f b.
Proof.
  induction a as [|x a IH]; simpl; [reflexivity|].
  rewrite IH. now rewrite andb_assoc.
Qed.

Lemma forallb_impl (f g : ascii -> bool) (s : string) :
  (forall c, f c = true -> g c = true) ->
  Js.forallb f s = true -> Js.forallb g s = true.
Proof.
  intros Hfg. induction s as [|c s IH]; simpl; [reflexivity|].
  intros [Hc Hs]%andb_true_iff. rewrite (Hfg c Hc). simpl. auto.
Qed.

Lemma span_append f (a r : string) :
  Js.forallb f a = true -> stops f r -> Js.span f (a +:+ r) = (a, r).
Proof.
  intros Ha Hr. induction a as [|x a IH]; simpl in *.
  - destruct r as [|c r]; simpl in *; [reflexivity | now rewrite Hr].
  - apply andb_true_iff in Ha as [Hx Ha]. rewrite Hx, (IH Ha). reflexivity.
Qed.

Lemma span_spec f (s a r : string) :
  Js.span f s = (a, r) ->
  s = a +:+ r /\ Js.forallb f a = true /\ stops f r.
Proof.
  revert a r. induction s as [|c s IH]; simpl; intros a r H.
  - injection H as <- <-. simpl. auto.
  - destruct (f c) eqn:Hc.
    + destruct (Js.span f s) as [a' r'] eqn:Hs. injection H as <- <-.
      destruct (IH a' r' eq_refl) as (-> & Ha & Hr).
      simpl. rewrite Hc, Ha. auto.
    + injection H as <- <-. simpl. auto.
Qed.

Ltac by_cases_on_char c :=
  destruct c as [[] [] [] [] [] [] [] []]; vm_compute; congruence.

Lemma digit_version_char c : Js.is_digit c = true -> version_char c = true.
Proof. unfold version_char. now intros ->. Qed.

Lemma digit_not_dot c : Js.is_digit c = true -> Ascii.eqb c "." = false.
Proof. by_cases_on_char c. Qed.

Lemma version_char_plain c :
  version_char c = true -> not_space_dash c = true.
Proof. by_cases_on_char c. Qed.

Lemma not_space_dash_not_dash c :
  not_space_dash c = true -> SemverRef.not_dash c = true.
Proof. by_cases_on_char c. Qed.

Lemma not_space_dash_not_blank c :
  not_space_dash c = true -> not_blank c = true.
Proof. by_cases_on_char c. Qed.

Lemma not_blank_char_space c : not_blank c = true -> Ascii.eqb " " c = false.
Proof. by_cases_on_char c. Qed.

Lemma not_blank_is_space c : not_blank c = true -> Js.is_space c = false.
Proof. unfold not_blank. now intros ->%negb_true_iff. Qed.

Lemma numeric_version_chars (a : string) :
  numeric a -> Js.forallb version_char a = true.
Proof.
  intros [_ H]. revert H. apply forallb_impl, digit_version_char.
Qed.

Lemma plain_version_chars (v : string) :
  plain_version v -> Js.forallb version_char v = true.
Proof.
  intros (a & b & c & Ha & Hb & Hc & ->).
  rewrite !forallb_append. simpl.
  now rewrite !numeric_version_chars by assumption.
Qed.

Lemma plain_version_not_space_dash (v : string) :
  plain_version v -> Js.forallb not_space_dash v = true.
Proof.
  intros H%plain_version_chars. revert H.
  apply forallb_impl, version_char_plain.
Qed.

Lemma plain_version_not_blank (v : string) :
  plain_version v -> Js.forallb not_blank v = true.
Proof.
  intros H%plain_version_not_space_dash. revert H.
  apply forallb_impl, not_space_dash_not_blank.
Qed.

Lemma plain_version_not_dash (v : string) :
  plain_version v -> Js.forallb SemverRef.not_dash v = true.
Proof.
  intros H%plain_version_not_space_dash. revert H.
  apply forallb_impl, not_space_dash_not_dash.
Qed.

Lemma plain_version_nonempty (v : string) : plain_version v -> v <> "".
Proof.
  intros (a & b & c & [Ha _] & _ & _ & ->).
  destruct a; [congruence | discriminate].
Qed.

Lemma strip_prefix_spec (p s r : string) :
  Js.strip_prefix p s = Some r -> s = p +:+ r.
Proof.
  revert s. induction p as [|a p IH]; simpl; intros s H.
  - now injection H as ->.
  - destruct s as [|b s]; [discriminate|].
    destruct (Ascii.eqb a b) eqn:E; [|discriminate].
    apply Ascii.eqb_eq in E as ->. now rewrite (IH s H).
Qed.

Lemma strip_prefix_append (p r : string) :
  Js.strip_prefix p (p +:+ r) = Some r.
Proof.
  induction p as [|a p IH]; simpl; [reflexivity|].
  now rewrite Ascii.eqb_refl.
Qed.

Lemma startsWith_append (p r : string) : Js.startsWith p (p +:+ r) = true.
Proof.
  induction p as [|a p IH]; simpl; [reflexivity|].
  now rewrite Ascii.eqb_refl, IH.
Qed.

Lemma includes_append (pre p r : string) :
  Js.includes p (pre +:+ p +:+ r) = true.
Proof.
  induction pre as [|c pre IH].
  - pose proof (startsWith_append p r) as H.
    change ("" +:+ p +:+ r) with (p +:+ r).
    destruct (p +:+ r); simpl; now rewrite H.
  - simpl. rewrite IH. apply orb_true_r.
Qed.

(** ** Facts about [getMaxVersion] *)

Lemma strip_dash_zero_id (s : string) :
  Js.forallb SemverRef.not_dash s = true -> strip_dash_zero s = s.
Proof.
  induction s as [|c s IH]; [reflexivity|].
  intros [Hc Hs]%andb_true_iff.
  change (match s with
          | String d s'' =>
              if Ascii.eqb c "-" && Ascii.eqb d "0" then strip_dash_zero s''
              else String c (strip_dash_zero s)
          | EmptyString => String c EmptyString
          end = String c s).
  destruct s as [|d s']; [reflexivity|].
  unfold SemverRef.not_dash in Hc. apply negb_true_iff in Hc.
  rewrite Hc. simpl andb. cbv iota. now rewrite (IH Hs).
Qed.

Lemma match_version_at_plain (v rest : string) :
  plain_version v -> stops Js.is_digit rest ->
  match_version_at (v +:+ rest) = Some v.
Proof.
  intros (a & b & c & [Ha Hda] & [Hb Hdb] & [Hc Hdc] & ->) Hrest.
  unfold match_version_at.
  rewrite !append_assoc. simpl.
  rewrite (span_append _ a) by (auto; reflexivity).
  destruct a as [|a0 a]; [congruence|].
  rewrite (span_append _ b) by (auto; reflexivity).
  destruct b as [|b0 b]; [congruence|].
  rewrite (span_append _ c) by auto.
  destruct c as [|c0 c]; [congruence|]. reflexivity.
Qed.

Lemma match_versions_from_skip (x s : string) :
  match_versions_from (String.length x) (x +:+ s) = match_versions_from 0 s.
Proof. induction x as [|c x IH]; simpl; [reflexivity | exact IH]. Qed.

Lemma match_versions_plain (v rest : string) :
  plain_version v -> stops Js.is_digit rest ->
  match_versions_from 0 (v +:+ rest) = v :: match_versions_from 0 rest.
Proof.
  intros Hv Hrest.
  pose proof (match_version_at_plain v rest Hv Hrest) as Hat.
  destruct v as [|c v]; [now apply plain_version_nonempty in Hv|].
  change (match_versions_from 0 (String c v +:+ rest))
    with (match match_version_at (String c v +:+ rest) with
          | Some m => m :: match_versions_from (Nat.pred (String.length m))
                             (v +:+ rest)
          | None => match_versions_from 0 (v +:+ rest)
          end).
  rewrite Hat. simpl Nat.pred. now rewrite match_versions_from_skip.
Qed.

Lemma match_version_at_no_digit (c : ascii) (s : string) :
  Js.is_digit c = false -> match_version_at (String c s) = None.
Proof. intros H. unfold match_version_at. simpl. now rewrite H. Qed.

Lemma match_versions_no_digits (pre s : string) :
  Js.forallb (fun c => negb (Js.is_digit c)) pre = true ->
  match_versions_from 0 (pre +:+ s) = match_versions_from 0 s.
Proof.
  induction pre as [|c pre IH]; [reflexivity|].
  intros [Hc Hpre]%andb_true_iff. apply negb_true_iff in Hc.
  change (match_versions_from 0 (String c pre +:+ s))
    with (match match_version_at (String c (pre +:+ s)) with
          | Some m => m :: match_versions_from (Nat.pred (String.length m))
                             (pre +:+ s)
          | None => match_versions_from 0 (pre +:+ s)
          end).
  rewrite match_version_at_no_digit by assumption. auto.
Qed.

Lemma getMaxVersion_plain (v : string) :
  plain_version v -> getMaxVersion v = Returns v.
Proof.
  intros Hv. unfold getMaxVersion, match_versions.
  rewrite strip_dash_zero_id.
  - rewrite <- (append_empty_r v) at 1.
    rewrite match_versions_plain by (auto; exact I). reflexivity.
  - now apply plain_version_not_dash.
Qed.

Lemma includes_space_none (s : string) :
  Js.forallb not_blank s = true -> Js.includes " " s = false.
Proof.
  induction s as [|c s IH]; [reflexivity|].
  intros [Hc Hs]%andb_true_iff. simpl.
  rewrite (not_blank_char_space c Hc), (IH Hs). reflexivity.
Qed.

Lemma strip_dash_zero_tag (x y : string) :
  Js.forallb SemverRef.not_dash x = true ->
  strip_dash_zero (x +:+ String "-" (String "0" y)) = x +:+ strip_dash_zero y.
Proof.
  induction x as [|c x IH]; [reflexivity|].
  intros [Hc Hx]%andb_true_iff.
  unfold SemverRef.not_dash in Hc. apply negb_true_iff in Hc.
  specialize (IH Hx). destruct x as [|d x]; simpl in *.
  - now rewrite Hc.
  - rewrite Hc. simpl andb. cbv iota. now rewrite <- IH.
Qed.

(** ** Splitting at dots and at blanks *)

Lemma split_char_whole sep (s : string) :
  Js.forallb (fun c => negb (Ascii.eqb c sep)) s = true ->
  Js.split_char sep s = [s].
Proof.
  induction s as [|c s IH]; [reflexivity|].
  intros [Hc Hs]%andb_true_iff. apply negb_true_iff in Hc.
  simpl. now rewrite Hc, (IH Hs).
Qed.

Lemma split_char_append sep (a r : string) :
  Js.forallb (fun c => negb (Ascii.eqb c sep)) a = true ->
  Js.split_char sep (a +:+ String sep r) = a :: Js.split_char sep r.
Proof.
  induction a as [|c a IH]; simpl.
  - intros _. now rewrite Ascii.eqb_refl.
  - intros [Hc Ha]%andb_true_iff. apply negb_true_iff in Hc.
    now rewrite Hc, (IH Ha).
Qed.

Lemma numeric_no_dot (a : string) :
  numeric a -> Js.forallb (fun c => negb (Ascii.eqb c ".")) a = true.
Proof.
  intros [_ H]. revert H. apply forallb_impl.
  intros c Hc. now rewrite (digit_not_dot c Hc).
Qed.

Lemma numeric_numericb (a : string) : numeric a -> numericb a = true.
Proof.
  intros [Hne Hd]. unfold numericb. rewrite Hd.
  apply String.eqb_neq in Hne. now rewrite Hne.
Qed.

Lemma triple_of_plain (v : string) :
  plain_version v -> exists t, triple_of v = Some t.
Proof.
  intros Hv. pose proof (plain_version_not_dash v Hv) as Hchars.
  destruct Hv as (a & b & c & Ha & Hb & Hc & ->).
  unfold triple_of.
  rewrite <- (append_empty_r (a +:+ "." +:+ b +:+ "." +:+ c)).
  rewrite span_append; [| | exact I].
  - change (a +:+ "." +:+ b +:+ "." +:+ c)
      with (a +:+ String "." (b +:+ String "." c)).
    rewrite !split_char_append by now apply numeric_no_dot.
    rewrite split_char_whole by now apply numeric_no_dot.
    rewrite !numeric_numericb by assumption. simpl. eauto.
  - exact Hchars.
Qed.

Lemma triple_leb_refl (t : N * N * N) : triple_leb t t = true.
Proof.
  destruct t as [[a b] c]. unfold triple_leb.
  rewrite !N.eqb_refl, N.leb_refl. simpl. now rewrite !orb_true_r.
Qed.

Lemma split_spaces_whole (s : string) :
  Js.forallb not_blank s = true ->
  Js.split_spaces_from false s = [s].
Proof.
  induction s as [|c s IH]; [reflexivity|].
  intros [Hc Hs]%andb_true_iff. simpl.
  now rewrite (not_blank_is_space c Hc), (IH Hs).
Qed.

Lemma split_spaces_flag (flag : bool) (c : ascii) (s : string) :
  Js.is_space c = false ->
  Js.split_spaces_from flag (String c s) = Js.split_spaces_from false (String c s).
Proof. intros H. simpl. now rewrite H. Qed.

Lemma split_spaces_pair (x y : string) :
  Js.forallb not_blank x = true ->
  Js.forallb not_blank y = true -> y <> "" ->
  Js.split_spaces (x +:+ String " " y) = [x; y].
Proof.
  intros Hx Hy Hne. unfold Js.split_spaces.
  induction x as [|c x IH].
  - destruct y as [|d y]; [congruence|].
    change (EmptyString +:+ String " " (String d y))
      with (String " " (String d y)).
    change (Js.split_spaces_from false (String " " (String d y)))
      with (EmptyString :: Js.split_spaces_from true (String d y)).
    apply andb_true_iff in Hy as Hy'. destruct Hy' as [Hd _].
    rewrite split_spaces_flag by now apply not_blank_is_space.
    now rewrite split_spaces_whole.
  - apply andb_true_iff in Hx as [Hc Hx]. simpl.
    now rewrite (not_blank_is_space c Hc), (IH Hx).
Qed.

Lemma includes_space_found (x y : string) :
  Js.includes " " (x +:+ String " " y) = true.
Proof.
  induction x as [|c x IH]; [reflexivity|].
  simpl. rewrite IH. apply orb_true_r.
Qed.

Lemma split_spaces_from_nonempty (flag : bool) (s : string) :
  Js.split_spaces_from flag s <> [].
Proof.
  revert flag. induction s as [|c s IH]; intros flag; simpl; [discriminate|].
  destruct (Js.is_space c); [destruct flag; [apply IH | discriminate]|].
  destruct (Js.split_spaces_from false s); discriminate.
Qed.

Lemma char_space_is_space c : Ascii.eqb " " c = true -> Js.is_space c = true.
Proof. intros <-%Ascii.eqb_eq. reflexivity. Qed.

(** a text with a blank splits into two tokens at least *)
Lemma split_spaces_two (s : string) :
  Js.includes " " s = true ->
  exists t0 t1 ts, Js.split_spaces s = t0 :: t1 :: ts.
Proof.
  unfold Js.split_spaces. induction s as [|c s IH]; [discriminate|].
  simpl. destruct (Js.is_space c) eqn:Hc.
  - intros _. pose proof (split_spaces_from_nonempty true s) as Hne.
    destruct (Js.split_spaces_from true s) as [|t1 ts]; [congruence | eauto].
  - destruct (Ascii.eqb " " c) eqn:E;
      [apply char_space_is_space in E; congruence|].
    simpl. intros H. destruct (IH H) as (t0 & t1 & ts & ->). eauto.
Qed.

Lemma getMaxVersion_closed_range (a b : string) :
  plain_version a -> plain_version b ->
  getMaxVersion (">=" +:+ a +:+ " <=" +:+ b) = Returns b.
Proof.
  intros Ha Hb. unfold getMaxVersion, match_versions.
  rewrite strip_dash_zero_id.
  - rewrite (match_versions_no_digits ">=") by reflexivity.
    rewrite match_versions_plain by (auto; reflexivity).
    rewrite (match_versions_no_digits " <=") by reflexivity.
    rewrite <- (append_empty_r b) at 1.
    rewrite match_versions_plain by (auto; exact I). reflexivity.
  - rewrite !forallb_append.
    rewrite (plain_version_not_dash a Ha), (plain_version_not_dash b Hb).
    reflexivity.
Qed.

Lemma getMaxVersion_tagged_range (a b : string) :
  plain_version a -> plain_version b ->
  getMaxVersion (">=" +:+ a +:+ "-0 <=" +:+ b) = Returns b.
Proof.
  intros Ha Hb. rewrite <- (getMaxVersion_closed_range a b Ha Hb).
  unfold getMaxVersion. f_equal.
  change (">=" +:+ a +:+ "-0 <=" +:+ b)
    with ((">=" +:+ a) +:+ String "-" (String "0" (" <=" +:+ b))).
  pose proof (plain_version_not_dash a Ha) as Ha'.
  pose proof (plain_version_not_dash b Hb) as Hb'.
  rewrite strip_dash_zero_tag by (rewrite forallb_append, Ha'; reflexivity).
  rewrite (strip_dash_zero_id (" <=" +:+ b))
    by (rewrite forallb_append, Hb'; reflexivity).
  rewrite (strip_dash_zero_id (">=" +:+ a +:+ " <=" +:+ b)).
  - reflexivity.
  - rewrite !forallb_append, Ha', Hb'. reflexivity.
Qed.

(** ** [getMaxVersion]: the deletion of [-0] and the last comparator *)

(** deleting [-0] from a text that does not end in a dash, and from what
    follows it *)
Lemma strip_dash_zero_marker_pair (y x : string) :
  (Js.endsWith "-" x = false ->
   strip_dash_zero (x +:+ "-0" +:+ y) = strip_dash_zero (x +:+ y))
  /\ (forall c, Js.endsWith "-" (String c x) = false ->
        strip_dash_zero (String c x +:+ "-0" +:+ y)
        = strip_dash_zero (String c x +:+ y)).
Proof.
  induction x as [|d x [IH1 IH2]].
  - split; [intros _; reflexivity|].
    intros c Hc.
    assert (Ascii.eqb c "-" = false) as Hdash.
    { destruct (Ascii.eqb_spec c "-") as [->|]; [discriminate | reflexivity]. }
    change (String c "" +:+ "-0" +:+ y) with (String c (String "-" (String "0" y))).
    change (String c "" +:+ y) with (String c y).
    change (strip_dash_zero (String c (String "-" (String "0" y))))
      with (if Ascii.eqb c "-" && Ascii.eqb "-" "0" then strip_dash_zero (String "0" y)
            else String c (strip_dash_zero (String "-" (String "0" y)))).
    rewrite Hdash. cbn [andb].
    change (strip_dash_zero (String "-" (String "0" y))) with (strip_dash_zero y).
    destruct y as [|e y]; [reflexivity|].
    change (strip_dash_zero (String c (String e y)))
      with (if Ascii.eqb c "-" && Ascii.eqb e "0" then strip_dash_zero y
            else String c (strip_dash_zero (String e y))).
    now rewrite Hdash.
  - split; [exact (IH2 d)|].
    intros c Hc.
    change (Js.endsWith "-" (String c (String d x)))
      with (String.eqb "-" (String c (String d x))
            || Js.endsWith "-" (String d x)) in Hc.
    apply orb_false_iff in Hc as [_ Hd].
    change (String c (String d x) +:+ "-0" +:+ y)
      with (String c (String d (x +:+ "-0" +:+ y))).
    change (String c (String d x) +:+ y) with (String c (String d (x +:+ y))).
    change (strip_dash_zero (String c (String d (x +:+ "-0" +:+ y))))
      with (if Ascii.eqb c "-" && Ascii.eqb d "0"
            then strip_dash_zero (x +:+ "-0" +:+ y)
            else String c (strip_dash_zero (String d (x +:+ "-0" +:+ y)))).
    change (strip_dash_zero (String c (String d (x +:+ y))))
      with (if Ascii.eqb c "-" && Ascii.eqb d "0"
            then strip_dash_zero (x +:+ y)
            else String c (strip_dash_zero (String d (x +:+ y)))).
    destruct (Ascii.eqb c "-" && Ascii.eqb d "0").
    + apply IH1.
      change (Js.endsWith "-" (String d x))
        with (String.eqb "-" (String d x) || Js.endsWith "-" x) in Hd.
      now apply orb_false_iff in Hd as [_ Hx].
    + f_equal. exact (IH2 d Hd).
Qed.

Lemma getMaxVersion_deletes_marker (x y : string) :
  Js.endsWith "-" x = false ->
  getMaxVersion (x +:+ "-0" +:+ y) = getMaxVersion (x +:+ y).
Proof.
  intros Hx. unfold getMaxVersion.
  now rewrite (proj1 (strip_dash_zero_marker_pair y x) Hx).
Qed.







(** ** Claims about [parseVersion] *)

Ltac plain_version_literal a b c :=
  exists a, b, c; repeat split; solve [discriminate | reflexivity].

Section ParseVersionFacts.

Variable lib : SemverLib.

(** On a single comparator without blanks both bounds are inclusive: the
    minimum version of [semver] and the last version token. *)
Lemma parseVersion_one_comparator (v x maxVersion : string) (sv : SemVer) :
  toComparators lib v = Returns [[x]] ->
  minVersion lib x = Returns (Some sv) ->
  getMaxVersion x = Returns maxVersion ->
  Js.forallb not_blank x = true ->
  parseVersion lib v =
    Returns {| min := version sv; max := maxVersion;
               minInclusive := true; maxInclusive := true |}.
Proof.
  intros Hc Hm Hmax Hx. unfold parseVersion.
  rewrite Hc. cbn [obind].
  change (validRange_of [[x]]) with x.
  rewrite Hm. cbn [obind]. unfold optional_version. rewrite Hmax. cbn [obind].
  now rewrite includes_space_none.
Qed.

(** C5, as amended.  For a bare version [v] of the form
    [major.minor.patch] (digits only, no pre-release tag), which [semver]
    reads as the single comparator [v] with minimum version [v],
    [parseVersion] returns [v] for both bounds, both inclusive. *)
Theorem parseVersion_exact_plain_version (v : string) (sv : SemVer) :
  plain_version v ->
  toComparators lib v = Returns [[v]] ->
  minVersion lib v = Returns (Some sv) ->
  version sv = v ->
  parseVersion lib v =
    Returns {| min := v; max := v; minInclusive := true; maxInclusive := true |}.
Proof.
  intros Hv Hc Hm Hsv.
  rewrite (parseVersion_one_comparator v v v sv Hc Hm).
  - now rewrite Hsv.
  - now apply getMaxVersion_plain.
  - now apply plain_version_not_blank.
Qed.

(** C2, as amended.  When [semver] has parsed the input and the comparator
    string it gives back holds no [major.minor.patch] token once [-0] is
    deleted, [parseVersion] ends the process with status 1: no error comes
    back to the caller. *)
Theorem parseVersion_without_version_token_exits
  (v : string) (comparators : list (list string)) (found : option SemVer) :
  toComparators lib v = Returns comparators ->
  minVersion lib (validRange_of comparators) = Returns found ->
  match_versions (strip_dash_zero (validRange_of comparators)) = [] ->
  parseVersion lib v = Exits 1.
Proof.
  intros Hc Hm Hnone. unfold parseVersion.
  rewrite Hc. cbn [obind]. rewrite Hm. cbn [obind].
  destruct found as [sv|]; simpl; [|reflexivity].
  unfold getMaxVersion. rewrite Hnone. reflexivity.
Qed.

(** On a set of two comparators the bounds are the minimum version of
    [semver] and the last version token, and the inclusivity flags say
    whether the first token starts with [>=] and the second with [<=]. *)
Lemma parseVersion_two_comparators (v x y maxVersion : string) (sv : SemVer) :
  toComparators lib v = Returns [[x; y]] ->
  minVersion lib (x +:+ " " +:+ y) = Returns (Some sv) ->
  getMaxVersion (x +:+ " " +:+ y) = Returns maxVersion ->
  Js.forallb not_blank x = true -> Js.forallb not_blank y = true ->
  y <> "" ->
  parseVersion lib v =
    Returns {| min := version sv; max := maxVersion;
               minInclusive := Js.startsWith ">=" x;
               maxInclusive := Js.startsWith "<=" y |}.
Proof.
  intros Hc Hm Hmax Hx Hy Hne. unfold parseVersion.
  rewrite Hc. cbn [obind].
  change (validRange_of [[x; y]]) with (x +:+ " " +:+ y).
  rewrite Hm. cbn [obind]. unfold optional_version. rewrite Hmax. cbn [obind].
  change (x +:+ " " +:+ y) with (x +:+ String " " y).
  rewrite includes_space_found. simpl negb. cbv iota.
  rewrite split_spaces_pair by assumption. reflexivity.
Qed.

(** The only errors [parseVersion] throws are those [semver] throws. *)
Lemma parseVersion_throws_only_from_semver (v : string) (e : JSError) :
  parseVersion lib v = Throws e ->
  toComparators lib v = Throws e
  \/ exists comparators,
       toComparators lib v = Returns comparators
       /\ minVersion lib (validRange_of comparators) = Throws e.
Proof.
  unfold parseVersion.
  destruct (toComparators lib v) as [cs|e'|n] eqn:Hc; cbn [obind];
    [| intros [= ->]; now left | discriminate].
  destruct (minVersion lib (validRange_of cs)) as [found|e'|n] eqn:Hm;
    cbn [obind]; [| intros [= ->]; right; eauto | discriminate].
  destruct found as [sv|]; cbn [optional_version]; [|discriminate].
  unfold getMaxVersion.
  destruct (last (match_versions (strip_dash_zero (validRange_of cs))));
    cbn [obind]; [|discriminate].
  destruct (Js.includes " " (validRange_of cs)) eqn:Hsp; [|discriminate].
  destruct (split_spaces_two _ Hsp) as (t0 & t1 & ts & ->). discriminate.
Qed.



End ParseVersionFacts.

(** C5 fails as stated: a bare version carrying a pre-release tag is a
    valid exact version, and its upper bound loses the tag. *)
Lemma parseVersion_tagged_exact_version :
  parseVersion SemverRef.lib "1.2.3-alpha" =
    Returns {| min := "1.2.3-alpha"; max := "1.2.3";
               minInclusive := true; maxInclusive := true |}
  /\ parseVersion SemverRef.lib "1.2.3-alpha" <>
    Returns {| min := "1.2.3-alpha"; max := "1.2.3-alpha";
               minInclusive := true; maxInclusive := true |}.
Proof. split; [reflexivity | vm_compute; congruence]. Qed.

Lemma parseVersion_exact_plain_version_witness :
  parseVersion SemverRef.lib "1.2.3" =
    Returns {| min := "1.2.3"; max := "1.2.3";
               minInclusive := true; maxInclusive := true |}.
Proof.
  apply (parseVersion_exact_plain_version SemverRef.lib "1.2.3"
           {| major := 1; minor := 2; patch := 3; prerelease := [] |});
    [plain_version_literal "1" "2" "3" | reflexivity ..].
Defined.

(** C2 fails as stated: on the empty string the process ends with status 1
    and nothing is thrown to the caller. *)
Lemma parseVersion_empty_string_exits :
  parseVersion SemverRef.lib "" = Exits 1
  /\ forall e, parseVersion SemverRef.lib "" <> Throws e.
Proof. split; [reflexivity | intros e; vm_compute; congruence]. Qed.

Lemma parseVersion_without_version_token_exits_witness :
  parseVersion SemverRef.lib "" = Exits 1.
Proof.
  apply (parseVersion_without_version_token_exits SemverRef.lib ""
           [[""]] (Some SemverRef.zero)); reflexivity.
Defined.

(** C6 fails as stated: the two results differ in [min]. *)
Lemma parseVersion_dash_zero_min_differs :
  parseVersion SemverRef.lib ">=1.0.0-0 <=2.0.0" <>
  parseVersion SemverRef.lib ">=1.0.0 <=2.0.0".
Proof. vm_compute. congruence. Qed.

(** C6, as amended.  The marker [-0] is deleted before the upper bound is
    looked for, and only there: [getMaxVersion] reads a text as if each
    [-0] were not in it, so that a version tagged [-0.3.7] does not give
    [0.3.7] as the upper bound; the results on [>=1.0.0-0 <=2.0.0] and on
    [>=1.0.0 <=2.0.0] have the same [max], [2.0.0], and both bounds
    inclusive, while [min] is the minimum version [semver] reports,
    [1.0.0-0] for the first and [1.0.0] for the second. *)
Theorem parseVersion_dash_zero_stripped_for_max_only :
  (forall x y, Js.endsWith "-" x = false ->
     getMaxVersion (x +:+ "-0" +:+ y) = getMaxVersion (x +:+ y))
  /\ parseVersion SemverRef.lib ">=1.0.0 <=2.0.0-0.3.7"
     = Returns {| min := "1.0.0"; max := "2.0.0";
                  minInclusive := true; maxInclusive := true |}
  /\ parseVersion SemverRef.lib ">=1.0.0-0 <=2.0.0"
     = Returns {| min := "1.0.0-0"; max := "2.0.0";
                  minInclusive := true; maxInclusive := true |}
  /\ parseVersion SemverRef.lib ">=1.0.0 <=2.0.0"
     = Returns {| min := "1.0.0"; max := "2.0.0";
                  minInclusive := true; maxInclusive := true |}.
Proof.
  split; [exact getMaxVersion_deletes_marker|].
  repeat split; vm_compute; reflexivity.
Qed.



(** ** [parseGitHubUrl] *)

Lemma github_shape_includes (url : string) :
  github_shape url -> Js.includes "github.com" url = true.
Proof.
  intros (pre & sep & o & p & rest & -> & _). apply includes_append.
Qed.

Lemma match_github_at_sound (s o p : string) :
  match_github_at s = Some (o, p) ->
  o <> "" /\ p <> "" /\ github_shape s.
Proof.
  unfold match_github_at.
  destruct (Js.strip_prefix "github.com" s) as [[|sep r]|] eqn:Hpre;
    try discriminate.
  apply strip_prefix_spec in Hpre.
  destruct (Ascii.eqb sep "/" || Ascii.eqb sep ":") eqn:Hsep; [|discriminate].
  destruct (Js.span not_slash r) as [o' r1] eqn:Ho.
  apply span_spec in Ho as (-> & Ho & _).
  destruct o' as [|o0 o']; [discriminate|].
  destruct r1 as [|c r1]; [discriminate|].
  destruct (Ascii.eqb_spec c "/") as [->|Hc].
  2:{ destruct c as [[] [] [] [] [] [] [] []]; solve [discriminate | congruence]. }
  destruct (Js.span not_slash_dot r1) as [p' r2] eqn:Hp.
  apply span_spec in Hp as (-> & Hp & _).
  destruct p' as [|p0 p']; [discriminate|].
  intros [= <- <-]. repeat split; try discriminate.
  exists "", sep, (String o0 o'), (String p0 p'), r2.
  repeat split; try discriminate; try assumption.
  apply orb_true_iff in Hsep as [H|H]; apply Ascii.eqb_eq in H; auto.
Qed.

Lemma github_shape_later (c : ascii) (s : string) :
  github_shape s -> github_shape (String c s).
Proof.
  intros (pre & sep & o & p & rest & -> & H).
  now exists (String c pre), sep, o, p, rest.
Qed.

Lemma match_github_sound (s o p : string) :
  match_github s = Some (o, p) -> o <> "" /\ p <> "" /\ github_shape s.
Proof.
  induction s as [|c s IH].
  - discriminate.
  - simpl. destruct (match_github_at (String c s)) as [g|] eqn:H.
    + intros [= ->]. now apply match_github_at_sound.
    + intros H'. destruct (IH H') as (Ho & Hp & Hs).
      auto using github_shape_later.
Qed.

Lemma match_github_at_complete (sep : ascii) (o p rest : string) :
  (sep = "/" \/ sep = ":")%char ->
  o <> "" -> Js.forallb not_slash o = true ->
  p <> "" -> Js.forallb not_slash_dot p = true ->
  match_github_at ("github.com" +:+ String sep (o +:+ "/" +:+ p +:+ rest))
    <> None.
Proof.
  intros Hsep Ho Hos Hp Hps. unfold match_github_at.
  rewrite strip_prefix_append.
  assert (Ascii.eqb sep "/" || Ascii.eqb sep ":" = true) as ->
    by (destruct Hsep as [-> | ->]; reflexivity).
  rewrite (span_append not_slash o) by (auto; reflexivity).
  destruct o as [|o0 o]; [congruence|].
  change ("/" +:+ p +:+ rest) with (String "/" (p +:+ rest)). cbv iota.
  destruct (Js.span not_slash_dot (p +:+ rest)) as [p' r] eqn:Hspan.
  destruct p as [|p0 p]; [congruence|].
  simpl in Hspan, Hps. apply andb_true_iff in Hps as [Hp0 _].
  rewrite Hp0 in Hspan.
  destruct (Js.span not_slash_dot (p +:+ rest)); injection Hspan as <- <-.
  discriminate.
Qed.

Lemma match_github_complete (url : string) :
  github_shape url -> match_github url <> None.
Proof.
  intros (pre & sep & o & p & rest & -> & Hsep & Ho & Hos & Hp & Hps).
  induction pre as [|c pre IH].
  - pose proof (match_github_at_complete sep o p rest Hsep Ho Hos Hp Hps) as H.
    simpl in *. destruct (match_github_at _); [discriminate | congruence].
  - simpl. destruct (match_github_at _); [discriminate | exact IH].
Qed.

(** [parseGitHubUrl] answers [null] exactly on the texts without the shape. *)
Lemma parseGitHubUrl_none_iff (url : string) :
  parseGitHubUrl url = None <-> ~ github_shape url.
Proof.
  unfold parseGitHubUrl. split.
  - intros H Hs. apply match_github_complete in Hs.
    destruct (match_github url) as [[o p]|] eqn:Hm; [|congruence].
    destruct (match_github_sound url o p Hm) as (Ho & Hp & _).
    destruct o; [congruence|]. destruct p; [congruence | discriminate].
  - intros Hn. destruct (match_github url) as [[o p]|] eqn:Hm; [|reflexivity].
    destruct (match_github_sound url o p Hm) as (_ & _ & Hs). contradiction.
Qed.

(** C8 fails as stated: the host of this address is [example.com], which
    does not contain [github.com], and the address parses all the same,
    because [github.com] is in its path. *)
Lemma parseGitHubUrl_reads_github_in_the_path :
  host "https://example.com/github.com/acme/widget" = Some "example.com"
  /\ Js.includes "github.com" "example.com" = false
  /\ parseGitHubUrl "https://example.com/github.com/acme/widget"
     = Some {| owner := "acme"; repo := "widget" |}.
Proof. repeat split. Qed.

(** C8, as amended.  The GitHub address of [acme/widget] with its [.git]
    suffix parses to owner [acme] and repository [widget]; a text that
    nowhere holds [github.com], a slash or a colon, an owner up to a slash
    and a repository name, be it in its host or after it, gives [None], and
    so does every text without [github.com], as the address of
    [example.com]: the function has no throwing path. *)
Theorem parseGitHubUrl_match_or_null :
  parseGitHubUrl "https://github.com/acme/widget.git"
    = Some {| owner := "acme"; repo := "widget" |}
  /\ parseGitHubUrl "https://example.com/acme/widget" = None
  /\ (forall url, ~ github_shape url -> parseGitHubUrl url = None)
  /\ (forall url, Js.includes "github.com" url = false ->
        parseGitHubUrl url = None).
Proof.
  repeat split; try reflexivity.
  - intros url. apply parseGitHubUrl_none_iff.
  - intros url Hnone. apply parseGitHubUrl_none_iff.
    intros Hshape. apply github_shape_includes in Hshape. congruence.
Qed.

Lemma parseGitHubUrl_match_or_null_witness :
  parseGitHubUrl "https://example.com/acme/widget" = None.
Proof.
  apply (proj2 (proj2 (proj2 parseGitHubUrl_match_or_null))).
  reflexivity.
Defined.

(** ** The range predicate of [getMetaDataByQuery] *)

(** In every call the lower comparator is keyed to the maximum and the
    upper comparator to the minimum. *)
Lemma whereCondition_bounds_crossed (c : QueryCall) :
  where_version (whereCondition c)
    !! (if minInclusive_arg c then "gte" else "gt") = Some (maxVersion_arg c)
  /\ where_version (whereCondition c)
    !! (if maxInclusive_arg c then "lte" else "lt") = Some (minVersion_arg c).
Proof.
  unfold whereCondition. simpl.
  destruct (minInclusive_arg c), (maxInclusive_arg c);
    split; now simplify_map_eq.
Qed.

(** C1 does not hold of the code.  For the range from [1.0.0] to [2.0.0],
    both inclusive, the predicate built asks for [version >= 2.0.0] and
    [version <= 1.0.0]: it is not the intended filter, and it rejects the
    stored version [1.5.0], which the intended filter accepts. *)
Theorem getMetaDataByQuery_bounds_crossed :
  where_version (whereCondition range_1_0_0_to_2_0_0)
    = <[ "lte" := "1.0.0" ]> (<[ "gte" := "2.0.0" ]> ∅)
  /\ where_version (whereCondition range_1_0_0_to_2_0_0)
     <> intended_version_filter range_1_0_0_to_2_0_0
  /\ filter_holds (where_version (whereCondition range_1_0_0_to_2_0_0)) "1.5.0"
     = false
  /\ filter_holds (intended_version_filter range_1_0_0_to_2_0_0) "1.5.0"
     = true.
Proof.
  repeat split; try reflexivity.
  intros H. apply (f_equal (fun m => m !! "gte")) in H.
  vm_compute in H. discriminate.
Qed.

(** ** Time-outs of the two queries *)

(** C9 fails as stated: the range query returns whenever the database
    answers, here after nine seconds, and never if the database never
    answers. *)
Lemma getMetaDataByQuery_has_no_timeout :
  getMetaDataByQuery (fun _ => Fulfilled 9000 one_row) range_1_0_0_to_2_0_0
    = Fulfilled 9000 (Some one_row)
  /\ getMetaDataByQuery (fun _ => Pending) range_1_0_0_to_2_0_0 = Pending.
Proof. split; reflexivity. Qed.

(** C9, as amended.  The metadata query that carries the five-second
    time-out is the name search [getMetaDataByRegEx]: an answer or a failure
    of the database before five seconds is passed on (a failure as [None]),
    and otherwise the call returns [None] at five seconds.  The range query
    [getMetaDataByQuery] follows the database whenever it settles. *)
Theorem getMetaDataByRegEx_times_out_after_five_seconds
  (findMany : FindManyArgs -> Promise (list MetadataRow))
  (findManyContains : string -> Promise (list MetadataRow))
  (regEx : string) (c : QueryCall) :
  (forall t rows, findManyContains regEx = Fulfilled t rows ->
     (t < 5000)%N ->
     getMetaDataByRegEx findManyContains regEx = Fulfilled t (Some rows))
  /\ (forall t e, findManyContains regEx = Rejected t e -> (t < 5000)%N ->
     getMetaDataByRegEx findManyContains regEx = Fulfilled t None)
  /\ (settled_before (findManyContains regEx) 5000 = false ->
     getMetaDataByRegEx findManyContains regEx = Fulfilled 5000 None)
  /\ (forall t rows, findMany (findManyArgs c) = Fulfilled t rows ->
     getMetaDataByQuery findMany c = Fulfilled t (Some rows))
  /\ (forall t e, findMany (findManyArgs c) = Rejected t e ->
     getMetaDataByQuery findMany c = Fulfilled t None)
  /\ (findMany (findManyArgs c) = Pending ->
     getMetaDataByQuery findMany c = Pending).
Proof.
  unfold getMetaDataByRegEx, getMetaDataByQuery, race_timeout, timeout_ms.
  repeat split.
  - intros t rows -> Ht. apply N.ltb_lt in Ht. now rewrite Ht.
  - intros t e -> Ht. apply N.ltb_lt in Ht. now rewrite Ht.
  - unfold settled_before.
    destruct (findManyContains regEx) as [t v|t e|]; intros H;
      rewrite ?H; reflexivity.
  - now intros t rows ->.
  - now intros t e ->.
  - now intros ->.
Qed.

Lemma getMetaDataByRegEx_times_out_after_five_seconds_witness :
  getMetaDataByRegEx (fun _ => Fulfilled 120 one_row) "widget"
    = Fulfilled 120 (Some one_row)
  /\ getMetaDataByRegEx (fun _ => Rejected 40 (Error "connection lost")) "widget"
    = Fulfilled 40 None
  /\ getMetaDataByRegEx (fun _ => Fulfilled 9000 one_row) "widget"
    = Fulfilled 5000 None
  /\ getMetaDataByQuery (fun _ => Fulfilled 9000 one_row) range_1_0_0_to_2_0_0
    = Fulfilled 9000 (Some one_row)
  /\ getMetaDataByQuery (fun _ => Pending) range_1_0_0_to_2_0_0 = Pending.
Proof.
  pose proof (getMetaDataByRegEx_times_out_after_five_seconds
                (fun _ => Fulfilled 9000 one_row)
                (fun _ => Fulfilled 120 one_row) "widget"
                range_1_0_0_to_2_0_0) as (H1 & _ & _ & H4 & _ & _).
  pose proof (getMetaDataByRegEx_times_out_after_five_seconds
                (fun _ => Pending)
                (fun _ => Rejected 40 (Error "connection lost")) "widget"
                range_1_0_0_to_2_0_0) as (_ & H2 & _ & _ & _ & H5).
  pose proof (getMetaDataByRegEx_times_out_after_five_seconds
                (fun _ => Pending)
                (fun _ => Fulfilled 9000 one_row) "widget"
                range_1_0_0_to_2_0_0) as (_ & _ & H3 & _ & _ & _).
  split; [apply (H1 120%N one_row); [reflexivity | lia]|].
  split; [apply (H2 40%N (Error "connection lost")); [reflexivity | lia]|].
  split; [apply H3; reflexivity|].
  split; [apply (H4 9000%N one_row); reflexivity|].
  apply H5; reflexivity.
Defined.

(** ** The name filter of [getPackages] *)

Section GetPackagesFacts.

Variable lib : SemverLib.
Variable findMany : FindManyArgs -> Promise (list MetadataRow).

Lemma getPackages_calls (req : Request) (fields : gmap string JSValue)
  (supplied : JSValue) :
  body req = JObject fields ->
  fields !! "Name" = Some supplied -> supplied <> JUndefined ->
  fields !! "name" = None ->
  match fields !! "Version" with
  | Some (JString s) =>
      match parseVersion lib s with
      | Returns r =>
          snd (getPackages lib findMany req) =
            [ {| queryName := JUndefined;
                 minVersion_arg := min r; maxVersion_arg := max r;
                 minInclusive_arg := minInclusive r;
                 maxInclusive_arg := maxInclusive r;
                 offset := match query req !! "offset" with
                           | None => Num 1
                           | Some o => ParseInt.parseInt o
                           end |} ]
      | _ => snd (getPackages lib findMany req) = []
      end
  | _ => snd (getPackages lib findMany req) = []
  end.
Proof.
  intros Hbody HName Hdef Hname. unfold getPackages.
  rewrite Hbody. cbn [get_optional get]. rewrite HName, Hname.
  cbn [default from_option id].
  assert (is_undefined supplied = false) as ->
    by (destruct supplied; congruence || reflexivity).
  destruct (fields !! "Version") as [v|]; [|reflexivity].
  cbn [default from_option id].
  destruct v; try reflexivity.
  cbn [is_undefined obind parseVersion_of].
  destruct (parseVersion lib s); reflexivity.
Qed.

(** C10, as amended.  For a request whose body has [Name] but no [name],
    every range query the handler issues gives [findMany] a where-condition
    whose [name] is [undefined], not what the client put in [Name].  When
    the body also has a [Version] that parses to a range, the request is
    not refused with 400, one such query is issued, and the answer of the
    handler is what [findMany] gives for these arguments. *)
Theorem getPackages_forwards_undefined_name (req : Request)
  (fields : gmap string JSValue) (supplied : JSValue) :
  body req = JObject fields ->
  fields !! "Name" = Some supplied -> supplied <> JUndefined ->
  fields !! "name" = None ->
  (forall call, call ∈ snd (getPackages lib findMany req) ->
     queryName call = JUndefined
     /\ is_not_wildcard (queryName call) = true
     /\ where_name (where_ (findManyArgs call)) = Some JUndefined
     /\ where_name (where_ (findManyArgs call)) <> Some supplied)
  /\ (forall v range,
        fields !! "Version" = Some (JString v) ->
        parseVersion lib v = Returns range ->
        let page := match query req !! "offset" with
                    | None => Num 1
                    | Some s => ParseInt.parseInt s
                    end in
        let args :=
          {| where_ :=
               {| where_version :=
                    <[ (if maxInclusive range then "lte" else "lt")
                       := min range ]>
                      (<[ (if minInclusive range then "gte" else "gt")
                          := max range ]> ∅);
                  where_name := Some JUndefined |};
             skip := recordsToSkip page;
             take := Num 10 |} in
        (exists call, snd (getPackages lib findMany req) = [call]
                      /\ findManyArgs call = args)
        /\ (forall r, fst (getPackages lib findMany req) = Responds r ->
              status r <> 400)
        /\ fst (getPackages lib findMany req)
           = match findMany args with
             | Fulfilled _ rows =>
                 Responds {| status := 200; headers := [("offset", page)];
                             payload := JsonMetadata (map toApi rows) |}
             | Rejected _ _ =>
                 Responds (respond 500
                   (Send "Error in getPackageMetaData: packageMetaData is null"))
             | Pending => NeverResponds
             end).
Proof.
  intros Hbody HName Hdef Hname.
  pose proof (getPackages_calls req fields supplied Hbody HName Hdef Hname)
    as Hcalls.
  split.
  - intros call Hin.
    assert (queryName call = JUndefined) as Hq.
    { destruct (fields !! "Version") as [[]|];
        try (rewrite Hcalls in Hin; now apply elem_of_nil in Hin).
      destruct (parseVersion lib s);
        try (rewrite Hcalls in Hin; now apply elem_of_nil in Hin).
      rewrite Hcalls in Hin. apply list_elem_of_singleton in Hin as ->.
      reflexivity. }
    unfold findManyArgs, whereCondition. rewrite Hq. cbn.
    repeat split. congruence.
  - intros v range HV Hr. cbv zeta.
    assert (is_undefined supplied = false) as Hsupplied
      by (destruct supplied; congruence || reflexivity).
    unfold getPackages.
    rewrite Hbody. cbn [get_optional get]. rewrite HName, Hname, HV.
    cbn [default from_option id is_undefined obind parseVersion_of].
    rewrite Hsupplied, Hr. cbn [obind snd fst].
    unfold getMetaDataByQuery.
    change (findManyArgs
              {| queryName := JUndefined;
                 minVersion_arg := min range; maxVersion_arg := max range;
                 minInclusive_arg := minInclusive range;
                 maxInclusive_arg := maxInclusive range;
                 offset := match query req !! "offset" with
                           | Some s => ParseInt.parseInt s
                           | None => Num 1
                           end |})
      with {| where_ :=
                {| where_version :=
                     <[ (if maxInclusive range then "lte" else "lt")
                        := min range ]>
                       (<[ (if minInclusive range then "gte" else "gt")
                           := max range ]> ∅);
                   where_name := Some JUndefined |};
              skip := recordsToSkip
                        match query req !! "offset" with
                        | Some s => ParseInt.parseInt s
                        | None => Num 1
                        end;
              take := Num 10 |}.
    split; [eexists; split; reflexivity|].
    destruct (findMany _) as [t rows|t e|]; split;
      try reflexivity; intros r [= <-]; discriminate.
Qed.

End GetPackagesFacts.

(** C10 fails as stated: a body with [Name] alone is refused with 400,
    and no query is issued. *)
Lemma getPackages_name_alone_is_refused :
  getPackages SemverRef.lib widget_database query_name_alone
    = (Responds (respond 400
         (Send "Error in getPackageMetaData: Version is undefined")), []).
Proof. reflexivity. Qed.

Lemma getPackages_forwards_undefined_name_witness :
  fst (getPackages SemverRef.lib widget_database body_with_Name_only)
    = Responds {| status := 200; headers := [("offset", Num 1)];
                  payload := JsonMetadata [] |}.
Proof.
  destruct (getPackages_forwards_undefined_name SemverRef.lib widget_database
              body_with_Name_only
              (<[ "Version" := JString "1.2.3" ]>
                 (<[ "Name" := JString "widget" ]> ∅))
              (JString "widget") eq_refl eq_refl
              ltac:(discriminate) eq_refl) as (_ & Hsome).
  destruct (Hsome "1.2.3"
              {| min := "1.2.3"; max := "1.2.3";
                 minInclusive := true; maxInclusive := true |}
              eq_refl eq_refl) as (_ & _ & Hanswer).
  exact Hanswer.
Defined.

(** ** Ingestion: what reads and logs leave alone *)

Lemma same_storage_refl (w : World) : same_storage w w.
Proof. repeat split. Qed.

Lemma same_storage_trans (w1 w2 w3 : World) :
  same_storage w1 w2 -> same_storage w2 w3 -> same_storage w1 w3.
Proof.
  unfold same_storage. intros (? & ? & ? & ? & ?) (? & ? & ? & ? & ?).
  repeat split; congruence.
Qed.

Section Keeps.

Context {A B : Type}.

Lemma keeps_ret (a : A) : keeps_storage (ret a).
Proof. intros w. apply same_storage_refl. Qed.

Lemma keeps_throw (e : JSError) : keeps_storage (@throw A e).
Proof. intros w. apply same_storage_refl. Qed.

Lemma keeps_lift (o : Outcome A) : keeps_storage (lift o).
Proof. intros w. apply same_storage_refl. Qed.

Lemma keeps_read (f : World -> A) : keeps_storage (read f).
Proof. intros w. apply same_storage_refl. Qed.

Lemma keeps_bind (m : M A) (k : A -> M B) :
  keeps_storage m -> (forall a, keeps_storage (k a)) ->
  keeps_storage (bind m k).
Proof.
  intros Hm Hk w. unfold bind. specialize (Hm w).
  destruct (m w) as [[a|e|n] w']; simpl in *; try assumption.
  eapply same_storage_trans; [exact Hm | apply Hk].
Qed.

Lemma keeps_try_catch (m : M A) (h : JSError -> M A) :
  keeps_storage m -> (forall e, keeps_storage (h e)) ->
  keeps_storage (try_catch m h).
Proof.
  intros Hm Hh w. unfold try_catch. specialize (Hm w).
  destruct (m w) as [[a|e|n] w']; simpl in *; try assumption.
  eapply same_storage_trans; [exact Hm | apply Hh].
Qed.

End Keeps.

Lemma keeps_log (ch text : string) (c : option JSError) :
  keeps_storage (log ch text c).
Proof. intros w. repeat split. Qed.

Ltac keeps :=
  repeat first
    [ apply keeps_ret | apply keeps_throw | apply keeps_lift
    | apply keeps_read | apply keeps_log
    | apply keeps_bind; [|intros ?]
    | apply keeps_try_catch; [|intros ?]
    | match goal with
      | |- keeps_storage (match ?x with _ => _ end) => destruct x
      end ].

Section IngestionFacts.

Variable env : Env.

Lemma keeps_extractFileFromZip (zipBuffer filename : string) :
  keeps_storage (extractFileFromZip env zipBuffer filename).
Proof. unfold extractFileFromZip. cbv zeta. keeps. Qed.

Lemma keeps_extractMetadataFromZip (filebuffer : string) :
  keeps_storage (extractMetadataFromZip env filebuffer).
Proof.
  unfold extractMetadataFromZip.
  apply keeps_try_catch; [|intros ?; keeps].
  apply keeps_bind; [apply keeps_extractFileFromZip | intros ?; keeps].
Qed.

Lemma keeps_getGithubUrlFromZip (zipBuffer : string) :
  keeps_storage (getGithubUrlFromZip env zipBuffer).
Proof.
  unfold getGithubUrlFromZip.
  apply keeps_try_catch; [|intros ?; keeps].
  destruct (String.eqb zipBuffer ""); [keeps|].
  apply keeps_bind; [apply keeps_extractFileFromZip | intros ?].
  cbv zeta. keeps.
Qed.

Lemma bind_returns {A B} (m : M A) (k : A -> M B) (w w' : World) (a : A) :
  m w = (Returns a, w') -> bind m k w = k a w'.
Proof. intros H. unfold bind. now rewrite H. Qed.

Lemma bind_throws {A B} (m : M A) (k : A -> M B) (w w' : World) e :
  m w = (Throws e, w') -> bind m k w = (Throws e, w').
Proof. intros H. unfold bind. now rewrite H. Qed.

(** the last step of a failed upload: the error is logged and the answer
    is 500 *)
Lemma uploadPackage_handler (e : JSError) (w : World) :
  exists w1,
    (run log "API Package Calls" "Error in POST /package: " (Some e);
     ret (respond 500 (Send "Internal Server Error"))) w
      = (Returns (respond 500 (Send "Internal Server Error")), w1)
    /\ same_storage w w1
    /\ last (logs w1)
       = Some {| channel := "API Package Calls";
                 line := "Error in POST /package: "; cause := Some e |}.
Proof.
  eexists. split; [reflexivity|]. split; [repeat split|].
  simpl. apply last_snoc.
Qed.

Lemma extractFileFromZip_nothing_fits (zipBuffer : string)
  (zip : list ZipEntry) (w : World) :
  loadAsync env zipBuffer = Returns zip -> no_entry_fits_pattern zip ->
  exists w',
    extractFileFromZip env zipBuffer "package.json" w
      = (Throws (Error "package.json not found inside the zip."), w').
Proof.
  intros Hload Hzip. unfold extractFileFromZip.
  unfold bind at 1. unfold lift. rewrite Hload.
  assert (match List.find (fun e => String.eqb (entry_name e) "package.json") zip with
          | Some e => if entry_dir e then None else Some e
          | None => None
          end = None) as ->.
  { destruct (List.find _ zip) as [e|] eqn:Hfind; [|reflexivity].
    apply find_some in Hfind as [Hin Hname].
    apply String.eqb_eq in Hname.
    unfold no_entry_fits_pattern in Hzip. rewrite Forall_forall in Hzip.
    apply list_elem_of_In in Hin.
    destruct (Hzip e Hin) as [-> | Hno]; [reflexivity|].
    rewrite Hname in Hno. vm_compute in Hno. discriminate. }
  assert (List.filter
            (fun e => negb (entry_dir e)
                      && matches_suffix_pattern "package.json" (entry_name e))
            zip = []) as ->.
  { clear Hload. induction Hzip as [|e zip He Hzip IH]; [reflexivity|].
    simpl. rewrite IH.
    destruct He as [-> | ->]; [reflexivity|].
    now rewrite andb_false_r. }
  eexists. reflexivity.
Qed.

(** When the extraction of the metadata or of the repository address
    throws, and so when no file entry of the archive fits the pattern of
    the search, [uploadPackage] answers 500 after logging that error, and
    neither a table nor the bucket has changed: no metadata, history or
    rating row is written. *)
Lemma uploadPackage_failed_extraction_writes_nothing
  (req : Request) (f : UploadedFile) (w : World) :
  file req = Some f ->
  (forall e w',
     extractMetadataFromZip env (buffer f) w = (Throws e, w')
     \/ (exists md wa,
           extractMetadataFromZip env (buffer f) w = (Returns md, wa)
           /\ getGithubUrlFromZip env (buffer f) wa = (Throws e, w')) ->
     exists w1,
       uploadPackage env req w
         = (Returns (respond 500 (Send "Internal Server Error")), w1)
       /\ same_storage w w1
       /\ last (logs w1)
          = Some {| channel := "API Package Calls";
                    line := "Error in POST /package: "; cause := Some e |})
  /\ (forall zip,
        loadAsync env (buffer f) = Returns zip -> no_entry_fits_pattern zip ->
        exists w1,
          uploadPackage env req w
            = (Returns (respond 500 (Send "Internal Server Error")), w1)
          /\ same_storage w w1
          /\ last (logs w1)
             = Some {| channel := "API Package Calls";
                       line := "Error in POST /package: ";
                       cause := Some (Error "package.json not found inside the zip.") |}).
Proof.
  intros Hfile.
  assert (forall e w',
     extractMetadataFromZip env (buffer f) w = (Throws e, w')
     \/ (exists md wa,
           extractMetadataFromZip env (buffer f) w = (Returns md, wa)
           /\ getGithubUrlFromZip env (buffer f) wa = (Throws e, w')) ->
     exists w1,
       uploadPackage env req w
         = (Returns (respond 500 (Send "Internal Server Error")), w1)
       /\ same_storage w w1
       /\ last (logs w1)
          = Some {| channel := "API Package Calls";
                    line := "Error in POST /package: "; cause := Some e |})
    as Hthrow.
  { intros e w' Hcase.
    destruct (uploadPackage_handler e w') as (w1 & Hrun & Hsame & Hlog).
    exists w1. split; [|split; [|exact Hlog]].
    - unfold uploadPackage, try_catch. rewrite Hfile.
      destruct Hcase as [Hmd | (md & wa & Hmd & Hurl)].
      + rewrite (bind_throws _ _ _ _ _ Hmd). exact Hrun.
      + rewrite (bind_returns _ _ _ _ _ Hmd).
        rewrite (bind_throws _ _ _ _ _ Hurl). exact Hrun.
    - eapply same_storage_trans; [|exact Hsame].
      destruct Hcase as [Hmd | (md & wa & Hmd & Hurl)].
      + pose proof (keeps_extractMetadataFromZip (buffer f) w) as H.
        now rewrite Hmd in H.
      + pose proof (keeps_extractMetadataFromZip (buffer f) w) as H1.
        pose proof (keeps_getGithubUrlFromZip (buffer f) wa) as H2.
        rewrite Hmd in H1. rewrite Hurl in H2.
        eapply same_storage_trans; eassumption. }
  split; [exact Hthrow|].
  intros zip Hload Hzip.
  destruct (extractFileFromZip_nothing_fits (buffer f) zip w Hload Hzip)
    as (w' & Hfile').
  eapply (Hthrow _ _). left.
  unfold extractMetadataFromZip, try_catch.
  rewrite (bind_throws _ _ _ _ _ Hfile'). reflexivity.
Qed.

End IngestionFacts.

(** ** Ingestion: a failing rating after the rows are written *)

Section RatingFailure.

Variable env : Env.

Lemma checkPackageHistoryExists_fresh (metadataId : string) (w : World) :
  db_fault env CountHistory = None ->
  List.filter (fun h => String.eqb (history_metadataId h) metadataId)
    (historyTable w) = [] ->
  checkPackageHistoryExists env metadataId w = (Returns false, w).
Proof.
  intros Hdb Hnone. unfold checkPackageHistoryExists, db, bind, read, ret.
  rewrite Hdb. simpl. now rewrite Hnone.
Qed.

Lemma uploadMetadataToDatabase_ok (md : ApiPackageMetadata) (w : World) :
  db_fault env CreateMetadata = None ->
  uploadMetadataToDatabase env md w = insert_metadata (metadata_row md) w.
Proof.
  intros Hdb. unfold uploadMetadataToDatabase, try_catch, db, bind.
  rewrite Hdb. reflexivity.
Qed.

Lemma createPackageHistoryEntry_ok (md : ApiPackageMetadata) (w : World) :
  db_fault env FindMetadata = None -> db_fault env FindUser = None ->
  db_fault env CreateHistory = None ->
  existsb (fun r => String.eqb (row_id r) (ID md)) (metadataTable w) = true ->
  existsb (Z.eqb 1) (userTable w) = true ->
  createPackageHistoryEntry env (ID md) 1 CREATE w
    = insert_history (creation_entry env md) w.
Proof.
  intros H1 H2 H3 Hrow Huser.
  unfold createPackageHistoryEntry, try_catch, db, bind, read, ret.
  rewrite H1. simpl. rewrite Hrow. simpl. rewrite H2. simpl.
  rewrite Huser. simpl. rewrite H3. reflexivity.
Qed.

Lemma calculateAndStoreGithubMetrics_failure (metadataId o r : string)
  (w : World) :
  (exists e, calculate env o r = Throws e)
  \/ (exists s e, calculate env o r = Returns s
                  /\ db_fault env CreateRating = Some e) ->
  exists w',
    calculateAndStoreGithubMetrics env metadataId o r w = (Returns tt, w')
    /\ same_storage w w'.
Proof.
  intros [[e He] | (s & e & Hs & He)];
    unfold calculateAndStoreGithubMetrics, try_catch, bind, lift.
  - rewrite He. eexists. split; [reflexivity | repeat split].
  - rewrite Hs. unfold storeMetricsInDatabase, try_catch, bind, db.
    rewrite He. eexists. split; [reflexivity | repeat split].
Qed.

Lemma uploadToS3_tables (fileName fileBuffer : string) (w : World) :
  metadataTable (snd (uploadToS3 env fileName fileBuffer w)) = metadataTable w
  /\ historyTable (snd (uploadToS3 env fileName fileBuffer w)) = historyTable w
  /\ ratingTable (snd (uploadToS3 env fileName fileBuffer w)) = ratingTable w.
Proof.
  unfold uploadToS3.
  destruct (AWS_S3_BUCKET_NAME env) as [[|c b]|]; try (repeat split).
  all: destruct (s3_upload env _ fileName fileBuffer); reflexivity.
Qed.

Lemma uploadToS3_ok (fileName fileBuffer bucketName : string) (w : World) :
  AWS_S3_BUCKET_NAME env = Some bucketName -> bucketName <> "" ->
  s3_upload env bucketName fileName fileBuffer = None ->
  uploadToS3 env fileName fileBuffer w = put_object fileName fileBuffer w.
Proof.
  intros Hb Hne Hup. unfold uploadToS3. rewrite Hb.
  destruct bucketName; [congruence|]. now rewrite Hup.
Qed.

(** C3, as amended.  Once the metadata row and the history row are written
    and the rating then fails, in the calculator or in its storage, both
    rows stay, no rating row is added, and, when the upload of the archive
    that follows succeeds, the call answers with the package. *)
Theorem uploadPackage_rating_failure_keeps_rows
  (req : Request) (f : UploadedFile) (w wa wb : World)
  (md : ApiPackageMetadata) (url : string) (info : GithubInfo) :
  file req = Some f ->
  extractMetadataFromZip env (buffer f) w = (Returns md, wa) ->
  getGithubUrlFromZip env (buffer f) wa = (Returns url, wb) ->
  parseGitHubUrl url = Some info ->
  db_fault env CountHistory = None ->
  List.filter (fun h => String.eqb (history_metadataId h) (ID md))
    (historyTable w) = [] ->
  db_fault env CreateMetadata = None ->
  db_fault env FindMetadata = None ->
  db_fault env FindUser = None ->
  existsb (Z.eqb 1) (userTable w) = true ->
  db_fault env CreateHistory = None ->
  (exists e, calculate env (owner info) (repo info) = Throws e)
  \/ (exists s e, calculate env (owner info) (repo info) = Returns s
                  /\ db_fault env CreateRating = Some e) ->
  exists result w1,
    uploadPackage env req w = (result, w1)
    /\ metadataTable w1 = metadataTable w ++ [metadata_row md]
    /\ historyTable w1 = historyTable w ++ [creation_entry env md]
    /\ ratingTable w1 = ratingTable w
    /\ (forall bucketName,
          AWS_S3_BUCKET_NAME env = Some bucketName -> bucketName <> "" ->
          s3_upload env bucketName (originalname f) (buffer f) = None ->
          result = Returns (respond 200 (JsonPackage
                     {| metadata := md;
                        data := {| Content := toBase64 env (buffer f);
                                   JSProgram := jsProgram |} |}))).
Proof.
  intros Hfile Hmd Hurl Hinfo Hcount Hfresh Hcreate Hfind Huserdb Huser
    Hhistory Hrating.
  pose proof (keeps_extractMetadataFromZip env (buffer f) w) as Ka.
  pose proof (keeps_getGithubUrlFromZip env (buffer f) wa) as Kb.
  rewrite Hmd in Ka. rewrite Hurl in Kb. simpl in Ka, Kb.
  pose proof (same_storage_trans _ _ _ Ka Kb) as (Em & Eh & Er & Eu & _).
  set (wc := snd (insert_metadata (metadata_row md) wb)).
  set (wd := snd (insert_history (creation_entry env md) wc)).
  destruct (calculateAndStoreGithubMetrics_failure (ID md) (owner info)
              (repo info) wd Hrating) as (we & Hcalc & Ke).
  destruct Ke as (Em' & Eh' & Er' & _ & _).
  pose proof (uploadToS3_tables (originalname f) (buffer f) we)
    as (Sm & Sh & Sr).
  assert (uploadPackage env req w =
          match uploadToS3 env (originalname f) (buffer f) we with
          | (Returns _, wf) =>
              (Returns (respond 200 (JsonPackage
                 {| metadata := md;
                    data := {| Content := toBase64 env (buffer f);
                               JSProgram := jsProgram |} |})), wf)
          | (Throws e, wf) =>
              (run log "API Package Calls" "Error in POST /package: " (Some e);
               ret (respond 500 (Send "Internal Server Error"))) wf
          | (Exits n, wf) => (Exits n, wf)
          end) as Hrun.
  { unfold uploadPackage, try_catch. rewrite Hfile.
    rewrite (bind_returns _ _ _ _ _ Hmd), (bind_returns _ _ _ _ _ Hurl), Hinfo.
    rewrite (bind_returns _ _ _ _ false
               (checkPackageHistoryExists_fresh (ID md) wb Hcount
                  ltac:(now rewrite Eh))).
    cbv iota.
    rewrite (bind_returns _ _ _ wc tt)
      by (rewrite uploadMetadataToDatabase_ok by assumption; reflexivity).
    rewrite (bind_returns _ _ _ wd tt).
    2:{ rewrite createPackageHistoryEntry_ok; try assumption; try reflexivity.
        - simpl. rewrite existsb_app. simpl.
          rewrite String.eqb_refl. now rewrite orb_true_r.
        - simpl. now rewrite Eu. }
    rewrite (bind_returns _ _ _ _ _ Hcalc).
    unfold bind at 1.
    destruct (uploadToS3 env (originalname f) (buffer f) we) as [[u|e|n] wf];
      reflexivity. }
  assert (metadataTable we = metadataTable w ++ [metadata_row md]) as Mw
    by (rewrite Em'; simpl; now rewrite Em).
  assert (historyTable we = historyTable w ++ [creation_entry env md]) as Hw
    by (rewrite Eh'; simpl; now rewrite Eh).
  assert (ratingTable we = ratingTable w) as Rw
    by (rewrite Er'; simpl; now rewrite Er).
  destruct (uploadToS3 env (originalname f) (buffer f) we) as [[u|e|n] wf]
    eqn:Hs3; simpl in Sm, Sh, Sr; rewrite Hrun; do 2 eexists;
    (split; [reflexivity|]); simpl;
    rewrite ?Sm, ?Sh, ?Sr, Mw, Hw, Rw; repeat split.
  - intros bucketName Hb Hne Hup.
    rewrite (uploadToS3_ok _ _ bucketName we Hb Hne Hup) in Hs3.
    discriminate.
  - intros bucketName Hb Hne Hup.
    rewrite (uploadToS3_ok _ _ bucketName we Hb Hne Hup) in Hs3.
    discriminate.
Qed.

End RatingFailure.

(** C3 fails as stated: with the rows written and the rating failed, the
    call answers 500 when the bucket is not configured, while both rows
    remain and no rating row exists. *)
Lemma uploadPackage_rating_and_bucket_failure :
  let done := uploadPackage (widget_env with_manifest None) widget_upload
                empty_world in
  fst done = Returns (respond 500 (Send "Internal Server Error"))
  /\ metadataTable (snd done) = [metadata_row widget_metadata]
  /\ historyTable (snd done)
     = [creation_entry (widget_env with_manifest None) widget_metadata]
  /\ ratingTable (snd done) = [].
Proof. vm_compute. repeat split. Qed.

Lemma uploadPackage_rating_failure_keeps_rows_witness :
  exists result w1,
    uploadPackage (widget_env with_manifest (Some "registry")) widget_upload
      empty_world = (result, w1)
    /\ metadataTable w1 = [metadata_row widget_metadata]
    /\ historyTable w1
       = [creation_entry (widget_env with_manifest (Some "registry"))
            widget_metadata]
    /\ ratingTable w1 = []
    /\ result = Returns (respond 200 (JsonPackage
                  {| metadata := widget_metadata;
                     data := {| Content := "UEstd2lkZ2V0";
                                JSProgram := jsProgram |} |})).
Proof.
  destruct (uploadPackage_rating_failure_keeps_rows
              (widget_env with_manifest (Some "registry")) widget_upload
              {| originalname := "widget.zip"; buffer := "PK-widget" |}
              empty_world
              (snd (extractMetadataFromZip
                      (widget_env with_manifest (Some "registry"))
                      "PK-widget" empty_world))
              (snd (getGithubUrlFromZip
                      (widget_env with_manifest (Some "registry"))
                      "PK-widget"
                      (snd (extractMetadataFromZip
                              (widget_env with_manifest (Some "registry"))
                              "PK-widget" empty_world))))
              widget_metadata "https://github.com/acme/widget"
              {| owner := "acme"; repo := "widget" |}
              eq_refl eq_refl eq_refl eq_refl eq_refl eq_refl eq_refl eq_refl
              eq_refl eq_refl eq_refl
              (or_introl (ex_intro _ (Error "Request failed with status code 404")
                            eq_refl)))
    as (result & w1 & Hrun & Hm & Hh & Hr & Hok).
  exists result, w1. repeat split; try assumption.
  apply (Hok "registry"); [reflexivity | discriminate | reflexivity].
Defined.

(** C4 does not hold of the code.  An archive that holds [README.md]
    alone is refused with 500 and nothing is written; but the archive
    [README.md], [lib/package-json] holds no manifest entry either, and the
    second search of [extractFileFromZip], whose pattern leaves the dot of
    [package.json] unescaped, takes [lib/package-json] for the manifest:
    the upload is answered with 200 and the metadata, history and rating
    rows are written. *)
Theorem uploadPackage_ingests_lookalike_manifest :
  existsb is_manifest_entry without_manifest = false
  /\ fst (uploadPackage (widget_env without_manifest (Some "registry"))
            widget_upload empty_world)
     = Returns (respond 500 (Send "Internal Server Error"))
  /\ same_storage empty_world
       (snd (uploadPackage (widget_env without_manifest (Some "registry"))
               widget_upload empty_world))
  /\ loadAsync lookalike_env (buffer {| originalname := "widget.zip";
                                        buffer := "PK-widget" |})
     = Returns lookalike_archive
  /\ existsb is_manifest_entry lookalike_archive = false
  /\ fst (uploadPackage lookalike_env widget_upload empty_world)
     = Returns (respond 200 (JsonPackage
         {| metadata := widget_metadata;
            data := {| Content := "UEstd2lkZ2V0"; JSProgram := jsProgram |} |}))
  /\ metadataTable (snd (uploadPackage lookalike_env widget_upload empty_world))
     = [metadata_row widget_metadata]
  /\ historyTable (snd (uploadPackage lookalike_env widget_upload empty_world))
     = [creation_entry lookalike_env widget_metadata]
  /\ ratingTable (snd (uploadPackage lookalike_env widget_upload empty_world))
     = [{| rating_metadataId := ID widget_metadata;
           rating := rating_of widget_scores |}].
Proof. vm_compute. repeat split. Qed.

(** * Further properties of the code *)

(** ** [getMaxVersion]: what it returns and when it gives up *)

Lemma includes_startsWith (p s : string) :
  Js.startsWith p s = true -> Js.includes p s = true.
Proof. intros H. destruct s; simpl; now rewrite H. Qed.

Lemma includes_later (p : string) (c : ascii) (s : string) :
  Js.includes p s = true -> Js.includes p (String c s) = true.
Proof. intros H. simpl. rewrite H. apply orb_true_r. Qed.

Lemma match_version_at_sound (s m : string) :
  match_version_at s = Some m ->
  plain_version m /\ Js.startsWith m s = true.
Proof.
  unfold match_version_at.
  destruct (Js.span Js.is_digit s) as [a r1] eqn:Ha.
  apply span_spec in Ha as (-> & Ha & _).
  destruct a as [|a0 a]; [discriminate|].
  destruct r1 as [|dot1 r1]; [discriminate|].
  destruct (Ascii.eqb_spec dot1 ".") as [->|Hne];
    [|destruct dot1 as [[] [] [] [] [] [] [] []]; solve [discriminate | congruence]].
  destruct (Js.span Js.is_digit r1) as [b r2] eqn:Hb.
  apply span_spec in Hb as (-> & Hb & _).
  destruct b as [|b0 b]; [discriminate|].
  destruct r2 as [|dot2 r2]; [discriminate|].
  destruct (Ascii.eqb_spec dot2 ".") as [->|Hne];
    [|destruct dot2 as [[] [] [] [] [] [] [] []]; solve [discriminate | congruence]].
  destruct (Js.span Js.is_digit r2) as [c r3] eqn:Hc.
  apply span_spec in Hc as (-> & Hc & _).
  destruct c as [|c0 c]; [discriminate|].
  intros [= <-]. split.
  - exists (String a0 a), (String b0 b), (String c0 c).
    repeat split; solve [discriminate | assumption].
  - replace (String a0 a +:+ String "." (String b0 b +:+ String "." (String c0 c +:+ r3)))
      with ((String a0 a +:+ "." +:+ String b0 b +:+ "." +:+ String c0 c) +:+ r3).
    + apply startsWith_append.
    + rewrite !append_assoc. simpl. rewrite ?append_assoc. reflexivity.
Qed.

Lemma match_versions_from_sound (s : string) :
  forall skip m, m ∈ match_versions_from skip s ->
  plain_version m /\ Js.includes m s = true.
Proof.
  induction s as [|c s IH]; intros skip m Hin.
  - now apply elem_of_nil in Hin.
  - destruct skip as [|k].
    + change (match_versions_from 0 (String c s))
        with (match match_version_at (String c s) with
              | Some m' => m' :: match_versions_from
                                   (Nat.pred (String.length m')) s
              | None => match_versions_from 0 s
              end) in Hin.
      destruct (match_version_at (String c s)) as [m'|] eqn:Hat.
      * apply elem_of_cons in Hin as [-> | Hin].
        -- apply match_version_at_sound in Hat as [Hp Hs].
           split; [exact Hp | now apply includes_startsWith].
        -- destruct (IH _ _ Hin) as [Hp Hi].
           split; [exact Hp | now apply includes_later].
      * destruct (IH _ _ Hin) as [Hp Hi].
        split; [exact Hp | now apply includes_later].
    + destruct (IH k m Hin) as [Hp Hi].
      split; [exact Hp | now apply includes_later].
Qed.

(** X1.  Whatever [getMaxVersion] returns is a token of the form
    digits.digits.digits, and it occurs in the argument once [-0] is
    deleted. *)
Theorem getMaxVersion_returns_a_version_token (s v : string) :
  getMaxVersion s = Returns v ->
  plain_version v /\ Js.includes v (strip_dash_zero s) = true.
Proof.
  unfold getMaxVersion, match_versions.
  destruct (last (match_versions_from 0 (strip_dash_zero s))) as [x|] eqn:Hl;
    [|discriminate].
  intros [= ->]. apply last_Some in Hl as [l Hl].
  apply (match_versions_from_sound _ 0). rewrite Hl.
  apply elem_of_app. right. apply list_elem_of_singleton. reflexivity.
Qed.

Lemma getMaxVersion_returns_a_version_token_witness :
  plain_version "2.0.0"
  /\ Js.includes "2.0.0" (strip_dash_zero ">=1.0.0-0 <=2.0.0") = true.
Proof.
  apply (getMaxVersion_returns_a_version_token ">=1.0.0-0 <=2.0.0" "2.0.0").
  reflexivity.
Defined.

Lemma strip_dash_zero_keeps_class (f : ascii -> bool) :
  forall n s, (String.length s <= n)%nat ->
  Js.forallb f s = true -> Js.forallb f (strip_dash_zero s) = true.
Proof.
  induction n as [|n IH]; intros s Hlen Hs.
  - destruct s; [reflexivity | simpl in Hlen; lia].
  - destruct s as [|c s]; [reflexivity|].
    destruct s as [|d s]; [exact Hs|].
    change (strip_dash_zero (String c (String d s)))
      with (if Ascii.eqb c "-" && Ascii.eqb d "0" then strip_dash_zero s
            else String c (strip_dash_zero (String d s))).
    simpl in Hlen, Hs.
    apply andb_true_iff in Hs as [Hc Hs].
    destruct (Ascii.eqb c "-" && Ascii.eqb d "0").
    + apply andb_true_iff in Hs as [_ Hs]. apply IH; [lia | exact Hs].
    + change (Js.forallb f (String c (strip_dash_zero (String d s))))
        with (f c && Js.forallb f (strip_dash_zero (String d s))).
      rewrite Hc. apply IH; [simpl; lia | exact Hs].
Qed.

(** X2.  On a text without any digit [getMaxVersion] ends the process with
    status 1. *)
Theorem getMaxVersion_without_digits_exits (s : string) :
  Js.forallb (fun c => negb (Js.is_digit c)) s = true ->
  getMaxVersion s = Exits 1.
Proof.
  intros Hs. unfold getMaxVersion, match_versions.
  pose proof (strip_dash_zero_keeps_class _ _ s (le_n _) Hs) as Hstrip.
  rewrite <- (append_empty_r (strip_dash_zero s)).
  rewrite match_versions_no_digits by exact Hstrip. reflexivity.
Qed.

Lemma getMaxVersion_without_digits_exits_witness :
  getMaxVersion ">=latest || *" = Exits 1.
Proof. apply getMaxVersion_without_digits_exits. reflexivity. Defined.

(** X3.  A text in which [-0] does not occur goes through the deletion
    unchanged. *)
Theorem strip_dash_zero_without_marker (s : string) :
  Js.includes "-0" s = false -> strip_dash_zero s = s.
Proof.
  induction s as [|c s IH]; [reflexivity|].
  intros H.
  change (Js.includes "-0" (String c s))
    with (Js.startsWith "-0" (String c s) || Js.includes "-0" s) in H.
  apply orb_false_iff in H as [Hhead Htail].
  change (strip_dash_zero (String c s))
    with (match s with
          | String d s'' =>
              if Ascii.eqb c "-" && Ascii.eqb d "0" then strip_dash_zero s''
              else String c (strip_dash_zero s)
          | EmptyString => String c EmptyString
          end).
  destruct s as [|d s']; [reflexivity|].
  assert (Ascii.eqb c "-" && Ascii.eqb d "0" = false) as ->.
  { simpl in Hhead. rewrite andb_true_r in Hhead.
    now rewrite (Ascii.eqb_sym c), (Ascii.eqb_sym d). }
  now rewrite (IH Htail).
Qed.

Lemma strip_dash_zero_without_marker_witness :
  strip_dash_zero ">=1.2.3-alpha <2.0.0" = ">=1.2.3-alpha <2.0.0".
Proof. apply strip_dash_zero_without_marker. reflexivity. Defined.

(** X4.  The "maximum" is the last token written, whatever the numbers: of
    two bare versions separated by a blank, the second is returned. *)
Theorem getMaxVersion_takes_the_last_token (a b : string) :
  plain_version a -> plain_version b ->
  getMaxVersion (a +:+ " " +:+ b) = Returns b.
Proof.
  intros Ha Hb. unfold getMaxVersion, match_versions.
  rewrite strip_dash_zero_id.
  - rewrite match_versions_plain by (auto; reflexivity).
    rewrite (match_versions_no_digits " ") by reflexivity.
    rewrite <- (append_empty_r b) at 1.
    rewrite match_versions_plain by (auto; exact I). reflexivity.
  - rewrite !forallb_append.
    rewrite (plain_version_not_dash a Ha), (plain_version_not_dash b Hb).
    reflexivity.
Qed.

Lemma getMaxVersion_takes_the_last_token_witness :
  getMaxVersion "2.0.0 1.0.0" = Returns "1.0.0".
Proof.
  apply (getMaxVersion_takes_the_last_token "2.0.0" "1.0.0");
    [plain_version_literal "2" "0" "0" | plain_version_literal "1" "0" "0"].
Defined.

(** ** [parseGitHubUrl]: the groups it captures *)

Lemma match_github_at_groups (s o p : string) :
  match_github_at s = Some (o, p) ->
  Js.forallb not_slash o = true /\ Js.forallb not_slash_dot p = true
  /\ Js.startsWith "github.com" s = true.
Proof.
  unfold match_github_at.
  destruct (Js.strip_prefix "github.com" s) as [[|sep r]|] eqn:Hpre;
    try discriminate.
  apply strip_prefix_spec in Hpre.
  destruct (Ascii.eqb sep "/" || Ascii.eqb sep ":"); [|discriminate].
  destruct (Js.span not_slash r) as [o' r1] eqn:Ho.
  apply span_spec in Ho as (_ & Ho & _).
  destruct o' as [|o0 o']; [discriminate|].
  destruct r1 as [|c r1]; [discriminate|].
  destruct (Ascii.eqb_spec c "/") as [->|Hc];
    [|destruct c as [[] [] [] [] [] [] [] []]; solve [discriminate | congruence]].
  destruct (Js.span not_slash_dot r1) as [p' r2] eqn:Hp.
  apply span_spec in Hp as (_ & Hp & _).
  destruct p' as [|p0 p']; [discriminate|].
  intros [= <- <-]. repeat split; try assumption.
  rewrite Hpre. apply startsWith_append.
Qed.

Lemma match_github_groups (s o p : string) :
  match_github s = Some (o, p) ->
  Js.forallb not_slash o = true /\ Js.forallb not_slash_dot p = true
  /\ Js.includes "github.com" s = true.
Proof.
  induction s as [|c s IH]; [discriminate|].
  simpl match_github.
  destruct (match_github_at (String c s)) as [g|] eqn:H.
  - intros [= ->]. apply match_github_at_groups in H as (Ho & Hp & Hs).
    repeat split; try assumption. now apply includes_startsWith.
  - intros H'. destruct (IH H') as (Ho & Hp & Hs).
    repeat split; try assumption. now apply includes_later.
Qed.

Lemma remove_first_git_without_dot (p : string) :
  Js.forallb not_slash_dot p = true -> Js.remove_first ".git" p = p.
Proof.
  induction p as [|c p IH]; [reflexivity|].
  intros [Hc Hp]%andb_true_iff.
  assert (Ascii.eqb "." c = false) as Hdot.
  { unfold not_slash_dot in Hc. apply andb_true_iff in Hc as [_ Hc].
    apply negb_true_iff in Hc. now rewrite Ascii.eqb_sym. }
  simpl. rewrite Hdot. now rewrite (IH Hp).
Qed.

(** X5.  When [parseGitHubUrl] finds a match, the owner is a non-empty
    text without a slash, the repository is a non-empty text without a
    slash and without a dot (a name is cut at its first dot), and the
    address mentions [github.com]. *)
Theorem parseGitHubUrl_groups (url : string) (info : GithubInfo) :
  parseGitHubUrl url = Some info ->
  owner info <> "" /\ Js.forallb not_slash (owner info) = true
  /\ repo info <> "" /\ Js.forallb not_slash_dot (repo info) = true
  /\ Js.includes "github.com" url = true.
Proof.
  unfold parseGitHubUrl.
  destruct (match_github url) as [[o p]|] eqn:Hm; [|discriminate].
  destruct (match_github_groups url o p Hm) as (Ho & Hp & Hu).
  destruct o as [|o0 o]; [discriminate|].
  destruct p as [|p0 p]; [discriminate|].
  rewrite (remove_first_git_without_dot _ Hp).
  intros [= <-]. simpl. repeat split; solve [discriminate | assumption].
Qed.

Lemma parseGitHubUrl_groups_witness :
  owner {| owner := "socketio"; repo := "socket" |} <> ""
  /\ Js.forallb not_slash (owner {| owner := "socketio"; repo := "socket" |})
     = true
  /\ repo {| owner := "socketio"; repo := "socket" |} <> ""
  /\ Js.forallb not_slash_dot (repo {| owner := "socketio"; repo := "socket" |})
     = true
  /\ Js.includes "github.com" "https://github.com/socketio/socket.io" = true.
Proof.
  apply (parseGitHubUrl_groups "https://github.com/socketio/socket.io").
  reflexivity.
Defined.

Lemma match_github_skip (c : ascii) (s : string) :
  Js.strip_prefix "github.com" (String c s) = None ->
  match_github (String c s) = match_github s.
Proof.
  intros H. simpl match_github. unfold match_github_at. now rewrite H.
Qed.

Lemma match_github_here (sep : ascii) (o p rest : string) :
  (sep = "/" \/ sep = ":")%char ->
  o <> "" -> Js.forallb not_slash o = true ->
  p <> "" -> Js.forallb not_slash_dot p = true ->
  stops not_slash_dot rest ->
  match_github ("github.com" +:+ String sep (o +:+ "/" +:+ p +:+ rest))
    = Some (o, p).
Proof.
  intros Hsep Ho Hos Hp Hps Hrest.
  assert (match_github_at
            ("github.com" +:+ String sep (o +:+ "/" +:+ p +:+ rest))
          = Some (o, p)) as Hat.
  { unfold match_github_at. rewrite strip_prefix_append.
    assert (Ascii.eqb sep "/" || Ascii.eqb sep ":" = true) as ->
      by (destruct Hsep as [-> | ->]; reflexivity).
    rewrite (span_append not_slash o) by (auto; reflexivity).
    destruct o as [|o0 o]; [congruence|].
    change ("/" +:+ p +:+ rest) with (String "/" (p +:+ rest)). cbv iota.
    rewrite (span_append not_slash_dot p) by assumption.
    destruct p as [|p0 p]; [congruence | reflexivity]. }
  revert Hat.
  generalize ("github.com" +:+ String sep (o +:+ "/" +:+ p +:+ rest)).
  intros s Hat. destruct s as [|c s]; [vm_compute in Hat; discriminate|].
  simpl match_github. now rewrite Hat.
Qed.

Lemma match_github_https_address (o p rest : string) :
  o <> "" -> Js.forallb not_slash o = true ->
  p <> "" -> Js.forallb not_slash_dot p = true ->
  stops not_slash_dot rest ->
  match_github ("https://github.com/" +:+ o +:+ "/" +:+ p +:+ rest)
    = Some (o, p).
Proof.
  intros Ho Hos Hp Hps Hrest.
  pose proof (match_github_here "/" o p rest (or_introl eq_refl)
                Ho Hos Hp Hps Hrest) as Hslash.
  simpl String.append in *.
  do 8 (rewrite match_github_skip by reflexivity).
  exact Hslash.
Qed.

Lemma match_github_ssh_address (o p rest : string) :
  o <> "" -> Js.forallb not_slash o = true ->
  p <> "" -> Js.forallb not_slash_dot p = true ->
  stops not_slash_dot rest ->
  match_github ("git@github.com:" +:+ o +:+ "/" +:+ p +:+ rest)
    = Some (o, p).
Proof.
  intros Ho Hos Hp Hps Hrest.
  pose proof (match_github_here ":" o p rest (or_intror eq_refl)
                Ho Hos Hp Hps Hrest) as Hcolon.
  simpl String.append in *.
  do 4 (rewrite match_github_skip by reflexivity).
  exact Hcolon.
Qed.

Lemma parseGitHubUrl_of_match (url o p : string) :
  match_github url = Some (o, p) ->
  o <> "" -> p <> "" -> Js.forallb not_slash_dot p = true ->
  parseGitHubUrl url = Some {| owner := o; repo := p |}.
Proof.
  intros Hm Ho Hp Hps. unfold parseGitHubUrl. rewrite Hm.
  destruct o as [|o0 o]; [congruence|].
  destruct p as [|p0 p]; [congruence|].
  now rewrite (remove_first_git_without_dot _ Hps).
Qed.

(** X6.  An address [https://github.com/owner/repo] or
    [git@github.com:owner/repo], followed by nothing, by [.git] or by a
    further path, parses to that owner and that repository. *)
Theorem parseGitHubUrl_of_github_address (o p rest : string) :
  o <> "" -> Js.forallb not_slash o = true ->
  p <> "" -> Js.forallb not_slash_dot p = true ->
  stops not_slash_dot rest ->
  parseGitHubUrl ("https://github.com/" +:+ o +:+ "/" +:+ p +:+ rest)
    = Some {| owner := o; repo := p |}
  /\ parseGitHubUrl ("git@github.com:" +:+ o +:+ "/" +:+ p +:+ rest)
    = Some {| owner := o; repo := p |}.
Proof.
  intros Ho Hos Hp Hps Hrest. split.
  - apply parseGitHubUrl_of_match; try assumption.
    now apply match_github_https_address.
  - apply parseGitHubUrl_of_match; try assumption.
    now apply match_github_ssh_address.
Qed.

Lemma parseGitHubUrl_of_github_address_witness :
  parseGitHubUrl "https://github.com/acme/widget/tree/main"
    = Some {| owner := "acme"; repo := "widget" |}
  /\ parseGitHubUrl "git@github.com:acme/widget/tree/main"
    = Some {| owner := "acme"; repo := "widget" |}.
Proof.
  apply (parseGitHubUrl_of_github_address "acme" "widget" "/tree/main");
    solve [discriminate | reflexivity].
Defined.

(** ** [extractFileFromZip]: which entry is read *)

Lemma matches_suffix_pattern_later (filename : string) (c : ascii) (s : string) :
  Js.is_newline c = false ->
  matches_suffix_pattern filename s = true ->
  matches_suffix_pattern filename (String c s) = true.
Proof.
  intros Hc Hs. simpl. rewrite Hc, Hs. simpl. apply orb_true_r.
Qed.

Lemma manifest_pattern_wildcard (pre : string) (c : ascii) :
  Js.forallb (fun x => negb (Js.is_newline x)) pre = true ->
  Js.is_newline c = false ->
  matches_suffix_pattern "package.json" (pre +:+ "package" +:+ String c "json")
    = true.
Proof.
  intros Hpre Hc. induction pre as [|x pre IH].
  - change ("" +:+ "package" +:+ String c "json")
      with (String "p" (String "a" (String "c" (String "k" (String "a"
              (String "g" (String "e" (String c "json")))))))).
    cbv - [Js.is_newline]. now rewrite Hc.
  - apply andb_true_iff in Hpre as [Hx Hpre]. apply negb_true_iff in Hx.
    apply matches_suffix_pattern_later; auto.
Qed.

(** X7.  The dot of [package.json] is not escaped in the fallback pattern:
    when no entry is named [package.json] exactly, a file whose path ends
    with [package], any one character and [json] is read as the manifest. *)
Theorem extractFileFromZip_wildcard_dot (env : Env) (zipBuffer pre text : string)
  (c : ascii) (w : World) :
  Js.forallb (fun x => negb (Js.is_newline x)) pre = true ->
  Js.is_newline c = false ->
  loadAsync env zipBuffer
    = Returns [ {| entry_name := pre +:+ "package" +:+ String c "json";
                   entry_dir := false; entry_text := text |} ] ->
  extractFileFromZip env zipBuffer "package.json" w = (Returns text, w).
Proof.
  intros Hpre Hc Hload. unfold extractFileFromZip, bind, lift.
  rewrite Hload. cbn [List.find entry_name entry_dir entry_text].
  destruct (String.eqb (pre +:+ "package" +:+ String c "json") "package.json");
    [reflexivity|].
  cbn [List.filter entry_name entry_dir negb andb].
  rewrite (manifest_pattern_wildcard pre c Hpre Hc). reflexivity.
Qed.

Lemma extractFileFromZip_wildcard_dot_witness :
  extractFileFromZip
    (widget_env [ {| entry_name := "lib/package-json"; entry_dir := false;
                     entry_text := "notes" |} ] None)
    "PK-widget" "package.json" empty_world
  = (Returns "notes", empty_world).
Proof.
  apply (extractFileFromZip_wildcard_dot _ "PK-widget" "lib/" "notes" "-");
    reflexivity.
Defined.

(** X8.  What [extractFileFromZip] returns for [package.json] is the text
    of an entry of the archive that is a file, not a directory, and whose
    path is [package.json] or ends the way the fallback pattern wants; the
    call leaves the world as it is. *)
Theorem extractFileFromZip_reads_a_file_entry (env : Env)
  (zipBuffer text : string) (zip : list ZipEntry) (w w' : World) :
  loadAsync env zipBuffer = Returns zip ->
  extractFileFromZip env zipBuffer "package.json" w = (Returns text, w') ->
  w' = w
  /\ exists e, e ∈ zip /\ entry_dir e = false /\ entry_text e = text
               /\ matches_suffix_pattern "package.json" (entry_name e) = true.
Proof.
  intros Hload. unfold extractFileFromZip, bind, lift. rewrite Hload.
  destruct (List.find (fun e => String.eqb (entry_name e) "package.json") zip)
    as [e|] eqn:Hfind.
  - apply find_some in Hfind as [Hin Hname]. apply String.eqb_eq in Hname.
    apply list_elem_of_In in Hin.
    destruct (entry_dir e) eqn:Hdir.
    + destruct (List.filter _ zip) as [|e' l] eqn:Hf; [discriminate|].
      intros [= <- <-]. split; [reflexivity|]. exists e'.
      assert (In e' (List.filter
                (fun e0 => negb (entry_dir e0)
                           && matches_suffix_pattern "package.json" (entry_name e0))
                zip)) as Hin' by (rewrite Hf; now left).
      apply filter_In in Hin' as [Hz Hp].
      apply andb_true_iff in Hp as [Hd Hp]. apply negb_true_iff in Hd.
      apply list_elem_of_In in Hz. auto.
    + intros [= <- <-]. split; [reflexivity|]. exists e.
      repeat split; try assumption. now rewrite Hname.
  - destruct (List.filter _ zip) as [|e' l] eqn:Hf; [discriminate|].
    intros [= <- <-]. split; [reflexivity|]. exists e'.
    assert (In e' (List.filter
              (fun e0 => negb (entry_dir e0)
                         && matches_suffix_pattern "package.json" (entry_name e0))
              zip)) as Hin' by (rewrite Hf; now left).
    apply filter_In in Hin' as [Hz Hp].
    apply andb_true_iff in Hp as [Hd Hp]. apply negb_true_iff in Hd.
    apply list_elem_of_In in Hz. auto.
Qed.

Lemma extractFileFromZip_reads_a_file_entry_witness :
  empty_world = empty_world
  /\ exists e, e ∈ with_manifest /\ entry_dir e = false
               /\ entry_text e = widget_manifest
               /\ matches_suffix_pattern "package.json" (entry_name e) = true.
Proof.
  apply (extractFileFromZip_reads_a_file_entry scored_env "PK-widget"
           widget_manifest with_manifest empty_world empty_world);
    reflexivity.
Defined.

(** ** [getGithubUrlFromZip]: the shorthand of a repository *)

Lemma substring_all (s : string) : String.substring 0 (String.length s) s = s.
Proof. induction s as [|c s IH]; simpl; [reflexivity | now rewrite IH]. Qed.

Lemma strip_git_suffix_without_dot (s : string) :
  Js.forallb not_slash_dot s = true -> strip_git_suffix s = s.
Proof.
  induction s as [|c s IH]; [reflexivity|].
  intros [Hc Hs]%andb_true_iff.
  change (strip_git_suffix (String c s))
    with (if String.eqb (String c s) ".git" then EmptyString
          else String c (strip_git_suffix s)).
  destruct (String.eqb_spec (String c s) ".git") as [E|_].
  - injection E as -> _. discriminate.
  - now rewrite (IH Hs).
Qed.

Lemma strip_git_suffix_keeps (s : string) :
  Js.endsWith ".git" s = false -> strip_git_suffix s = s.
Proof.
  induction s as [|c s IH]; [reflexivity|].
  change (Js.endsWith ".git" (String c s))
    with (String.eqb ".git" (String c s) || Js.endsWith ".git" s).
  intros [Hhere Hlater]%orb_false_iff.
  change (strip_git_suffix (String c s))
    with (if String.eqb (String c s) ".git" then EmptyString
          else String c (strip_git_suffix s)).
  rewrite String.eqb_sym, Hhere. now rewrite (IH Hlater).
Qed.

Lemma strip_git_suffix_after_slash (y t : string) :
  strip_git_suffix (y +:+ "/" +:+ t) = y +:+ "/" +:+ strip_git_suffix t.
Proof.
  induction y as [|c y IH].
  - change ("" +:+ "/" +:+ t) with (String "/" t).
    change (strip_git_suffix (String "/" t))
      with (if String.eqb (String "/" t) ".git" then EmptyString
            else String "/" (strip_git_suffix t)).
    now destruct (String.eqb_spec (String "/" t) ".git") as [E|_];
      [discriminate|].
  - change (strip_git_suffix (String c y +:+ "/" +:+ t))
      with (if String.eqb (String c (y +:+ "/" +:+ t)) ".git" then EmptyString
            else String c (strip_git_suffix (y +:+ "/" +:+ t))).
    destruct (String.eqb_spec (String c (y +:+ "/" +:+ t)) ".git") as [E|_].
    + apply (f_equal (Js.forallb not_slash)) in E.
      change (Js.forallb not_slash (String c (y +:+ "/" +:+ t)))
        with (not_slash c && Js.forallb not_slash (y +:+ "/" +:+ t)) in E.
      rewrite forallb_append in E.
      change (Js.forallb not_slash ("/" +:+ t))
        with (not_slash "/" && Js.forallb not_slash t) in E.
      change (not_slash "/") with false in E.
      rewrite andb_false_l, !andb_false_r in E. discriminate.
    + rewrite IH. reflexivity.
Qed.

(** X9.  When the manifest gives its repository as the shorthand
    [github:owner/name], where the name does not end in [.git] and starts
    with a non-empty run [p] of characters other than slash and dot,
    followed by nothing, by a dot or by a slash, [getGithubUrlFromZip]
    returns [https://github.com/owner/name], touching no table, and
    [parseGitHubUrl] reads from it the owner and, as repository, [p] alone:
    the name up to its first dot. *)
Theorem getGithubUrlFromZip_of_shorthand (env : Env)
  (zipBuffer text o p rest : string) (json : JSValue) (w : World) :
  zipBuffer <> "" ->
  extractFileFromZip env zipBuffer "package.json" w = (Returns text, w) ->
  text <> "" ->
  JSON_parse env text = Returns json ->
  get json "repository"
    = Returns (JString ("github:" +:+ o +:+ "/" +:+ p +:+ rest)) ->
  o <> "" -> Js.forallb not_slash o = true ->
  p <> "" -> Js.forallb not_slash_dot p = true ->
  stops not_slash_dot rest ->
  Js.endsWith ".git" (p +:+ rest) = false ->
  exists w',
    getGithubUrlFromZip env zipBuffer w
      = (Returns ("https://github.com/" +:+ o +:+ "/" +:+ p +:+ rest), w')
    /\ same_storage w w'
    /\ parseGitHubUrl ("https://github.com/" +:+ o +:+ "/" +:+ p +:+ rest)
       = Some {| owner := o; repo := p |}.
Proof.
  intros Hbuf Hfile Htext Hparse Hrepo Ho Hos Hp Hps Hrest Hgit.
  pose proof (keeps_getGithubUrlFromZip env zipBuffer w) as Hkeep.
  assert (fst (getGithubUrlFromZip env zipBuffer w)
          = Returns ("https://github.com/" +:+ o +:+ "/" +:+ p +:+ rest))
    as Hres.
  { unfold getGithubUrlFromZip, try_catch.
    apply String.eqb_neq in Hbuf, Htext. rewrite Hbuf.
    rewrite (bind_returns _ _ _ _ _ Hfile). rewrite Htext.
    unfold bind at 1. cbn [log].
    unfold bind at 1. unfold try_catch, lift. rewrite Hparse.
    unfold bind at 1. rewrite Hrepo.
    cbn [get_optional truthy].
    change ("github:" +:+ o +:+ "/" +:+ p +:+ rest)
      with (String "g" ("ithub:" +:+ o +:+ "/" +:+ p +:+ rest)).
    cbv iota.
    change (String "g" ("ithub:" +:+ o +:+ "/" +:+ p +:+ rest))
      with ("github:" +:+ (o +:+ "/" +:+ p +:+ rest)).
    rewrite startsWith_append.
    assert (String.substring 7
              (String.length ("github:" +:+ (o +:+ "/" +:+ p +:+ rest)) - 7)
              ("github:" +:+ (o +:+ "/" +:+ p +:+ rest))
            = o +:+ "/" +:+ p +:+ rest) as ->.
    { simpl. rewrite Nat.sub_0_r. apply substring_all. }
    change ("https://github.com/" +:+ o +:+ "/" +:+ p +:+ rest)
      with (("https://github.com/" +:+ o) +:+ "/" +:+ (p +:+ rest)).
    rewrite (strip_git_suffix_after_slash _ (p +:+ rest)).
    rewrite (strip_git_suffix_keeps _ Hgit). reflexivity. }
  destruct (getGithubUrlFromZip env zipBuffer w) as [res w'] eqn:Hrun.
  simpl in Hres, Hkeep. subst res. exists w'.
  split; [reflexivity|]. split; [exact Hkeep|].
  apply parseGitHubUrl_of_match; try assumption.
  now apply match_github_https_address.
Qed.

Lemma getGithubUrlFromZip_of_shorthand_witness :
  exists w',
    getGithubUrlFromZip (manifest_env socket_manifest socket_json) "PK-widget"
      empty_world
      = (Returns "https://github.com/socketio/socket.io", w')
    /\ same_storage empty_world w'
    /\ parseGitHubUrl "https://github.com/socketio/socket.io"
       = Some {| owner := "socketio"; repo := "socket" |}.
Proof.
  apply (getGithubUrlFromZip_of_shorthand
           (manifest_env socket_manifest socket_json) "PK-widget"
           socket_manifest "socketio" "socket" ".io" socket_json empty_world);
    solve [discriminate | reflexivity].
Defined.

(** ** Ingestion: what each step of an upload can do *)

Lemma filter_nonempty_existsb {A} (f : A -> bool) (l : list A) :
  (0 <? Z.of_nat (length (List.filter f l))) = existsb f l.
Proof.
  induction l as [|a l IH]; [reflexivity|].
  simpl. destruct (f a); [|exact IH].
  simpl length. now rewrite Nat2Z.inj_succ, (proj2 (Z.ltb_lt _ _)) by lia.
Qed.

Section UploadSteps.

Variable env : Env.

Lemma extractMetadataFromZip_id (filebuffer : string) (w w' : World)
  (md : ApiPackageMetadata) :
  extractMetadataFromZip env filebuffer w = (Returns md, w') ->
  ID md = uuidv4 env.
Proof.
  unfold extractMetadataFromZip, try_catch, bind, lift, ret, throw.
  destruct (extractFileFromZip env filebuffer "package.json" w)
    as [[t|e|n] w1]; try discriminate.
  destruct (JSON_parse env t) as [j|e|n]; try discriminate.
  destruct (get j "name") as [a|e|n]; try discriminate.
  destruct (get j "version") as [v|e|n]; try discriminate.
  intros [= <- _]. reflexivity.
Qed.

Lemma checkPackageHistoryExists_cases (metadataId : string) (w : World) :
  (exists e, db_fault env CountHistory = Some e
             /\ checkPackageHistoryExists env metadataId w = (Throws e, w))
  \/ checkPackageHistoryExists env metadataId w
     = (Returns (existsb (fun h => String.eqb (history_metadataId h) metadataId)
                   (historyTable w)), w).
Proof.
  unfold checkPackageHistoryExists, db, bind, read, ret, throw.
  destruct (db_fault env CountHistory) as [e|].
  - left. exists e. split; reflexivity.
  - right. now rewrite filter_nonempty_existsb.
Qed.

Lemma uploadMetadataToDatabase_cases (md : ApiPackageMetadata) (w : World) :
  uploadMetadataToDatabase env md w = insert_metadata (metadata_row md) w
  \/ exists w',
       uploadMetadataToDatabase env md w
         = (Throws (Error "Failed to upload metadata to the database."), w')
       /\ same_storage w w'.
Proof.
  unfold uploadMetadataToDatabase, try_catch, db, bind, throw, ret.
  destruct (db_fault env CreateMetadata) as [e|].
  - right. eexists. split; [reflexivity | repeat split].
  - left. reflexivity.
Qed.

Lemma createPackageHistoryEntry_cases (metadataId : string) (userId : Z)
  (action : Action) (w : World) :
  (existsb (fun r => String.eqb (row_id r) metadataId) (metadataTable w) = true
   /\ existsb (Z.eqb userId) (userTable w) = true
   /\ db_fault env FindMetadata = None /\ db_fault env FindUser = None
   /\ db_fault env CreateHistory = None
   /\ createPackageHistoryEntry env metadataId userId action w
      = insert_history {| history_metadataId := metadataId;
                          history_userId := userId;
                          history_action := action;
                          history_date := now env |} w)
  \/ ((existsb (fun r => String.eqb (row_id r) metadataId) (metadataTable w)
         = false
       \/ existsb (Z.eqb userId) (userTable w) = false
       \/ db_fault env FindMetadata <> None \/ db_fault env FindUser <> None
       \/ db_fault env CreateHistory <> None)
      /\ exists w',
           createPackageHistoryEntry env metadataId userId action w
             = (Throws (Error "Failed to create package history entry in the database."), w')
           /\ same_storage w w').
Proof.
  unfold createPackageHistoryEntry, try_catch, db, bind, read, ret, throw.
  destruct (db_fault env FindMetadata) as [e1|]; cbn.
  { right. split; [intuition congruence|].
    eexists. split; [reflexivity | repeat split]. }
  destruct (existsb _ (metadataTable w)) eqn:Hrow; cbn.
  2:{ right. split; [now left|].
      eexists. split; [reflexivity | repeat split]. }
  destruct (db_fault env FindUser) as [e2|]; cbn.
  { right. split; [intuition congruence|].
    eexists. split; [reflexivity | repeat split]. }
  destruct (existsb _ (userTable w)) eqn:Huser; cbn.
  2:{ right. split; [now right; left|].
      eexists. split; [reflexivity | repeat split]. }
  destruct (db_fault env CreateHistory) as [e3|]; cbn.
  { right. split; [intuition congruence|].
    eexists. split; [reflexivity | repeat split]. }
  left. repeat split.
Qed.

Lemma calculateAndStoreGithubMetrics_cases (metadataId o r : string)
  (w : World) :
  exists res w',
    calculateAndStoreGithubMetrics env metadataId o r w = (res, w')
    /\ metadataTable w' = metadataTable w /\ historyTable w' = historyTable w
    /\ userTable w' = userTable w /\ bucket w' = bucket w
    /\ ((res = Returns tt /\ ratingTable w' = ratingTable w
         /\ ((exists e, calculate env o r = Throws e)
             \/ (exists s, calculate env o r = Returns s)
                /\ db_fault env CreateRating <> None))
        \/ (res = Returns tt
            /\ db_fault env CreateRating = None
            /\ exists s, calculate env o r = Returns s
                 /\ ratingTable w'
                    = ratingTable w ++ [{| rating_metadataId := metadataId;
                                           rating := rating_of s |}])
        \/ (exists n, calculate env o r = Exits n /\ res = Exits n
                      /\ ratingTable w' = ratingTable w)).
Proof.
  unfold calculateAndStoreGithubMetrics, try_catch, bind, lift.
  destruct (calculate env o r) as [s|e|n] eqn:Hcalc.
  - unfold storeMetricsInDatabase, try_catch, bind, db, throw, ret.
    destruct (db_fault env CreateRating) as [e|] eqn:Hdb; cbn.
    + do 2 eexists. split; [reflexivity|]. repeat split.
      left. repeat split. right. split; [eauto | congruence].
    + do 2 eexists. split; [reflexivity|]. repeat split.
      right. left. repeat split. exists s. split; reflexivity.
  - do 2 eexists. split; [reflexivity|]. repeat split.
    left. repeat split. left. eauto.
  - do 2 eexists. split; [reflexivity|]. repeat split.
    right. right. exists n. repeat split.
Qed.

Lemma uploadToS3_cases (fileName fileBuffer : string) (w : World) :
  (exists e, uploadToS3 env fileName fileBuffer w = (Throws e, w))
  \/ ((exists bucketName,
         AWS_S3_BUCKET_NAME env = Some bucketName /\ bucketName <> ""
         /\ s3_upload env bucketName fileName fileBuffer = None)
      /\ uploadToS3 env fileName fileBuffer w = put_object fileName fileBuffer w).
Proof.
  unfold uploadToS3, throw.
  destruct (AWS_S3_BUCKET_NAME env) as [[|c b]|]; try (left; eauto; fail).
  destruct (s3_upload env (String c b) fileName fileBuffer) as [e|] eqn:Hup.
  - left. eauto.
  - right. split; [|reflexivity]. exists (String c b). repeat split; congruence.
Qed.

End UploadSteps.

(** ** Ingestion: every way an upload can go *)

Lemma bind_exits {A B} (m : M A) (k : A -> M B) (w w' : World) n :
  m w = (Exits n, w') -> bind m k w = (Exits n, w').
Proof. intros H. unfold bind. now rewrite H. Qed.

Ltac storage :=
  unfold same_storage in *; simpl in *; intuition congruence.

Ltac nothing_stored :=
  eexists _, _; split; [reflexivity|]; split; [storage|];
  left; split; [storage|];
  first [ left; eexists; reflexivity
        | right; eexists; split; [reflexivity|];
          first [ left; reflexivity | right; left; reflexivity ] ].

Lemma uploadPackage_cases (env : Env) (req : Request) (w : World) :
  exists res w',
    uploadPackage env req w = (res, w')
    /\ userTable w' = userTable w
    /\ ((same_storage w w'
         /\ ((exists n, res = Exits n)
             \/ exists r,
                  res = Returns r
                  /\ (status r = 400 \/ status r = 500
                      \/ (status r = 409
                          /\ existsb (fun h => String.eqb (history_metadataId h)
                                                 (uuidv4 env))
                               (historyTable w) = true))))
        \/ exists f md,
             file req = Some f /\ ID md = uuidv4 env
             /\ existsb (fun h => String.eqb (history_metadataId h) (uuidv4 env))
                  (historyTable w) = false
             /\ metadataTable w' = metadataTable w ++ [metadata_row md]
             /\ ((historyTable w' = historyTable w
                  /\ ratingTable w' = ratingTable w /\ bucket w' = bucket w
                  /\ res = Returns (respond 500 (Send "Internal Server Error")))
                 \/ (existsb (Z.eqb 1) (userTable w) = true
                     /\ historyTable w' = historyTable w ++ [creation_entry env md]
                     /\ (ratingTable w' = ratingTable w
                         \/ exists s,
                              ratingTable w'
                              = ratingTable w
                                ++ [{| rating_metadataId := ID md;
                                       rating := rating_of s |}])
                     /\ ((bucket w' = bucket w
                          /\ (res = Returns (respond 500
                                               (Send "Internal Server Error"))
                              \/ exists n, res = Exits n))
                         \/ (bucket w' = bucket w ++ [(originalname f, buffer f)]
                             /\ res = Returns (respond 200 (JsonPackage
                                  {| metadata := md;
                                     data := {| Content := toBase64 env (buffer f);
                                                JSProgram := jsProgram |} |}))))))).
Proof.
  unfold uploadPackage, try_catch.
  destruct (file req) as [f|] eqn:Hfile; [|nothing_stored].
  pose proof (keeps_extractMetadataFromZip env (buffer f) w) as Ka.
  destruct (extractMetadataFromZip env (buffer f) w) as [[md|e|n] wa] eqn:Hmd;
    simpl in Ka;
    [ rewrite (bind_returns _ _ _ _ _ Hmd)
    | rewrite (bind_throws _ _ _ _ _ Hmd); nothing_stored
    | rewrite (bind_exits _ _ _ _ _ Hmd); nothing_stored ].
  pose proof (extractMetadataFromZip_id env _ _ _ _ Hmd) as Hid.
  pose proof (keeps_getGithubUrlFromZip env (buffer f) wa) as Kb.
  destruct (getGithubUrlFromZip env (buffer f) wa) as [[url|e|n] wb] eqn:Hurl;
    simpl in Kb;
    [ rewrite (bind_returns _ _ _ _ _ Hurl)
    | rewrite (bind_throws _ _ _ _ _ Hurl); nothing_stored
    | rewrite (bind_exits _ _ _ _ _ Hurl); nothing_stored ].
  pose proof (same_storage_trans _ _ _ Ka Kb) as (Em & Eh & Er & Eu & Eb).
  destruct (parseGitHubUrl url) as [info|]; [|nothing_stored].
  destruct (checkPackageHistoryExists_cases env (ID md) wb)
    as [(e & _ & Hc) | Hc];
    [ rewrite (bind_throws _ _ _ _ _ Hc); nothing_stored |].
  assert (existsb (fun h => String.eqb (history_metadataId h) (ID md))
            (historyTable wb)
          = existsb (fun h => String.eqb (history_metadataId h) (uuidv4 env))
              (historyTable w)) as Hex by (now rewrite Hid, Eh).
  rewrite Hex in Hc. rewrite (bind_returns _ _ _ _ _ Hc).
  destruct (existsb _ (historyTable w)) eqn:Hseen.
  { eexists _, _. split; [reflexivity|]. split; [storage|].
    left. split; [storage|]. right. eexists. split; [reflexivity|].
    right. right. split; reflexivity. }
  destruct (uploadMetadataToDatabase_cases env md wb)
    as [Hup | (wc & Hup & Kc)];
    [ rewrite (bind_returns _ _ _ _ tt Hup)
    | rewrite (bind_throws _ _ _ _ _ Hup); nothing_stored ].
  set (wc := snd (insert_metadata (metadata_row md) wb)).
  destruct (createPackageHistoryEntry_cases env (ID md) 1 CREATE wc)
    as [(_ & Huser & _ & _ & _ & Hh) | (_ & wd & Hh & Kd)].
  2:{ rewrite (bind_throws _ _ _ _ _ Hh).
      eexists _, _. split; [reflexivity|]. split; [storage|].
      right. exists f, md. repeat split; try assumption.
      - storage.
      - left. repeat split; storage. }
  rewrite (bind_returns _ _ _ _ tt Hh).
  set (wd := snd (insert_history (creation_entry env md) wc)).
  destruct (calculateAndStoreGithubMetrics_cases env (ID md) (owner info)
              (repo info) wd)
    as (res & we & Hcalc & Cm & Ch & Cu & Cb & Hrating).
  assert (ratingTable we = ratingTable w
          \/ exists s,
               ratingTable we
               = ratingTable w ++ [{| rating_metadataId := ID md;
                                      rating := rating_of s |}]) as Hrows.
  { destruct Hrating as [(_ & R & _) | [(_ & _ & s & _ & R) | (n & _ & _ & R)]];
      [left | right; exists s | left]; rewrite R; simpl; now rewrite Er. }
  assert (metadataTable we = metadataTable w ++ [metadata_row md]) as Mw
    by (rewrite Cm; simpl; now rewrite Em).
  assert (historyTable we = historyTable w ++ [creation_entry env md]) as Hw
    by (rewrite Ch; simpl; now rewrite Eh).
  assert (userTable we = userTable w) as Uw by (rewrite Cu; simpl; exact Eu).
  assert (bucket we = bucket w) as Bw by (rewrite Cb; simpl; exact Eb).
  assert (existsb (Z.eqb 1) (userTable w) = true) as Huser'
    by (simpl in Huser; now rewrite Eu in Huser).
  assert (res = Returns tt \/ exists n, res = Exits n) as Hres.
  { destruct Hrating as [(-> & _) | [(-> & _) | (n & _ & -> & _)]]; eauto. }
  destruct Hres as [-> | (n & ->)].
  2:{ rewrite (bind_exits _ _ _ _ _ Hcalc).
      eexists _, _. split; [reflexivity|]. split; [exact Uw|].
      right. exists f, md. repeat split; try assumption.
      right. repeat split; try assumption. left. split; eauto. }
  rewrite (bind_returns _ _ _ _ _ Hcalc).
  destruct (uploadToS3_cases env (originalname f) (buffer f) we)
    as [(e & Hs3) | (_ & Hs3)].
  - rewrite (bind_throws _ _ _ _ _ Hs3).
    eexists _, _. split; [reflexivity|]. split; [exact Uw|].
    right. exists f, md. repeat split; try assumption.
    right. repeat split; try assumption. left. split; eauto.
  - rewrite (bind_returns _ _ _ _ tt Hs3).
    eexists _, _. split; [reflexivity|]. split; [exact Uw|].
    right. exists f, md. repeat split; try assumption.
    right. repeat split; try assumption.
    right. split; [simpl; now rewrite Bw | reflexivity].
Qed.

(** X10.  Whatever the archive, the environment and the state of the
    registry, an answer of [uploadPackage] tells what was stored: the status
    is 200, 400, 409 or 500; with 400 or 409 no table and no object of the
    bucket has changed; with 200 the metadata row, the history row of the
    creation and the archive in the bucket have each been added once, and
    the body is the package with the identifier just drawn. *)
Theorem uploadPackage_answer_tells_what_was_stored
  (env : Env) (req : Request) (w w' : World) (r : Response) :
  uploadPackage env req w = (Returns r, w') ->
  (status r = 200 \/ status r = 400 \/ status r = 409 \/ status r = 500)
  /\ (status r = 400 \/ status r = 409 -> same_storage w w')
  /\ (status r = 200 ->
      exists f md,
        file req = Some f /\ ID md = uuidv4 env
        /\ payload r = JsonPackage
             {| metadata := md;
                data := {| Content := toBase64 env (buffer f);
                           JSProgram := jsProgram |} |}
        /\ metadataTable w' = metadataTable w ++ [metadata_row md]
        /\ historyTable w' = historyTable w ++ [creation_entry env md]
        /\ bucket w' = bucket w ++ [(originalname f, buffer f)]).
Proof.
  intros Hrun.
  destruct (uploadPackage_cases env req w)
    as (res & w1 & Hrun' & _ & Hcases).
  rewrite Hrun in Hrun'. injection Hrun' as <- <-.
  destruct Hcases
    as [(Hsame & [(n & Hn) | (r' & [= <-] & Hst)])
       | (f & md & Hfile & Hid & _ & Hm
          & [(_ & _ & _ & [= ->])
            | (_ & Hh & _ & [(_ & [[= ->] | (n & Hn)]) | (Hb & [= ->])])])];
    try discriminate.
  - destruct Hst as [H | [H | (H & _)]]; rewrite H;
      (split; [tauto|]); (split; [intros _; exact Hsame | discriminate]).
  - simpl. split; [tauto|]. split; [intros [|]; discriminate | discriminate].
  - simpl. split; [tauto|]. split; [intros [|]; discriminate | discriminate].
  - simpl. split; [tauto|]. split; [intros [|]; discriminate|].
    intros _. exists f, md. repeat split; assumption.
Qed.

Lemma uploadPackage_answer_tells_what_was_stored_witness :
  exists md,
    ID md = "0b6f6a52-6b0c-4c8e-9a57-8d1c0f4e2a11"
    /\ metadataTable (snd (uploadPackage scored_env widget_upload stocked_world))
       = metadataTable stocked_world ++ [metadata_row md]
    /\ historyTable (snd (uploadPackage scored_env widget_upload stocked_world))
       = historyTable stocked_world ++ [creation_entry scored_env md]
    /\ bucket (snd (uploadPackage scored_env widget_upload stocked_world))
       = [("widget.zip", "PK-widget")].
Proof.
  destruct (uploadPackage_answer_tells_what_was_stored scored_env widget_upload
              stocked_world
              (snd (uploadPackage scored_env widget_upload stocked_world))
              (respond 200 (JsonPackage
                 {| metadata := widget_metadata;
                    data := {| Content := "UEstd2lkZ2V0";
                               JSProgram := jsProgram |} |}))
              eq_refl)
    as (_ & _ & Hstored).
  destruct (Hstored eq_refl) as (f & md & Hfile & Hid & _ & Hm & Hh & Hb).
  injection Hfile as <-.
  exists md. repeat split; assumption.
Defined.

(** X11.  No error leaves [uploadPackage]: whatever is thrown on the way is
    answered with 500. *)
Theorem uploadPackage_never_throws (env : Env) (req : Request) (w : World)
  (e : JSError) :
  fst (uploadPackage env req w) <> Throws e.
Proof.
  destruct (uploadPackage_cases env req w)
    as (res & w1 & Hrun & _ & Hcases).
  rewrite Hrun. simpl.
  destruct Hcases
    as [(_ & [(n & ->) | (r' & -> & _)])
       | (f & md & _ & _ & _ & _
          & [(_ & _ & _ & ->)
            | (_ & _ & _ & [(_ & [-> | (n & ->)]) | (_ & ->)])])];
    discriminate.
Qed.

(** X12.  [uploadPackage] only appends, and at most one row to each table:
    the users are left alone, a history row comes only with its metadata
    row, and a rating row or an object of the bucket only with the history
    row. *)
Theorem uploadPackage_only_appends (env : Env) (req : Request) (w : World) :
  let w' := snd (uploadPackage env req w) in
  userTable w' = userTable w
  /\ exists ms hs rs bs,
       metadataTable w' = metadataTable w ++ ms
       /\ historyTable w' = historyTable w ++ hs
       /\ ratingTable w' = ratingTable w ++ rs
       /\ bucket w' = bucket w ++ bs
       /\ (length ms <= 1)%nat /\ (length hs <= length ms)%nat
       /\ (length rs <= length hs)%nat /\ (length bs <= length hs)%nat.
Proof.
  destruct (uploadPackage_cases env req w)
    as (res & w1 & Hrun & Hu & Hcases).
  rewrite Hrun. simpl. split; [exact Hu|].
  destruct Hcases
    as [((Hm & Hh & Hr & _ & Hb) & _)
       | (f & md & _ & _ & _ & Hm
          & [(Hh & Hr & Hb & _)
            | (_ & Hh & Hr & Hb)])].
  - exists [], [], [], []. rewrite Hm, Hh, Hr, Hb, !app_nil_r.
    repeat split; simpl; lia.
  - exists [metadata_row md], [], [], []. rewrite Hm, Hh, Hr, Hb, !app_nil_r.
    repeat split; simpl; lia.
  - assert (exists rs, ratingTable w1 = ratingTable w ++ rs
                       /\ (length rs <= 1)%nat) as (rs & -> & Hrs).
    { destruct Hr as [-> | (s & ->)];
        [exists []; rewrite app_nil_r | eexists]; split;
        try reflexivity; simpl; lia. }
    assert (exists bs, bucket w1 = bucket w ++ bs
                       /\ (length bs <= 1)%nat) as (bs & -> & Hbs).
    { destruct Hb as [(-> & _) | (-> & _)];
        [exists []; rewrite app_nil_r | eexists]; split;
        try reflexivity; simpl; lia. }
    exists [metadata_row md], [creation_entry env md], rs, bs.
    rewrite Hm, Hh. repeat split; simpl; lia.
Qed.

(** X13.  [uploadPackage] answers 409 only when the history already holds a
    row for the identifier just drawn for this upload: the name and the
    version of the package play no part in it. *)
Theorem uploadPackage_conflict_needs_known_identifier
  (env : Env) (req : Request) (w w' : World) (r : Response) :
  uploadPackage env req w = (Returns r, w') -> status r = 409 ->
  existsb (fun h => String.eqb (history_metadataId h) (uuidv4 env))
    (historyTable w) = true.
Proof.
  intros Hrun H409.
  destruct (uploadPackage_cases env req w)
    as (res & w1 & Hrun' & _ & Hcases).
  rewrite Hrun in Hrun'. injection Hrun' as <- <-.
  destruct Hcases
    as [(_ & [(n & Hn) | (r' & [= <-] & Hst)])
       | (f & md & _ & _ & _ & _
          & [(_ & _ & _ & [= ->])
            | (_ & _ & _ & [(_ & [[= ->] | (n & Hn)]) | (_ & [= ->])])])];
    try discriminate.
  destruct Hst as [H | [H | (_ & H)]]; [congruence | congruence | exact H].
Qed.

Lemma uploadPackage_conflict_needs_known_identifier_witness :
  existsb (fun h => String.eqb (history_metadataId h) (uuidv4 scored_env))
    (historyTable taken_world) = true.
Proof.
  apply (uploadPackage_conflict_needs_known_identifier scored_env widget_upload
           taken_world
           (snd (uploadPackage scored_env widget_upload taken_world))
           (respond 409 (Send "Package Exists Already")));
    reflexivity.
Defined.

(** ** Ingestion: the upload from the duplicate check onwards *)

Section UploadForward.

Variable env : Env.

Lemma uploadPackage_after_the_check (req : Request) (f : UploadedFile)
  (w wa wb : World) (md : ApiPackageMetadata) (url : string)
  (info : GithubInfo) :
  file req = Some f ->
  extractMetadataFromZip env (buffer f) w = (Returns md, wa) ->
  getGithubUrlFromZip env (buffer f) wa = (Returns url, wb) ->
  parseGitHubUrl url = Some info ->
  db_fault env CountHistory = None ->
  existsb (fun h => String.eqb (history_metadataId h) (ID md))
    (historyTable w) = false ->
  db_fault env CreateMetadata = None ->
  same_storage w wb
  /\ uploadPackage env req w
     = try_catch
         (run createPackageHistoryEntry env (ID md) 1 CREATE;
          run calculateAndStoreGithubMetrics env (ID md) (owner info)
                (repo info);
          run uploadToS3 env (originalname f) (buffer f);
          ret (respond 200 (JsonPackage
                 {| metadata := md;
                    data := {| Content := toBase64 env (buffer f);
                               JSProgram := jsProgram |} |})))
         (fun error =>
            run log "API Package Calls" "Error in POST /package: " (Some error);
            ret (respond 500 (Send "Internal Server Error")))
         (snd (insert_metadata (metadata_row md) wb)).
Proof.
  intros Hfile Hmd Hurl Hinfo Hcount Hfresh Hcreate.
  pose proof (keeps_extractMetadataFromZip env (buffer f) w) as Ka.
  pose proof (keeps_getGithubUrlFromZip env (buffer f) wa) as Kb.
  rewrite Hmd in Ka. rewrite Hurl in Kb. simpl in Ka, Kb.
  pose proof (same_storage_trans _ _ _ Ka Kb) as Kab.
  split; [exact Kab|].
  destruct Kab as (_ & Eh & _).
  unfold uploadPackage, try_catch. rewrite Hfile.
  rewrite (bind_returns _ _ _ _ _ Hmd), (bind_returns _ _ _ _ _ Hurl), Hinfo.
  destruct (checkPackageHistoryExists_cases env (ID md) wb)
    as [(e & He & _) | Hc]; [congruence|].
  rewrite Eh, Hfresh in Hc.
  rewrite (bind_returns _ _ _ _ _ Hc). cbv iota.
  rewrite (bind_returns _ _ _ (snd (insert_metadata (metadata_row md) wb)) tt)
    by (rewrite uploadMetadataToDatabase_ok by assumption; reflexivity).
  reflexivity.
Qed.

(** X14.  When every step of an upload succeeds, [uploadPackage] answers
    200 with the package and has added the metadata row, the history row of
    the creation by user 1, the rating row with the scores as the calculator
    gave them, and the archive in the bucket under its original name.  The
    only thing asked of the registry is that its history does not hold the
    identifier drawn: a package of the same name and version may be there
    already. *)
Theorem uploadPackage_stores_package_and_rating
  (req : Request) (f : UploadedFile) (w wa wb : World)
  (md : ApiPackageMetadata) (url : string) (info : GithubInfo)
  (s : NetScoreResult) (bucketName : string) :
  file req = Some f ->
  extractMetadataFromZip env (buffer f) w = (Returns md, wa) ->
  getGithubUrlFromZip env (buffer f) wa = (Returns url, wb) ->
  parseGitHubUrl url = Some info ->
  (forall c, db_fault env c = None) ->
  existsb (fun h => String.eqb (history_metadataId h) (ID md))
    (historyTable w) = false ->
  existsb (Z.eqb 1) (userTable w) = true ->
  calculate env (owner info) (repo info) = Returns s ->
  AWS_S3_BUCKET_NAME env = Some bucketName -> bucketName <> "" ->
  s3_upload env bucketName (originalname f) (buffer f) = None ->
  exists w',
    uploadPackage env req w
      = (Returns (respond 200 (JsonPackage
           {| metadata := md;
              data := {| Content := toBase64 env (buffer f);
                         JSProgram := jsProgram |} |})), w')
    /\ metadataTable w' = metadataTable w ++ [metadata_row md]
    /\ historyTable w' = historyTable w ++ [creation_entry env md]
    /\ ratingTable w'
       = ratingTable w ++ [{| rating_metadataId := ID md;
                              rating := rating_of s |}]
    /\ bucket w' = bucket w ++ [(originalname f, buffer f)]
    /\ userTable w' = userTable w.
Proof.
  intros Hfile Hmd Hurl Hinfo Hdb Hfresh Huser Hcalc Hb Hne Hs3.
  destruct (uploadPackage_after_the_check req f w wa wb md url info
              Hfile Hmd Hurl Hinfo (Hdb _) Hfresh (Hdb _))
    as ((Em & Eh & Er & Eu & Eb) & ->).
  unfold try_catch.
  set (wc := snd (insert_metadata (metadata_row md) wb)).
  rewrite (bind_returns _ _ _
             (snd (insert_history (creation_entry env md) wc)) tt).
  2:{ rewrite createPackageHistoryEntry_ok; try apply Hdb; try reflexivity.
      - simpl. rewrite existsb_app. simpl.
        rewrite String.eqb_refl. now rewrite orb_true_r.
      - simpl. now rewrite Eu. }
  set (wd := snd (insert_history (creation_entry env md) wc)).
  rewrite (bind_returns _ _ _
             (snd (log "console.log"
                     "Metrics for the GitHub repository stored successfully."
                     None
                     (snd (log "Prisma Calls"
                             "Package rating metrics stored in the database successfully."
                             None
                             (snd (insert_rating
                                     {| rating_metadataId := ID md;
                                        rating := rating_of s |} wd))))))
             tt).
  2:{ unfold calculateAndStoreGithubMetrics, try_catch, bind, lift.
      rewrite Hcalc.
      unfold storeMetricsInDatabase, try_catch, bind, db.
      rewrite (Hdb CreateRating). reflexivity. }
  rewrite (bind_returns _ _ _ _ tt
             (uploadToS3_ok env _ _ bucketName _ Hb Hne Hs3)).
  eexists. split; [reflexivity|]. simpl.
  rewrite Em, Eh, Er, Eu, Eb. repeat split.
Qed.

(** X15.  [uploadPackage] records every creation for the user 1.  In a
    registry without that user no upload is answered with 200, and none
    adds a history row, a rating row or an object to the bucket; and when
    the archive is in order, the metadata row is written all the same and
    stays, with the answer 500. *)
Theorem uploadPackage_without_user_one (req : Request) (w : World) :
  existsb (Z.eqb 1) (userTable w) = false ->
  (forall r, fst (uploadPackage env req w) = Returns r -> status r <> 200)
  /\ historyTable (snd (uploadPackage env req w)) = historyTable w
  /\ ratingTable (snd (uploadPackage env req w)) = ratingTable w
  /\ bucket (snd (uploadPackage env req w)) = bucket w
  /\ (forall f md wa url wb info,
        file req = Some f ->
        extractMetadataFromZip env (buffer f) w = (Returns md, wa) ->
        getGithubUrlFromZip env (buffer f) wa = (Returns url, wb) ->
        parseGitHubUrl url = Some info ->
        db_fault env CountHistory = None ->
        existsb (fun h => String.eqb (history_metadataId h) (ID md))
          (historyTable w) = false ->
        db_fault env CreateMetadata = None ->
        fst (uploadPackage env req w)
          = Returns (respond 500 (Send "Internal Server Error"))
        /\ metadataTable (snd (uploadPackage env req w))
           = metadataTable w ++ [metadata_row md]).
Proof.
  intros Hnouser.
  destruct (uploadPackage_cases env req w)
    as (res & w1 & Hrun & _ & Hcases).
  assert ((forall r, res = Returns r -> status r <> 200)
          /\ historyTable w1 = historyTable w
          /\ ratingTable w1 = ratingTable w /\ bucket w1 = bucket w)
    as (H200 & Hh & Hr & Hb).
  { destruct Hcases
      as [((_ & Hh & Hr & _ & Hb) & Hres)
         | (f & md & _ & _ & _ & _
            & [(Hh & Hr & Hb & ->) | (Huser & _)])];
      [| |congruence].
    - repeat split; try assumption.
      intros r ->. destruct Hres as [(n & [=]) | (r' & [= <-] & Hst)].
      destruct Hst as [H | [H | (H & _)]]; rewrite H; discriminate.
    - repeat split; try assumption. intros r [= <-]. discriminate. }
  rewrite Hrun. simpl.
  split; [exact H200|]. split; [exact Hh|]. split; [exact Hr|].
  split; [exact Hb|].
  intros f md wa url wb info Hfile Hmd Hurl Hinfo Hcount Hfresh Hcreate.
  destruct (uploadPackage_after_the_check req f w wa wb md url info
              Hfile Hmd Hurl Hinfo Hcount Hfresh Hcreate)
    as ((Em & _ & _ & Eu & _) & Hrest).
  rewrite Hrest in Hrun. unfold try_catch in Hrun.
  destruct (createPackageHistoryEntry_cases env (ID md) 1 CREATE
              (snd (insert_metadata (metadata_row md) wb)))
    as [(_ & Huser & _) | (_ & wd & Hh' & (Km & _))].
  - simpl in Huser. rewrite Eu in Huser. congruence.
  - rewrite (bind_throws _ _ _ _ _ Hh') in Hrun.
    injection Hrun as <- <-. split; [reflexivity|].
    simpl. rewrite Km. simpl. now rewrite Em.
Qed.

End UploadForward.

Lemma uploadPackage_stores_package_and_rating_witness :
  exists w',
    uploadPackage scored_env widget_upload stocked_world
      = (Returns (respond 200 (JsonPackage
           {| metadata := widget_metadata;
              data := {| Content := "UEstd2lkZ2V0";
                         JSProgram := jsProgram |} |})), w')
    /\ map row_name (metadataTable w') = [JString "widget"; JString "widget"]
    /\ map row_version (metadataTable w') = [JString "1.2.3"; JString "1.2.3"]
    /\ ratingTable w'
       = [{| rating_metadataId := "0b6f6a52-6b0c-4c8e-9a57-8d1c0f4e2a11";
             rating := rating_of widget_scores |}]
    /\ bucket w' = [("widget.zip", "PK-widget")].
Proof.
  destruct (uploadPackage_stores_package_and_rating scored_env widget_upload
              {| originalname := "widget.zip"; buffer := "PK-widget" |}
              stocked_world
              (snd (extractMetadataFromZip scored_env "PK-widget" stocked_world))
              (snd (getGithubUrlFromZip scored_env "PK-widget"
                      (snd (extractMetadataFromZip scored_env "PK-widget"
                              stocked_world))))
              widget_metadata "https://github.com/acme/widget"
              {| owner := "acme"; repo := "widget" |}
              widget_scores "registry"
              eq_refl eq_refl eq_refl eq_refl (fun _ => eq_refl) eq_refl
              eq_refl eq_refl eq_refl ltac:(discriminate) eq_refl)
    as (w' & Hrun & Hm & _ & Hr & Hb & _).
  exists w'. split; [exact Hrun|].
  rewrite Hm, Hr, Hb. repeat split.
Defined.

Lemma uploadPackage_without_user_one_witness :
  fst (uploadPackage scored_env widget_upload world_without_users)
    = Returns (respond 500 (Send "Internal Server Error"))
  /\ metadataTable (snd (uploadPackage scored_env widget_upload
                           world_without_users))
     = [metadata_row widget_metadata]
  /\ historyTable (snd (uploadPackage scored_env widget_upload
                          world_without_users)) = [].
Proof.
  destruct (uploadPackage_without_user_one scored_env widget_upload
              world_without_users eq_refl)
    as (_ & Hh & _ & _ & Hrow).
  destruct (Hrow {| originalname := "widget.zip"; buffer := "PK-widget" |}
              widget_metadata
              (snd (extractMetadataFromZip scored_env "PK-widget"
                      world_without_users))
              "https://github.com/acme/widget"
              (snd (getGithubUrlFromZip scored_env "PK-widget"
                      (snd (extractMetadataFromZip scored_env "PK-widget"
                              world_without_users))))
              {| owner := "acme"; repo := "widget" |}
              eq_refl eq_refl eq_refl eq_refl eq_refl eq_refl eq_refl)
    as (Hres & Hm).
  repeat split; assumption.
Defined.

(** ** Ingestion: the history keeps its references *)

Lemma has_parents_grows (w w' : World) (ms : list MetadataRow)
  (h : HistoryRow) :
  metadataTable w' = metadataTable w ++ ms -> userTable w' = userTable w ->
  has_parents w h = true -> has_parents w' h = true.
Proof.
  unfold has_parents. intros -> ->. rewrite existsb_app.
  intros [H1 H2]%andb_true_iff. now rewrite H1, H2.
Qed.

Lemma forallb_has_parents_grows (w w' : World) (ms : list MetadataRow)
  (hs : list HistoryRow) :
  metadataTable w' = metadataTable w ++ ms -> userTable w' = userTable w ->
  List.forallb (has_parents w) hs = true ->
  List.forallb (has_parents w') hs = true.
Proof.
  intros Hm Hu Hall. apply List.forallb_forall. intros h Hin.
  apply (has_parents_grows w w' ms h Hm Hu).
  now apply (proj1 (List.forallb_forall _ _) Hall).
Qed.

(** X16.  [uploadPackage] keeps the references of the history: when every
    history row points to a metadata row and to a user before the call, so
    it does after it, however the call ends. *)
Theorem uploadPackage_keeps_history_parents (env : Env) (req : Request)
  (w : World) :
  history_has_parents w ->
  history_has_parents (snd (uploadPackage env req w)).
Proof.
  unfold history_has_parents. intros Hw.
  destruct (uploadPackage_cases env req w)
    as (res & w1 & Hrun & Hu & Hcases).
  rewrite Hrun. simpl.
  destruct Hcases
    as [((Hm & Hh & _) & _)
       | (f & md & _ & _ & _ & Hm
          & [(Hh & _) | (Huser & Hh & _)])].
  - rewrite Hh.
    apply (forallb_has_parents_grows w w1 []); try assumption.
    now rewrite app_nil_r.
  - rewrite Hh.
    now apply (forallb_has_parents_grows w w1 [metadata_row md]).
  - rewrite Hh, forallb_app. apply andb_true_iff. split.
    + now apply (forallb_has_parents_grows w w1 [metadata_row md]).
    + simpl. rewrite andb_true_r. unfold has_parents.
      rewrite Hm, Hu, existsb_app. simpl.
      rewrite String.eqb_refl, orb_true_r. simpl. exact Huser.
Qed.

Lemma uploadPackage_keeps_history_parents_witness :
  history_has_parents
    (snd (uploadPackage scored_env widget_upload stocked_world)).
Proof.
  apply (uploadPackage_keeps_history_parents scored_env widget_upload
           stocked_world).
  reflexivity.
Defined.

(** ** [prismaCalls.ts]: the history entry and the rating *)

(** X17.  [createPackageHistoryEntry] writes its row exactly when the
    metadata row and the user exist and the client raises nothing, and then
    it adds that one row and nothing else; in every other case it throws
    the same error, whatever went wrong, and no table has changed. *)
Theorem createPackageHistoryEntry_writes_iff_parents_exist (env : Env)
  (metadataId : string) (userId : Z) (action : Action) (w : World) :
  let out := createPackageHistoryEntry env metadataId userId action w in
  (fst out = Returns tt <->
     existsb (fun r => String.eqb (row_id r) metadataId) (metadataTable w) = true
     /\ existsb (Z.eqb userId) (userTable w) = true
     /\ db_fault env FindMetadata = None /\ db_fault env FindUser = None
     /\ db_fault env CreateHistory = None)
  /\ (fst out = Returns tt ->
      historyTable (snd out)
        = historyTable w ++ [{| history_metadataId := metadataId;
                                history_userId := userId;
                                history_action := action;
                                history_date := now env |}]
      /\ metadataTable (snd out) = metadataTable w
      /\ ratingTable (snd out) = ratingTable w
      /\ userTable (snd out) = userTable w /\ bucket (snd out) = bucket w
      /\ logs (snd out) = logs w)
  /\ (fst out <> Returns tt ->
      fst out = Throws (Error "Failed to create package history entry in the database.")
      /\ same_storage w (snd out)).
Proof.
  cbv zeta.
  destruct (createPackageHistoryEntry_cases env metadataId userId action w)
    as [(Hrow & Huser & H1 & H2 & H3 & ->) | (Hwhy & w' & -> & Hsame)];
    simpl.
  - split; [tauto|]. split; [intros _; repeat split | congruence].
  - split; [|split; [discriminate | intros _; split; [reflexivity | exact Hsame]]].
    split; [discriminate|].
    intros (Hrow & Huser & H1 & H2 & H3).
    destruct Hwhy as [H | [H | [H | [H | H]]]]; congruence.
Qed.

(** X18.  [calculateAndStoreGithubMetrics] never throws: a failure of the
    calculator, or of the storage of the rating, is written to the error
    console and the call returns.  It changes the rating table alone, by the
    one row of the scores the calculator gave, and only when both the
    calculator and the storage succeed. *)
Theorem calculateAndStoreGithubMetrics_swallows_failures (env : Env)
  (metadataId o r : string) (w : World) :
  let out := calculateAndStoreGithubMetrics env metadataId o r w in
  (forall e, fst out <> Throws e)
  /\ metadataTable (snd out) = metadataTable w
  /\ historyTable (snd out) = historyTable w
  /\ userTable (snd out) = userTable w /\ bucket (snd out) = bucket w
  /\ (forall e, calculate env o r = Throws e ->
        fst out = Returns tt /\ ratingTable (snd out) = ratingTable w
        /\ last (logs (snd out))
           = Some {| channel := "console.error";
                     line := "Failed to calculate or store metrics: ";
                     cause := Some e |})
  /\ (forall s e, calculate env o r = Returns s ->
        db_fault env CreateRating = Some e ->
        fst out = Returns tt /\ ratingTable (snd out) = ratingTable w
        /\ last (logs (snd out))
           = Some {| channel := "console.error";
                     line := "Failed to calculate or store metrics: ";
                     cause := Some (Error "Failed to store package rating metrics in the database.") |})
  /\ (forall s, calculate env o r = Returns s ->
        db_fault env CreateRating = None ->
        fst out = Returns tt
        /\ ratingTable (snd out)
           = ratingTable w ++ [{| rating_metadataId := metadataId;
                                  rating := rating_of s |}]).
Proof.
  cbv zeta.
  unfold calculateAndStoreGithubMetrics, try_catch, bind, lift.
  destruct (calculate env o r) as [s|e|n].
  - unfold storeMetricsInDatabase, try_catch, bind, db, throw, ret.
    destruct (db_fault env CreateRating) as [e|]; cbn.
    + split; [discriminate|]. do 4 (split; [reflexivity|]).
      split; [discriminate|]. split; [|discriminate].
      intros s' e' _ _. repeat split. apply last_snoc.
    + split; [discriminate|]. do 4 (split; [reflexivity|]).
      split; [discriminate|]. split; [discriminate|].
      intros s' [= <-] _. split; reflexivity.
  - cbn. split; [discriminate|]. do 4 (split; [reflexivity|]).
    split; [|split; discriminate].
    intros e' [= <-]. repeat split. apply last_snoc.
  - cbn. split; [discriminate|]. do 4 (split; [reflexivity|]).
    repeat split; discriminate.
Qed.

(** ** [getGithubUrlFromZip]: the repository written as an object *)

Lemma length_append (a b : string) :
  String.length (a +:+ b) = (String.length a + String.length b)%nat.
Proof. induction a as [|c a IH]; simpl; [reflexivity | now rewrite IH]. Qed.

Lemma strip_git_suffix_of_git (s : string) :
  strip_git_suffix (s +:+ ".git") = s.
Proof.
  induction s as [|c s IH]; [reflexivity|].
  change (strip_git_suffix (String c s +:+ ".git"))
    with (if String.eqb (String c (s +:+ ".git")) ".git" then EmptyString
          else String c (strip_git_suffix (s +:+ ".git"))).
  destruct (String.eqb_spec (String c (s +:+ ".git")) ".git") as [E|_].
  - apply (f_equal String.length) in E. simpl in E.
    rewrite length_append in E. simpl in E. lia.
  - now rewrite IH.
Qed.

(** X19.  When the manifest gives its repository as an object whose
    [url] is [git+https://github.com/owner/name.git], where the name starts
    with a non-empty run [p] of characters other than slash and dot,
    followed by nothing, by a dot or by a slash, [getGithubUrlFromZip]
    returns that address without the final [.git], touching no table, and
    [parseGitHubUrl] reads from it the owner and, as repository, [p] alone:
    the name up to its first dot. *)
Theorem getGithubUrlFromZip_of_repository_object (env : Env)
  (zipBuffer text o p rest : string) (json : JSValue)
  (fields : gmap string JSValue) (w : World) :
  zipBuffer <> "" ->
  extractFileFromZip env zipBuffer "package.json" w = (Returns text, w) ->
  text <> "" ->
  JSON_parse env text = Returns json ->
  get json "repository" = Returns (JObject fields) ->
  fields !! "url"
    = Some (JString ("git+https://github.com/" +:+ o +:+ "/" +:+ p +:+ rest
                     +:+ ".git")) ->
  o <> "" -> Js.forallb not_slash o = true ->
  p <> "" -> Js.forallb not_slash_dot p = true ->
  stops not_slash_dot rest ->
  exists w',
    getGithubUrlFromZip env zipBuffer w
      = (Returns ("git+https://github.com/" +:+ o +:+ "/" +:+ p +:+ rest), w')
    /\ same_storage w w'
    /\ parseGitHubUrl ("git+https://github.com/" +:+ o +:+ "/" +:+ p +:+ rest)
       = Some {| owner := o; repo := p |}.
Proof.
  intros Hbuf Hfile Htext Hparse Hrepo Hurl Ho Hos Hp Hps Hrest.
  pose proof (keeps_getGithubUrlFromZip env zipBuffer w) as Hkeep.
  assert (fst (getGithubUrlFromZip env zipBuffer w)
          = Returns ("git+https://github.com/" +:+ o +:+ "/" +:+ p +:+ rest))
    as Hres.
  { unfold getGithubUrlFromZip, try_catch.
    apply String.eqb_neq in Hbuf, Htext. rewrite Hbuf.
    rewrite (bind_returns _ _ _ _ _ Hfile). rewrite Htext.
    unfold bind at 1. cbn [log].
    unfold bind at 1. unfold try_catch, lift. rewrite Hparse.
    unfold bind at 1. rewrite Hrepo.
    cbn [get_optional]. rewrite Hurl. cbn [default from_option id].
    change ("git+https://github.com/" +:+ o +:+ "/" +:+ p +:+ rest +:+ ".git")
      with (String "g" ("it+https://github.com/" +:+ o +:+ "/" +:+ p +:+ rest
                        +:+ ".git")).
    cbn [truthy String.eqb negb]. cbv iota.
    change (Js.startsWith "github:"
              (String "g" ("it+https://github.com/" +:+ o +:+ "/" +:+ p
                           +:+ rest +:+ ".git")))
      with false.
    cbv iota.
    change (String "g" ("it+https://github.com/" +:+ o +:+ "/" +:+ p +:+ rest
                        +:+ ".git"))
      with ("git+https://github.com/" +:+ o +:+ "/" +:+ p +:+ rest +:+ ".git").
    replace ("git+https://github.com/" +:+ o +:+ "/" +:+ p +:+ rest +:+ ".git")
      with (("git+https://github.com/" +:+ o +:+ "/" +:+ p +:+ rest)
            +:+ ".git")
      by (simpl; rewrite append_assoc; simpl; now rewrite append_assoc).
    rewrite strip_git_suffix_of_git. reflexivity. }
  destruct (getGithubUrlFromZip env zipBuffer w) as [res w'] eqn:Hrun.
  simpl in Hres, Hkeep. subst res. exists w'.
  split; [reflexivity|]. split; [exact Hkeep|].
  apply parseGitHubUrl_of_match; try assumption.
  pose proof (match_github_https_address o p rest Ho Hos Hp Hps Hrest) as Hm.
  simpl String.append in *.
  do 4 (rewrite match_github_skip by reflexivity).
  exact Hm.
Qed.

Lemma getGithubUrlFromZip_of_repository_object_witness :
  exists w',
    getGithubUrlFromZip
      (manifest_env socket_manifest_with_url socket_json_with_url)
      "PK-widget" empty_world
      = (Returns "git+https://github.com/socketio/socket.io", w')
    /\ same_storage empty_world w'
    /\ parseGitHubUrl "git+https://github.com/socketio/socket.io"
       = Some {| owner := "socketio"; repo := "socket" |}.
Proof.
  apply (getGithubUrlFromZip_of_repository_object
           (manifest_env socket_manifest_with_url socket_json_with_url)
           "PK-widget" socket_manifest_with_url "socketio" "socket" ".io"
           socket_json_with_url socket_repository empty_world);
    solve [discriminate | reflexivity].
Defined.

(** ** [getPackages]: what the handler answers *)

Section GetPackagesAnswers.

Variable lib : SemverLib.
Variable findMany : FindManyArgs -> Promise (list MetadataRow).

(** X20.  [getPackages] answers 400 exactly when [Name] or [Version] is
    missing from the body, and then it asks the database nothing. *)
Theorem getPackages_bad_request_iff (req : Request) :
  ((exists r, fst (getPackages lib findMany req) = Responds r /\ status r = 400)
   <-> is_undefined (get_optional (body req) "Name")
       || is_undefined (get_optional (body req) "Version") = true)
  /\ (is_undefined (get_optional (body req) "Name")
      || is_undefined (get_optional (body req) "Version") = true ->
      snd (getPackages lib findMany req) = []).
Proof.
  unfold getPackages.
  destruct (is_undefined (get_optional (body req) "Name"));
    [split; [split; [reflexivity | intros _; eexists; split; reflexivity]
            | reflexivity]|].
  destruct (is_undefined (get_optional (body req) "Version"));
    [split; [split; [reflexivity | intros _; eexists; split; reflexivity]
            | reflexivity]|].
  split; [|discriminate]. split; [|discriminate].
  intros (r & Hr & H400).
  destruct (let! queryName := get (body req) "name" in _) as [call|e|n];
    simpl in Hr; try (injection Hr as <-; discriminate); try discriminate.
  destruct (getMetaDataByQuery findMany call) as [t [rows|]|t e|];
    try (injection Hr as <-; discriminate); discriminate.
Qed.

(** X21.  The [process.exit] inside [parseVersion] is not stopped by the
    [try] of [getPackages]: when [parseVersion] ends the process on the
    [Version] of a request, the handler sends no answer and asks the
    database nothing. *)
Theorem getPackages_ends_with_parseVersion (req : Request)
  (fields : gmap string JSValue) (v : string) (n : Z) :
  body req = JObject fields ->
  is_undefined (default JUndefined (fields !! "Name")) = false ->
  fields !! "Version" = Some (JString v) ->
  parseVersion lib v = Exits n ->
  getPackages lib findMany req = (ProcessExits n, []).
Proof.
  intros Hbody HName HVersion Hexit. unfold getPackages.
  rewrite Hbody. cbn [get_optional get]. rewrite HName, HVersion.
  cbn [default from_option id is_undefined obind parseVersion_of].
  now rewrite Hexit.
Qed.

(** X22.  Once [Name] and [Version] are there and [Version] parses to a
    range, [getPackages] asks the database once, for the page of the
    [offset] of the request, and answers as the database does: with the rows
    and the header [offset] when it answers; with 500 and the text
    [packageMetaData is null], not with the error, when it fails; and never
    when the database never settles. *)
Theorem getPackages_answers_as_the_database_does (req : Request)
  (fields : gmap string JSValue) (v : string) (range : VersionRange) :
  body req = JObject fields ->
  is_undefined (default JUndefined (fields !! "Name")) = false ->
  fields !! "Version" = Some (JString v) ->
  parseVersion lib v = Returns range ->
  let page := match query req !! "offset" with
              | None => Num 1
              | Some s => ParseInt.parseInt s
              end in
  let call := {| queryName := default JUndefined (fields !! "name");
                 minVersion_arg := min range; maxVersion_arg := max range;
                 minInclusive_arg := minInclusive range;
                 maxInclusive_arg := maxInclusive range;
                 offset := page |} in
  snd (getPackages lib findMany req) = [call]
  /\ (forall t rows, findMany (findManyArgs call) = Fulfilled t rows ->
        fst (getPackages lib findMany req)
        = Responds {| status := 200; headers := [("offset", page)];
                      payload := JsonMetadata (map toApi rows) |})
  /\ (forall t e, findMany (findManyArgs call) = Rejected t e ->
        fst (getPackages lib findMany req)
        = Responds (respond 500
            (Send "Error in getPackageMetaData: packageMetaData is null")))
  /\ (findMany (findManyArgs call) = Pending ->
        fst (getPackages lib findMany req) = NeverResponds).
Proof.
  intros Hbody HName HVersion Hrange. cbv zeta. unfold getPackages.
  rewrite Hbody. cbn [get_optional get]. rewrite HName, HVersion.
  cbn [default from_option id is_undefined obind parseVersion_of].
  rewrite Hrange. cbn [obind snd fst]. unfold getMetaDataByQuery.
  split; [reflexivity|]. split; [|split].
  - now intros t rows ->.
  - now intros t e ->.
  - now intros ->.
Qed.

End GetPackagesAnswers.

Lemma getPackages_ends_with_parseVersion_witness :
  getPackages SemverRef.lib (fun _ => Fulfilled 3 one_row) query_any_version
    = (ProcessExits 1, []).
Proof.
  apply (getPackages_ends_with_parseVersion SemverRef.lib _ query_any_version
           (<[ "Version" := JString "" ]> (<[ "Name" := JString "*" ]> ∅))
           "" 1);
    reflexivity.
Defined.

Lemma getPackages_answers_as_the_database_does_witness :
  snd (getPackages SemverRef.lib (fun _ => Rejected 3 (Error "P1001"))
         query_1_2_3)
    = [ {| queryName := JString "*";
           minVersion_arg := "1.2.3"; maxVersion_arg := "1.2.3";
           minInclusive_arg := true; maxInclusive_arg := true;
           offset := Num 9007199254740992 |} ]
  /\ fst (getPackages SemverRef.lib (fun _ => Rejected 3 (Error "P1001"))
            query_1_2_3)
     = Responds (respond 500
         (Send "Error in getPackageMetaData: packageMetaData is null")).
Proof.
  destruct (getPackages_answers_as_the_database_does SemverRef.lib
              (fun _ => Rejected 3 (Error "P1001")) query_1_2_3
              (<[ "Version" := JString "1.2.3" ]>
                 (<[ "Name" := JString "*" ]>
                    (<[ "name" := JString "*" ]> ∅)))
              "1.2.3"
              {| min := "1.2.3"; max := "1.2.3";
                 minInclusive := true; maxInclusive := true |}
              eq_refl eq_refl eq_refl eq_refl)
    as (Hcall & _ & Hfail & _).
  split; [exact Hcall|]. exact (Hfail 3%N (Error "P1001") eq_refl).
Defined.

(** ** [getMetaDataByQuery]: the page asked for *)

Lemma double_of_Z_exact (z : Z) :
  Z.abs z < 2 ^ 53 -> double_of_Z z = Num z.
Proof.
  intros H. unfold double_of_Z. cbv zeta.
  now rewrite (proj2 (Z.ltb_lt _ _) H).
Qed.

(** X23.  [getMetaDataByQuery] asks for ten rows at a time.  Every offset
    up to 1, so 0 and the negative ones, gives the first page; from 1 up to
    900719925474100, where ten times the offset is still an exact double,
    the rows skipped are ten times the offset less one, so that the page of
    offset [n + 1] starts where the page of offset [n] ends.  Beyond, the
    product is rounded: the offset 1801439850948200 skips
    18014398509481992 rows. *)
Theorem getMetaDataByQuery_pages (c : QueryCall) (n : Z) :
  offset c = Num n ->
  take (findManyArgs c) = Num 10
  /\ (n <= 1 -> skip (findManyArgs c) = Num 0)
  /\ (1 <= n <= 900719925474100 ->
      skip (findManyArgs c) = Num (10 * (n - 1)))
  /\ (1 <= n < 900719925474100 ->
      forall c', offset c' = Num (n + 1) ->
        skip (findManyArgs c') = Num (10 * (n - 1) + 10))
  /\ (n = 1801439850948200 ->
      skip (findManyArgs c) = Num 18014398509481992).
Proof.
  intros Hn.
  assert (forall k, 1 <= k <= 900719925474100 ->
            recordsToSkip (Num k) = Num (10 * (k - 1))) as Hpage.
  { intros k Hk. unfold recordsToSkip, max_one, pageSize.
    rewrite Z.max_r by lia.
    rewrite double_of_Z_exact by (change (2 ^ 53) with 9007199254740992; lia).
    rewrite double_of_Z_exact by (change (2 ^ 53) with 9007199254740992; lia).
    f_equal. lia. }
  unfold findManyArgs. cbn [take skip]. rewrite Hn.
  split; [reflexivity|]. split; [|split; [|split]].
  - intros H. unfold recordsToSkip, max_one. rewrite Z.max_l by lia.
    reflexivity.
  - intros H. now apply Hpage.
  - intros H c' ->. rewrite Hpage by lia. f_equal. lia.
  - intros ->. vm_compute. reflexivity.
Qed.

Lemma getMetaDataByQuery_pages_witness :
  take (findManyArgs range_1_0_0_to_2_0_0) = Num 10
  /\ skip (findManyArgs range_1_0_0_to_2_0_0) = Num 0.
Proof.
  destruct (getMetaDataByQuery_pages range_1_0_0_to_2_0_0 1 eq_refl)
    as (Htake & Hfirst & _).
  split; [exact Htake | apply Hfirst; lia].
Defined.

(** ** [getPackagesByRegEx], [updatePackage] and [getPackageDownload] *)

(** X24.  [getPackagesByRegEx] always answers, and within five seconds,
    with 200, 400 or 500: with 400 exactly when the body has no [RegEx],
    and with 500 and the text [dbPackageMetaData is null] at five seconds
    when the database has not settled before. *)
Theorem getPackagesByRegEx_answers_within_five_seconds
  (findManyContains : string -> Promise (list MetadataRow))
  (findManyUntyped : JSValue -> Promise (list MetadataRow)) (req : Request) :
  exists t r,
    getPackagesByRegEx findManyContains findManyUntyped req = Fulfilled t r
    /\ (t <= 5000)%N
    /\ (code r = 200 \/ code r = 400 \/ code r = 500)
    /\ (code r = 400 <-> get_optional (body req) "RegEx" = JUndefined)
    /\ (forall s, get_optional (body req) "RegEx" = JString s ->
          settled_before (findManyContains s) 5000 = false ->
          t = 5000%N
          /\ r = {| code := 500;
                    sent := Plain "Error in getPackagesByRegEx: dbPackageMetaData is null" |}).
Proof.
  unfold getPackagesByRegEx, getMetaDataByRegEx, race_timeout, timeout_ms,
    settled_before.
  destruct (get_optional (body req) "RegEx") as [| |b|n|s|fields].
  1:{ eexists _, _. split; [reflexivity|]. split; [lia|].
      split; [tauto|]. split; [tauto | discriminate]. }
  4:{ destruct (findManyContains s) as [t v|t e|] eqn:Hp;
        try destruct (N.ltb_spec t 5000) as [Hin|Hout];
        eexists _, _; (split; [reflexivity|]); (split; [lia|]);
        (split; [simpl; tauto|]);
        (split; [simpl; split; discriminate|]);
        intros s' [= <-]; rewrite Hp; intros Hlate;
        first [ split; reflexivity | apply N.ltb_ge in Hlate; lia ]. }
  all: destruct (findManyUntyped _) as [t v'|t e|];
    try destruct (N.ltb_spec t 5000);
    eexists _, _; (split; [reflexivity|]); (split; [lia|]);
    (split; [simpl; tauto|]);
    (split; [simpl; split; discriminate | discriminate]).
Qed.

(** X25.  [updatePackage] answers with 200, 400 or 500 only: its answers
    404 [Package does not exist.] and 400 [Package ID, name, or version do
    not match.] are never sent, because [updatePackageDetails] keeps every
    error of the database to itself. *)
Theorem updatePackage_never_answers_not_found
  (update : UpdateArgs -> Outcome StoredData) (params : gmap string string)
  (req : Request) (r : Reply (option ApiData)) :
  updatePackage update params req = Answers r ->
  (code r = 200 \/ code r = 400 \/ code r = 500)
  /\ sent r <> Plain "Package does not exist."
  /\ sent r <> Plain "Package ID, name, or version do not match.".
Proof.
  unfold updatePackage.
  destruct (get (body req) "metadata") as [metadata|e|n]; cbn [obind];
    [|intros [= <-]; simpl; repeat split; (tauto || discriminate)
     |discriminate].
  destruct (get (body req) "data") as [data|e|n]; cbn [obind];
    [|intros [= <-]; simpl; repeat split; (tauto || discriminate)
     |discriminate].
  destruct (_ || _);
    [intros [= <-]; simpl; repeat split; (tauto || discriminate)|].
  destruct (params !! "id") as [[|c packageId]|];
    try (intros [= <-]; simpl; repeat split; (tauto || discriminate)).
  destruct (negb _);
    [intros [= <-]; simpl; repeat split; (tauto || discriminate)|].
  unfold updatePackageDetails.
  destruct (let! c := get data "Content" in _) as [d|e|n];
    intros [= <-]; simpl; repeat split; (tauto || discriminate).
Qed.

Lemma updatePackage_never_answers_not_found_witness :
  sent {| code := 200; sent := Document (@None ApiData) |}
    <> Plain "Package does not exist.".
Proof.
  apply (updatePackage_never_answers_not_found update_unknown
           route_id_1 update_of_id_1
           {| code := 200; sent := Document None |}).
  reflexivity.
Defined.

(** X26.  When the request is well formed and the identifier of the route
    is the one of the body, [updatePackage] answers 200 whatever the
    database does: with the stored data when the update succeeds, and with
    [Data: null] when it fails, be it because no such package exists. *)
Theorem updatePackage_failed_update_is_answered_200
  (update : UpdateArgs -> Outcome StoredData) (params : gmap string string)
  (req : Request) (fields : gmap string JSValue) (metadata data : JSValue)
  (packageId : string) :
  body req = JObject fields ->
  fields !! "metadata" = Some metadata -> fields !! "data" = Some data ->
  truthy metadata = true -> truthy data = true ->
  truthy (get_optional metadata "Name") = true ->
  truthy (get_optional metadata "Version") = true ->
  get_optional metadata "ID" = JString packageId ->
  params !! "id" = Some packageId -> packageId <> "" ->
  let args :=
    {| update_id := packageId;
       new_content := or_empty (get_optional data "Content");
       new_URL := or_empty (get_optional data "URL");
       new_JSProgram := or_empty (get_optional data "JSProgram") |} in
  (forall e, update args = Throws e ->
     updatePackage update params req
     = Answers {| code := 200; sent := Document None |})
  /\ (forall stored, update args = Returns stored ->
        updatePackage update params req
        = Answers {| code := 200;
                     sent := Document (Some
                       {| data_Content := stored_content stored;
                          data_URL := stored_URL stored;
                          data_JSProgram := stored_JSProgram stored |}) |}).
Proof.
  intros Hbody Hmeta Hdata Tm Td TN TV HID Hid Hne. cbv zeta.
  assert (forall k, get data k = Returns (get_optional data k)) as Hget.
  { intros k. destruct data; try reflexivity; discriminate. }
  assert (updatePackage update params req =
          match updatePackageDetails update packageId data with
          | Returns updatedData =>
              Answers {| code := 200; sent := Document updatedData |}
          | Throws error =>
              if Js.includes "do not match" (message error)
              then Answers {| code := 400;
                              sent := Plain "Package ID, name, or version do not match." |}
              else Answers {| code := 404;
                              sent := Plain "Package does not exist." |}
          | Exits n => ProcessEnds n
          end) as ->.
  { unfold updatePackage. rewrite Hbody. cbn [get]. rewrite Hmeta, Hdata.
    cbn [default from_option id obind].
    rewrite Tm, Td, TN, TV, HID.
    assert (truthy (JString packageId) = true) as ->
      by (simpl; now apply negb_true_iff, String.eqb_neq).
    cbn [negb orb]. rewrite Hid.
    destruct packageId as [|c packageId]; [congruence|].
    rewrite String.eqb_refl. cbn [negb].
    destruct (updatePackageDetails update (String c packageId) data)
      as [d|e|n]; try reflexivity.
    now destruct (Js.includes "do not match" (message e)). }
  unfold updatePackageDetails. rewrite !Hget. cbn [obind].
  split.
  - intros e ->. reflexivity.
  - intros stored ->. reflexivity.
Qed.

Lemma updatePackage_failed_update_is_answered_200_witness :
  updatePackage update_unknown route_id_1 update_of_id_1
    = Answers {| code := 200; sent := Document None |}.
Proof.
  destruct (updatePackage_failed_update_is_answered_200 update_unknown
              route_id_1 update_of_id_1
              (<[ "metadata" :=
                    JObject (<[ "Name" := JString "widget" ]>
                            (<[ "Version" := JString "1.2.3" ]>
                            (<[ "ID" := JString "id-1" ]> ∅))) ]>
              (<[ "data" := JObject (<[ "Content" := JString "UEs=" ]> ∅) ]> ∅))
              (JObject (<[ "Name" := JString "widget" ]>
                       (<[ "Version" := JString "1.2.3" ]>
                       (<[ "ID" := JString "id-1" ]> ∅))))
              (JObject (<[ "Content" := JString "UEs=" ]> ∅))
              "id-1"
              eq_refl eq_refl eq_refl eq_refl eq_refl eq_refl eq_refl eq_refl
              eq_refl ltac:(discriminate))
    as (Hfail & _).
  exact (Hfail (Error "Record to update not found.") eq_refl).
Defined.

(** X27.  [getPackageDownload] answers a failure of the database as it
    answers an unknown package, with 404 [Package not found]: [getPackage]
    keeps the error to itself, so the 500 of the handler is not what a
    failing database gets. *)
Theorem getPackageDownload_database_failure_is_not_found
  (findFirst : string -> Outcome (option StoredPackage)) (req : Request)
  (packageID : string) :
  query req !! "name" = Some packageID ->
  (exists e, findFirst packageID = Throws e)
  \/ findFirst packageID = Returns None ->
  getPackageDownload findFirst req
    = Answers {| code := 404; sent := Plain "Package not found" |}.
Proof.
  intros Hname Hfail. unfold getPackageDownload, getPackage. rewrite Hname.
  destruct Hfail as [(e & ->) | ->]; reflexivity.
Qed.

Lemma getPackageDownload_database_failure_is_not_found_witness :
  getPackageDownload (fun _ => Throws (Error "P1001")) download_of_id_1
    = Answers {| code := 404; sent := Plain "Package not found" |}.
Proof.
  apply (getPackageDownload_database_failure_is_not_found
           (fun _ => Throws (Error "P1001")) download_of_id_1 "id-1");
    [reflexivity | left; exists (Error "P1001"); reflexivity].
Defined.

(** ** [getGithubUrl] and [getPackagePopularity] *)

Lemma strip_prefix_none (p s : string) :
  Js.startsWith p s = false -> Js.strip_prefix p s = None.
Proof.
  revert s. induction p as [|a p IH]; intros [|b s]; simpl;
    try discriminate; try reflexivity.
  destruct (Ascii.eqb a b); simpl; [apply IH | reflexivity].
Qed.

Lemma cut_at_none (sep s : string) :
  Js.includes sep s = false -> cut_at sep s = None.
Proof.
  induction s as [|c s IH]; simpl.
  - rewrite orb_false_r. intros H. now rewrite (strip_prefix_none _ _ H).
  - intros [H1 H2]%orb_false_iff.
    now rewrite (strip_prefix_none _ _ H1), (IH H2).
Qed.

Lemma split_on_without_separator (sep s : string) :
  cut_at sep s = None -> split_on sep s = [s].
Proof.
  intros H. unfold split_on. destruct (String.length s); simpl; now rewrite H.
Qed.

Lemma split_on_second (sep s a r : string) :
  sep <> "" -> cut_at sep s = Some (a, r) ->
  split_on sep s !! 1%nat = Some (default r (fst <$> cut_at sep r)).
Proof.
  intros Hsep Hcut. unfold split_on.
  destruct s as [|c s].
  { destruct sep; [congruence | discriminate]. }
  cbn [String.length split_on_fuel]. rewrite Hcut.
  change ((a :: split_on_fuel (String.length s) sep r) !! 1%nat)
    with (split_on_fuel (String.length s) sep r !! 0%nat).
  destruct (String.length s); simpl;
    now destruct (cut_at sep r) as [[b r']|].
Qed.

Lemma startsWith_before (sep x rest : string) (q : ascii) :
  Js.forallb (fun c => negb (Ascii.eqb c q)) sep = true ->
  Js.startsWith sep (x +:+ String q rest) = true ->
  Js.startsWith sep x = true.
Proof.
  revert x. induction sep as [|a sep IH]; intros x Hq; [reflexivity|].
  apply andb_true_iff in Hq as [Ha Hq]. apply negb_true_iff in Ha.
  destruct x as [|c x]; simpl.
  - rewrite Ha. discriminate.
  - intros [Hc H]%andb_true_iff. rewrite Hc. simpl. now apply IH.
Qed.

Lemma strip_prefix_some_startsWith (p s r : string) :
  Js.strip_prefix p s = Some r -> Js.startsWith p s = true.
Proof.
  revert s. induction p as [|a p IH]; intros [|b s]; simpl;
    try discriminate; try reflexivity.
  destruct (Ascii.eqb a b); simpl; [apply IH | discriminate].
Qed.

Lemma includes_empty_pattern (s : string) : Js.includes "" s = true.
Proof. destruct s; reflexivity. Qed.

(** a cut that falls after [x] and the character [q] keeps both in front *)
Lemma cut_at_past (sep x rest b r : string) (q : ascii) :
  Js.forallb (fun c => negb (Ascii.eqb c q)) sep = true ->
  Js.includes sep x = false ->
  cut_at sep (x +:+ String q rest) = Some (b, r) ->
  exists b', b = x +:+ String q b'.
Proof.
  intros Hq. revert b. induction x as [|c x IH]; intros b Hx.
  - change ("" +:+ String q rest) with (String q rest). simpl cut_at.
    destruct (Js.strip_prefix sep (String q rest)) as [t|] eqn:Hp.
    { apply strip_prefix_some_startsWith in Hp.
      destruct sep as [|a sep]; [now rewrite includes_empty_pattern in Hx|].
      apply andb_true_iff in Hq as [Ha _]. apply negb_true_iff in Ha.
      simpl in Hp. rewrite Ha in Hp. discriminate. }
    destruct (cut_at sep rest) as [[a r']|]; [|discriminate].
    intros [= <- _]. now exists a.
  - simpl in Hx. apply orb_false_iff in Hx as [Hs Hx].
    change (String c x +:+ String q rest) with (String c (x +:+ String q rest)).
    simpl cut_at.
    destruct (Js.strip_prefix sep (String c (x +:+ String q rest)))
      as [t|] eqn:Hp.
    { apply strip_prefix_some_startsWith in Hp.
      apply (startsWith_before sep (String c x) rest q Hq) in Hp.
      congruence. }
    destruct (cut_at sep (x +:+ String q rest)) as [[a r']|] eqn:Hcut;
      [|discriminate].
    intros [= <- <-]. destruct (IH a Hx eq_refl) as (b' & ->).
    now exists b'.
Qed.

Lemma split_char_first (sep : ascii) (a rest : string) :
  Js.forallb (fun c => negb (Ascii.eqb c sep)) a = true ->
  stops (fun c => negb (Ascii.eqb c sep)) rest ->
  exists tl, Js.split_char sep (a +:+ rest) = a :: tl.
Proof.
  intros Ha Hrest. destruct rest as [|c rest].
  - rewrite append_empty_r. exists []. now apply split_char_whole.
  - simpl in Hrest. apply negb_false_iff, Ascii.eqb_eq in Hrest. subst c.
    eexists. now apply split_char_append.
Qed.

Section PopularityFacts.

Variable fetch_text : string -> Outcome string.
Variable getRequest : string -> Outcome JSValue.

(** X28.  When the page of the package does not mention [github.com],
    [getGithubUrl] throws a [TypeError], and so does
    [getPackagePopularity] on an address of [npmjs.com], before asking
    GitHub anything. *)
Theorem getGithubUrl_page_without_github_throws (npmUrl text : string) :
  fetch_text npmUrl = Returns text ->
  Js.includes "github.com" text = false ->
  getGithubUrl fetch_text npmUrl
    = Throws (TypeError "Cannot read properties of undefined (reading 'split')")
  /\ (Js.includes "npmjs.com" npmUrl = true ->
      getPackagePopularity fetch_text getRequest npmUrl
        = Throws (TypeError
                    "Cannot read properties of undefined (reading 'split')")).
Proof.
  intros Hfetch Hnone.
  assert (getGithubUrl fetch_text npmUrl
          = Throws (TypeError
                      "Cannot read properties of undefined (reading 'split')"))
    as Hthrow.
  { unfold getGithubUrl. rewrite Hfetch. cbn [obind].
    now rewrite (split_on_without_separator _ _ (cut_at_none _ _ Hnone)). }
  split; [exact Hthrow|].
  intros Hnpm. unfold getPackagePopularity. now rewrite Hnpm, Hthrow.
Qed.

(** X29.  [getGithubUrl] keeps the owner found on the page but not the
    repository: when the first [github.com] of the page is followed by
    [/owner/repo] and a double quote, and the address of the package is
    [...package/name], the result is [https://github.com/owner/name]. *)
Theorem getGithubUrl_names_repository_after_package
  (npmUrl base name text pre o p rest : string) :
  cut_at "package/" npmUrl = Some (base, name) ->
  Js.includes "package/" name = false ->
  fetch_text npmUrl = Returns text ->
  cut_at "github.com" text
    = Some (pre, "/" +:+ o +:+ "/" +:+ p +:+ String "034" rest) ->
  Js.forallb not_slash o = true ->
  Js.forallb not_quote ("/" +:+ o +:+ "/" +:+ p) = true ->
  Js.includes "github.com" ("/" +:+ o +:+ "/" +:+ p) = false ->
  getGithubUrl fetch_text npmUrl
    = Returns ("https://github.com/" +:+ o +:+ "/" +:+ name).
Proof.
  intros Hname Hlast Hfetch Hpage Ho Hquote Hfirst.
  unfold getGithubUrl. rewrite Hfetch. cbn [obind].
  rewrite (split_on_second "package/" npmUrl base name ltac:(discriminate)
             Hname).
  rewrite (cut_at_none _ _ Hlast). cbn [fmap option_fmap option_map default
                                          from_option id].
  rewrite (split_on_second "github.com" text pre _ ltac:(discriminate)
             Hpage).
  set (x := "/" +:+ o +:+ "/" +:+ p) in *.
  assert ("/" +:+ o +:+ "/" +:+ p +:+ String "034" rest
          = x +:+ String "034" rest) as ->
    by (unfold x; simpl; now rewrite !append_assoc).
  assert (exists tl,
            Js.split_char "034"
              (default (x +:+ String "034" rest)
                 (fst <$> cut_at "github.com" (x +:+ String "034" rest)))
            = x :: tl) as (tl & ->).
  { destruct (cut_at "github.com" (x +:+ String "034" rest))
      as [[b r']|] eqn:Hcut; cbn [fmap option_fmap option_map default
                                   from_option id fst].
    - destruct (cut_at_past "github.com" x rest b r' "034" eq_refl Hfirst Hcut)
        as (b' & ->).
      eexists. now apply split_char_append.
    - eexists. now apply split_char_append. }
  cbn [head default from_option id].
  unfold x. change ("/" +:+ o +:+ "/" +:+ p) with (String "/" (o +:+ "/" +:+ p)).
  cbn [Js.split_char]. rewrite Ascii.eqb_refl.
  change (o +:+ "/" +:+ p) with (o +:+ String "/" p).
  rewrite (split_char_append "/" o p Ho).
  cbn [lookup list_lookup text_of default from_option id].
  reflexivity.
Qed.

(** X30.  For an address [https://github.com/owner/repo], alone or
    followed by a path, [getPackagePopularity] asks GitHub for
    [/repos/owner/repo], with [repo] as it stands in the address, and
    returns the two counts of the answer. *)
Theorem getPackagePopularity_of_github_address (o p rest : string)
  (fields : gmap string JSValue) :
  Js.forallb not_slash o = true -> Js.forallb not_slash p = true ->
  stops not_slash rest ->
  Js.includes "npmjs.com" ("https://github.com/" +:+ o +:+ "/" +:+ p +:+ rest)
    = false ->
  getRequest ("/repos/" +:+ o +:+ "/" +:+ p) = Returns (JObject fields) ->
  getPackagePopularity fetch_text getRequest
    ("https://github.com/" +:+ o +:+ "/" +:+ p +:+ rest)
    = Returns {| stars := default JUndefined (fields !! "stargazers_count");
                 forks := default JUndefined (fields !! "forks_count") |}.
Proof.
  intros Ho Hp Hrest Hnpm Hanswer.
  unfold getPackagePopularity. rewrite Hnpm. cbn [obind].
  destruct (split_char_first "/" p rest Hp Hrest) as (tl & Htl).
  assert (Js.split_char "/"
            ("https://github.com/" +:+ o +:+ "/" +:+ p +:+ rest)
          = "https:" :: "" :: "github.com" :: o :: p :: tl) as ->.
  { change ("https://github.com/" +:+ o +:+ "/" +:+ p +:+ rest)
      with ("https:" +:+ String "/" ("" +:+ String "/"
              ("github.com" +:+ String "/" (o +:+ String "/" (p +:+ rest))))).
    rewrite (split_char_append "/" "https:") by reflexivity.
    rewrite (split_char_append "/" "") by reflexivity.
    rewrite (split_char_append "/" "github.com") by reflexivity.
    rewrite (split_char_append "/" o) by exact Ho.
    now rewrite Htl. }
  cbn [lookup list_lookup text_of default from_option id].
  rewrite Hanswer. reflexivity.
Qed.

End PopularityFacts.

Lemma getGithubUrl_page_without_github_throws_witness :
  getGithubUrl (fun _ => Returns "<h1>404</h1>") lodash_merge_url
    = Throws (TypeError "Cannot read properties of undefined (reading 'split')").
Proof.
  apply (getGithubUrl_page_without_github_throws
           (fun _ => Returns "<h1>404</h1>") (fun _ => Returns JNull)
           lodash_merge_url "<h1>404</h1>");
    reflexivity.
Defined.

Lemma getGithubUrl_names_repository_after_package_witness :
  getGithubUrl (fun _ => Returns lodash_merge_page) lodash_merge_url
    = Returns "https://github.com/lodash/lodash.merge".
Proof.
  apply (getGithubUrl_names_repository_after_package
           (fun _ => Returns lodash_merge_page) lodash_merge_url
           "https://www.npmjs.com/" "lodash.merge" lodash_merge_page
           (String "<" (String "a" (String " " (String "h" (String "r"
              (String "e" (String "f" (String "=" (String "034" "https://")))))))))
           "lodash" "lodash"
           (">repo</a><a href=" +:+ quoted "https://github.com/npm"
            +:+ ">npm</a>"));
    reflexivity.
Defined.

Lemma getPackagePopularity_of_github_address_witness :
  getPackagePopularity (fun _ => Throws (Error "offline")) github_api
    "https://github.com/expressjs/express/tree/master"
    = Returns {| stars := JNumber (Num 64000); forks := JNumber (Num 15000) |}.
Proof.
  exact (getPackagePopularity_of_github_address
           (fun _ => Throws (Error "offline")) github_api
           "expressjs" "express" "/tree/master" express_counts
           eq_refl eq_refl eq_refl eq_refl eq_refl).
Defined.
